(** * Trazamatic ETL: cleaning rules and analytical tables

    A shallow embedding of [src/etl/transform.py] (class [DataTransformer])
    and [src/etl/load.py] (class [DataLoader]) together with the part of
    pandas both rely on.

    Conventions of the embedding.
    - A pandas [DataFrame] is an ordered list of named columns; a column
      ([Series]) carries its dtype and its cells.  Frames come from
      [pd.read_csv] (see [src/etl/extract.py]), so the row index is the
      [RangeIndex] 0..n-1 and a row label is a row position.
    - A cell is null ([NaN], [None] and [NaT] are one value, as for
      [isna]), a number, a Python [str] or a timestamp.
    - float64 (and int64) values are extended rationals: finite values are
      exact rationals, without rounding or overflow, next to the two
      infinities; NaN is the null cell.  Division follows IEEE 754 on zero
      denominators, which is what pandas does for [Series / Series].
    - Python exceptions are values of [result]: a function that can raise
      returns [Raise e].
    - Strings are ASCII text: [strip], [lower] and [title] are the Python
      methods on ASCII strings, and a byte above 127 is an uncased,
      non-blank, non-digit character.  A statement that tells what these
      methods return is about ASCII text.
    - What pandas parses out of a string (numbers for [to_numeric], dates
      for [to_datetime]) is a parameter of the development, bundled in the
      class [Parsers].
    - [df[c]] is the first column labelled [c].  A merge raises when a
      column it reads is missing; it is not told apart from the others when
      its suffixes would give one label to two columns, or when its two key
      columns have incompatible dtypes (numbers against strings), where
      pandas raises [MergeError] and [ValueError].  The statements about the
      derived tables are therefore about the tables that are built.
    - Timestamps are naive ([pd.to_datetime] gives datetime64 without a
      time zone), and their differences are always defined.
    - Writing a file succeeds: [save_processed], [save_analytics] and
      [run_etl] describe the runs in which [mkdir] and [to_csv] do not
      raise.
    - ['sum'] adds the numbers of a group and skips its other cells; the
      statements about sums are about numeric columns. *)

From Stdlib Require Import Ascii String QArith Qcanon Qround.
From stdpp Require Import base numbers list strings gmap sorting pretty.

Local Open Scope string_scope.
Local Open Scope list_scope.
Local Open Scope nat_scope.

(** ** Python exceptions *)

Inductive exn := KeyError | AttributeError | TypeError | ValueError.

Inductive result (A : Type) :=
  | Ok (a : A)
  | Raise (e : exn).
Arguments Ok {A} a.
Arguments Raise {A} e.

#[global] Instance result_ret : MRet result := λ A a, Ok a.
#[global] Instance result_bind : MBind result := λ A B f m,
  match m with
  | Ok a => f a
  | Raise e => Raise e
  end.

Definition is_Ok {A} (r : result A) : bool :=
  match r with Ok _ => true | Raise _ => false end.

(** [for x in xs: acc = body(acc, x)], stopping at the first exception. *)
Fixpoint for_each {A S} (body : S → A → result S) (xs : list A) (acc : S)
  : result S :=
  match xs with
  | [] => Ok acc
  | x :: xs' => acc' ← body acc x; for_each body xs' acc'
  end.

(** ** Python [str] methods, on ASCII *)

Module Py.

(** [str.isspace] on one character: TAB, LF, VT, FF, CR, FS, GS, RS, US and
    the space. *)
Definition isspace (c : ascii) : bool :=
  let n := N_of_ascii c in
  ((9 <=? n) && (n <=? 13) || (28 <=? n) && (n <=? 32))%N.

(** The class [\d]. *)
Definition isdigit (c : ascii) : bool :=
  let n := N_of_ascii c in ((48 <=? n) && (n <=? 57))%N.

Definition isupper (c : ascii) : bool :=
  let n := N_of_ascii c in ((65 <=? n) && (n <=? 90))%N.

Definition islower (c : ascii) : bool :=
  let n := N_of_ascii c in ((97 <=? n) && (n <=? 122))%N.

Definition iscased (c : ascii) : bool := isupper c || islower c.

Definition tolower (c : ascii) : ascii :=
  if isupper c then ascii_of_N (N_of_ascii c + 32) else c.

Definition toupper (c : ascii) : ascii :=
  if islower c then ascii_of_N (N_of_ascii c - 32) else c.

Fixpoint lstrip (s : string) : string :=
  match s with
  | EmptyString => EmptyString
  | String c s' => if isspace c then lstrip s' else s
  end.

Fixpoint rstrip (s : string) : string :=
  match s with
  | EmptyString => EmptyString
  | String c s' =>
      match rstrip s' with
      | EmptyString => if isspace c then EmptyString else String c EmptyString
      | r => String c r
      end
  end.

(** [s.strip()] *)
Definition strip (s : string) : string := rstrip (lstrip s).

(** [s.lower()] *)
Fixpoint lower (s : string) : string :=
  match s with
  | EmptyString => EmptyString
  | String c s' => String (tolower c) (lower s')
  end.

(** [s.title()]: a character that follows a cased character is lowered,
    any other is put in title case; [prev] is [previous_is_cased]. *)
Fixpoint title_from (prev : bool) (s : string) : string :=
  match s with
  | EmptyString => EmptyString
  | String c s' =>
      String (if prev then tolower c else toupper c) (title_from (iscased c) s')
  end.

Definition title (s : string) : string := title_from false s.

(** [re.sub(r'\D', '', s)] *)
Fixpoint remove_nondigits (s : string) : string :=
  match s with
  | EmptyString => EmptyString
  | String c s' =>
      if isdigit c then String c (remove_nondigits s') else remove_nondigits s'
  end.

(** [ch in s] for a one-character [ch]. *)
Fixpoint contains (ch : ascii) (s : string) : bool :=
  match s with
  | EmptyString => false
  | String c s' => bool_decide (c = ch) || contains ch s'
  end.

(** [needle in s] for a non-empty [needle]. *)
Fixpoint has_substring (needle s : string) : bool :=
  String.prefix needle s
  || match s with
     | EmptyString => false
     | String _ s' => has_substring needle s'
     end.

(** [s.split(ch)]: the pieces between the occurrences of [ch]. *)
Fixpoint split (ch : ascii) (s : string) : list string :=
  match s with
  | EmptyString => [EmptyString]
  | String c s' =>
      if bool_decide (c = ch) then EmptyString :: split ch s'
      else match split ch s' with
           | [] => [String c EmptyString]
           | p :: ps => String c p :: ps
           end
  end.

(** [str(n)] and [f"{n}"] for a non-negative integer. *)
Definition str_of_nat (n : nat) : string := pretty n.

End Py.

#[global] Arguments Py.isspace : simpl never.
#[global] Arguments Py.isdigit : simpl never.
#[global] Arguments Py.iscased : simpl never.
#[global] Arguments Py.tolower : simpl never.
#[global] Arguments Py.toupper : simpl never.

(** ** float64 values *)

(** A float64 other than NaN.  An arithmetic result of type [option num]
    is NaN when it is [None]. *)
Inductive num :=
  | Fin (q : Qc)
  | PInf
  | NInf.

#[global] Instance num_eq_dec : EqDecision num.
Proof. solve_decision. Defined.

Definition num_of_Z (z : Z) : num := Fin (Qc_of_Z z).
Definition num_of_nat (n : nat) : num := num_of_Z (Z.of_nat n).

Definition is_finite (x : num) : bool :=
  match x with Fin _ => true | _ => false end.

Definition num_leb (x y : num) : bool :=
  match x, y with
  | NInf, _ | _, PInf => true
  | Fin a, Fin b => bool_decide (a ≤ b)%Qc
  | _, _ => false
  end.

Definition num_add (x y : num) : option num :=
  match x, y with
  | Fin a, Fin b => Some (Fin (a + b))
  | PInf, NInf | NInf, PInf => None
  | PInf, _ | _, PInf => Some PInf
  | NInf, _ | _, NInf => Some NInf
  end.

Definition num_neg (x : num) : num :=
  match x with Fin a => Fin (- a) | PInf => NInf | NInf => PInf end.

(** The infinity of the given sign. *)
Definition signed_inf (positive : bool) : num :=
  if positive then PInf else NInf.

Definition num_mul (x y : num) : option num :=
  match x, y with
  | Fin a, Fin b => Some (Fin (a * b))
  | Fin a, (PInf | NInf) as i | (PInf | NInf) as i, Fin a =>
      if bool_decide (a = 0)%Qc then None
      else Some (if bool_decide (0 < a)%Qc then i else num_neg i)
  | PInf, PInf | NInf, NInf => Some PInf
  | PInf, NInf | NInf, PInf => Some NInf
  end.

(** IEEE 754 division: a finite non-zero value over zero is an infinity,
    zero over zero and infinity over infinity are NaN. *)
Definition num_div (x y : num) : option num :=
  match x, y with
  | Fin a, Fin b =>
      if bool_decide (b = 0)%Qc then
        if bool_decide (0 < a)%Qc then Some PInf
        else if bool_decide (a < 0)%Qc then Some NInf
        else None
      else Some (Fin (a / b))
  | Fin _, (PInf | NInf) => Some (Fin 0)
  | PInf, Fin b => Some (signed_inf (bool_decide (0 ≤ b)%Qc))
  | NInf, Fin b => Some (signed_inf (negb (bool_decide (0 ≤ b)%Qc)))
  | (PInf | NInf), (PInf | NInf) => None
  end.

(** Rounding to the nearest integer, ties to the even one ([np.rint]). *)
Definition round_half_even (q : Qc) : Z :=
  let fl := Qfloor q in
  let r := (q - Qc_of_Z fl)%Qc in
  if bool_decide (r < Q2Qc (1 # 2))%Qc then fl
  else if bool_decide (Q2Qc (1 # 2) < r)%Qc then (fl + 1)%Z
  else if Z.even fl then fl else (fl + 1)%Z.

(** [np.round(x, 2)]: scale by 100, round to the nearest integer, scale
    back. *)
Definition num_round2 (x : num) : num :=
  match x with
  | Fin q => Fin (Qc_of_Z (round_half_even (q * Qc_of_Z 100)) / Qc_of_Z 100)
  | i => i
  end.

(** ** Cells, columns and frames *)

Inductive cell :=
  | NA                 (* NaN, None, NaT *)
  | VNum (x : num)     (* int64 / float64 *)
  | VStr (s : string)  (* str *)
  | VDate (t : Z).     (* Timestamp, in nanoseconds since the epoch *)

#[global] Instance cell_eq_dec : EqDecision cell.
Proof. solve_decision. Defined.

Definition of_float (o : option num) : cell :=
  match o with Some x => VNum x | None => NA end.

Definition of_timestamp (o : option Z) : cell :=
  match o with Some t => VDate t | None => NA end.

Definition isna (c : cell) : bool :=
  match c with NA => true | _ => false end.

Definition notna (c : cell) : bool := negb (isna c).

Inductive dtype :=
  | Numeric      (* int64, float64 *)
  | Object
  | Datetime64.

#[global] Instance dtype_eq_dec : EqDecision dtype.
Proof. solve_decision. Defined.

Record Series := mkSeries { dtype_of : dtype; values : list cell }.

#[global] Instance Series_eq_dec : EqDecision Series.
Proof. solve_decision. Defined.

(** A frame: its columns in order, each with its label. *)
Notation DataFrame := (list (string * Series)).

(** [df.columns] *)
Definition columns (df : DataFrame) : list string := df.*1.

(** [c in df.columns] *)
Definition has_column (c : string) (df : DataFrame) : bool :=
  bool_decide (c ∈ columns df).

(** [df[c]] *)
Fixpoint get_column (c : string) (df : DataFrame) : result Series :=
  match df with
  | [] => Raise KeyError
  | (n, s) :: df' => if decide (n = c) then Ok s else get_column c df'
  end.

(** [df[c] = s]: an existing column is replaced in place, a new one is
    added last. *)
Fixpoint set_column (c : string) (s : Series) (df : DataFrame) : DataFrame :=
  match df with
  | [] => [(c, s)]
  | (n, s0) :: df' =>
      if decide (n = c) then (n, s) :: df' else (n, s0) :: set_column c s df'
  end.

(** [df[[c1; ...; cn]]] *)
Fixpoint select (cs : list string) (df : DataFrame) : result DataFrame :=
  match cs with
  | [] => Ok []
  | c :: cs' => s ← get_column c df; rest ← select cs' df; Ok ((c, s) :: rest)
  end.

(** [len(df)] *)
Definition nrows (df : DataFrame) : nat :=
  match df with
  | [] => 0
  | (_, s) :: _ => length (values s)
  end.

(** Every column of the frame has [n] cells. *)
Definition frame_rows (n : nat) (df : DataFrame) : Prop :=
  Forall (λ col, length (values col.2) = n) df.

Fixpoint assoc (k : string) (m : list (string * string)) : option string :=
  match m with
  | [] => None
  | (a, b) :: m' => if decide (a = k) then Some b else assoc k m'
  end.

(** [df.rename(columns=m)] *)
Definition rename (m : list (string * string)) (df : DataFrame) : DataFrame :=
  map (λ col, (default col.1 (assoc col.1 m), col.2)) df.

(** [df.columns = names] for as many names as columns. *)
Definition set_columns (names : list string) (df : DataFrame)
  : result DataFrame :=
  if decide (length names = length df) then Ok (zip names (df.*2))
  else Raise ValueError.

(** *** The [.str] accessor *)

(** [s.str]: only for object columns. *)
Definition str_values (s : Series) : result (list cell) :=
  match dtype_of s with
  | Object => Ok (values s)
  | _ => Raise AttributeError
  end.

(** A string method on one element: a non-string gives NaN. *)
Definition cell_str (f : string → string) (c : cell) : cell :=
  match c with VStr x => VStr (f x) | _ => NA end.

Definition str_method (f : string → string) (s : Series) : result Series :=
  vs ← str_values s; Ok (mkSeries Object (map (cell_str f) vs)).

(** [s.str.strip()], [s.str.title()], [s.str.lower()],
    [s.str.replace(r'\D', '', regex=True)] *)
Definition str_strip := str_method Py.strip.
Definition str_title := str_method Py.title.
Definition str_lower := str_method Py.lower.
Definition str_remove_nondigits := str_method Py.remove_nondigits.

(** *** Masks *)

Definition count_true (mask : list bool) : nat := length (filter Is_true mask).

Fixpoint positions_from (i : nat) (mask : list bool) : list nat :=
  match mask with
  | [] => []
  | b :: mask' =>
      if b then i :: positions_from (S i) mask' else positions_from (S i) mask'
  end.

(** [df[mask].index] *)
Definition true_positions (mask : list bool) : list nat := positions_from 0 mask.

Fixpoint keep_where {A} (mask : list bool) (xs : list A) : list A :=
  match mask, xs with
  | b :: mask', x :: xs' =>
      if b then x :: keep_where mask' xs' else keep_where mask' xs'
  | _, _ => []
  end.

(** [df[mask]] *)
Definition filter_rows (mask : list bool) (df : DataFrame) : DataFrame :=
  map (λ col, (col.1, mkSeries (dtype_of col.2) (keep_where mask (values col.2)))) df.

(** [s.duplicated(keep=False)]: the rows whose value occurs more than
    once; nulls are equal to one another. *)
Definition occurrences (v : cell) (vs : list cell) : nat :=
  length (filter (λ w, w = v) vs).

Definition duplicated (vs : list cell) : list bool :=
  map (λ v, bool_decide (1 < occurrences v vs)) vs.

(** [s.isna()] and [s <= 0] *)
Definition series_isna (s : Series) : list bool := map isna (values s).

Definition cell_le_zero (c : cell) : bool :=
  match c with VNum x => num_leb x (Fin 0) | _ => false end.

Definition series_le_zero (s : Series) : list bool :=
  map cell_le_zero (values s).

(** *** Numeric columns *)

Definition cell_fillna0 (c : cell) : cell :=
  match c with NA => VNum (Fin 0) | _ => c end.

(** [s.fillna(0)] *)
Definition fillna0 (s : Series) : Series :=
  mkSeries (dtype_of s) (map cell_fillna0 (values s)).

Definition cell_div (a b : cell) : cell :=
  match a, b with
  | VNum x, VNum y => of_float (num_div x y)
  | _, _ => NA
  end.

Definition cell_mul (a b : cell) : cell :=
  match a, b with
  | VNum x, VNum y => of_float (num_mul x y)
  | _, _ => NA
  end.

Definition cell_round2 (c : cell) : cell :=
  match c with VNum x => VNum (num_round2 x) | _ => c end.

(** [a / b] on two numeric columns of one frame *)
Definition series_div (a b : Series) : Series :=
  mkSeries Numeric (zip_with cell_div (values a) (values b)).

(** [s * 100] and [s.round(2)] *)
Definition series_times100 (s : Series) : Series :=
  mkSeries Numeric (map (λ c, cell_mul c (VNum (num_of_Z 100))) (values s)).

Definition series_round2 (s : Series) : Series :=
  mkSeries (dtype_of s) (map cell_round2 (values s)).

(** *** Dates *)

Definition ns_per_day : Z := 86400000000000.

(** One element of [(a - b).dt.days] for two datetime columns: the whole
    days of the difference (rounded down), NaN when a date is NaT. *)
Definition cell_days_between (a b : cell) : cell :=
  match a, b with
  | VDate x, VDate y => VNum (num_of_Z ((x - y) `div` ns_per_day))
  | _, _ => NA
  end.

Definition series_days_between (a b : Series) : Series :=
  mkSeries Numeric (zip_with cell_days_between (values a) (values b)).

(** *** What pandas reads out of strings *)

Class Parsers := {
  (** [pd.to_numeric] on one string; [None] when it is no number. *)
  parse_number : string → option num;
  (** [pd.to_datetime(..., errors='coerce')] on the cells of a column that
      is not yet of dtype datetime64: one timestamp or NaT per cell. *)
  parse_datetimes : list cell → list (option Z);
  parse_datetimes_length vs : length (parse_datetimes vs) = length vs;
}.

Section pandas.
Context {reader : Parsers}.

Definition cell_to_numeric (c : cell) : cell :=
  match c with
  | NA => NA
  | VNum x => VNum x
  | VStr s => of_float (parse_number s)
  | VDate t => VNum (num_of_Z t)
  end.

(** [pd.to_numeric(s, errors='coerce')] *)
Definition to_numeric (s : Series) : Series :=
  mkSeries Numeric (map cell_to_numeric (values s)).

(** [pd.to_datetime(s, errors='coerce')] *)
Definition to_datetime (s : Series) : Series :=
  match dtype_of s with
  | Datetime64 => s
  | _ => mkSeries Datetime64 (map of_timestamp (parse_datetimes (values s)))
  end.

End pandas.

(** *** Element access: [df.at[idx, c]] *)

Definition at_get (idx : nat) (c : string) (df : DataFrame) : result cell :=
  s ← get_column c df;
  match values s !! idx with
  | Some v => Ok v
  | None => Raise KeyError
  end.

(** Writing a string into a column makes (or keeps) it an object column. *)
Definition dtype_after_set (v : cell) (d : dtype) : dtype :=
  match v with VStr _ => Object | _ => d end.

Definition at_set (idx : nat) (c : string) (v : cell) (df : DataFrame)
  : result DataFrame :=
  s ← get_column c df;
  Ok (set_column c
        (mkSeries (dtype_after_set v (dtype_of s)) (<[idx := v]> (values s))) df).

(** [df.select_dtypes(include=['object']).columns] *)
Definition object_columns (df : DataFrame) : list string :=
  (filter (λ col, dtype_of col.2 = Object) df).*1.

(** ** [transform.py]: class [DataTransformer] *)

Section DataTransformer.
Context {reader : Parsers}.

(** [df[c] = f(df[c])] for a step [f] that may raise. *)
Definition update_column (c : string) (f : Series → result Series)
    (df : DataFrame) : result DataFrame :=
  s ← get_column c df; s' ← f s; Ok (set_column c s' df).

(** The same, under the guard [if c in df.columns]. *)
Definition update_if_present (c : string) (f : Series → result Series)
    (df : DataFrame) : result DataFrame :=
  if has_column c df then update_column c f df else Ok df.

(** The body of the loop of [transform_clientes] over the duplicated
    rows. *)
Definition suffix_duplicate (df_clean : DataFrame) (idx : nat)
  : result DataFrame :=
  original_email ← at_get idx "email" df_clean;
  match original_email with
  | VStr e =>
      if Py.contains "@" e then
        match Py.split "@" e with
        | [name; domain] =>
            at_set idx "email"
              (VStr (name +:+ Py.str_of_nat idx +:+ "@" +:+ domain)) df_clean
        | _ => Raise ValueError
        end
      else Ok df_clean
  | _ => Raise TypeError
  end.

Definition transform_clientes (df : DataFrame) : result DataFrame :=
  let df_clean :=
    rename [("contacto_telefono", "telefono"); ("contacto_email", "email");
            ("contacto_nombre", "nombre_contacto")] df in
  df_clean ←
    (if has_column "telefono" df_clean then
       df_clean ← update_column "telefono" str_strip df_clean;
       update_column "telefono" str_remove_nondigits df_clean
     else Ok df_clean);
  email ← get_column "email" df_clean;
  let duplicated_emails := duplicated (values email) in
  df_clean ←
    (if bool_decide (0 < count_true duplicated_emails) then
       for_each suffix_duplicate (tail (true_positions duplicated_emails))
         df_clean
     else Ok df_clean);
  let string_columns := object_columns df_clean in
  for_each (λ df_clean col, update_column col str_strip df_clean)
    string_columns df_clean.

Definition transform_ordenes_produccion (df : DataFrame) : result DataFrame :=
  let df_clean := df in
  let date_columns :=
    filter (λ col, Py.has_substring "fecha" (Py.lower col)) (columns df_clean) in
  df_clean ←
    for_each (λ df_clean col,
                update_column col (λ s, Ok (to_datetime s)) df_clean)
      date_columns df_clean;
  df_clean ←
    update_if_present "estado" (λ s, s ← str_strip s; str_title s) df_clean;
  if has_column "fecha_orden" df_clean && has_column "fecha_completado" df_clean
  then
    fecha_completado ← get_column "fecha_completado" df_clean;
    fecha_orden ← get_column "fecha_orden" df_clean;
    Ok (set_column "duracion_dias"
          (series_days_between fecha_completado fecha_orden) df_clean)
  else Ok df_clean.

Definition transform_productos (df : DataFrame) : result DataFrame :=
  let df_clean := df in
  df_clean ← update_if_present "nombre_producto" str_strip df_clean;
  df_clean ← update_if_present "precio" (λ s, Ok (to_numeric s)) df_clean;
  if has_column "precio" df_clean then
    precio ← get_column "precio" df_clean;
    let invalid_prices :=
      zip_with orb (series_le_zero precio) (series_isna precio) in
    if bool_decide (0 < count_true invalid_prices) then
      Ok (filter_rows (map negb invalid_prices) df_clean)
    else Ok df_clean
  else Ok df_clean.

Definition transform_materiales (df : DataFrame) : result DataFrame :=
  let df_clean := df in
  df_clean ←
    update_if_present "tipo" (λ s, s ← str_strip s; str_title s) df_clean;
  df_clean ←
    update_if_present "unidad_medida" (λ s, s ← str_strip s; str_lower s)
      df_clean;
  if has_column "cantidad_disponible" df_clean then
    df_clean ←
      update_column "cantidad_disponible" (λ s, Ok (to_numeric s)) df_clean;
    update_column "cantidad_disponible" (λ s, Ok (fillna0 s)) df_clean
  else Ok df_clean.

Definition transform_empleados (df : DataFrame) : result DataFrame :=
  let df_clean := df in
  df_clean ← update_if_present "nombre" str_strip df_clean;
  df_clean ←
    update_if_present "cargo" (λ s, s ← str_strip s; str_title s) df_clean;
  update_if_present "email" (λ s, s ← str_strip s; str_lower s) df_clean.

Definition transform_detalles_orden (df : DataFrame) : result DataFrame :=
  let df_clean := df in
  let numeric_columns := ["cantidad"; "subtotal"] in
  df_clean ←
    for_each (λ df_clean col,
                update_if_present col (λ s, Ok (to_numeric s)) df_clean)
      numeric_columns df_clean;
  if has_column "cantidad" df_clean && has_column "subtotal" df_clean then
    subtotal ← get_column "subtotal" df_clean;
    cantidad ← get_column "cantidad" df_clean;
    Ok (set_column "precio_unitario" (series_div subtotal cantidad) df_clean)
  else Ok df_clean.

Definition transform_uso_materiales (df : DataFrame) : result DataFrame :=
  let df_clean := df in
  if has_column "cantidad_usada" df_clean then
    df_clean ← update_column "cantidad_usada" (λ s, Ok (to_numeric s)) df_clean;
    update_column "cantidad_usada" (λ s, Ok (fillna0 s)) df_clean
  else Ok df_clean.

(** One step of [transform_all]:
    [if k in datasets: transformed[k] = f(datasets[k])]. *)
Definition transform_entity (k : string) (f : DataFrame → result DataFrame)
    (datasets transformed : gmap string DataFrame)
  : result (gmap string DataFrame) :=
  match datasets !! k with
  | Some df => out ← f df; Ok (<[k := out]> transformed)
  | None => Ok transformed
  end.

Definition transform_all (datasets : gmap string DataFrame)
  : result (gmap string DataFrame) :=
  let transformed : gmap string DataFrame := ∅ in
  transformed ← transform_entity "clientes" transform_clientes datasets transformed;
  transformed ← transform_entity "ordenes_produccion"
                  transform_ordenes_produccion datasets transformed;
  transformed ← transform_entity "productos" transform_productos datasets transformed;
  transformed ← transform_entity "materiales" transform_materiales datasets transformed;
  transformed ← transform_entity "empleados" transform_empleados datasets transformed;
  transformed ← transform_entity "detalles_orden"
                  transform_detalles_orden datasets transformed;
  transform_entity "uso_materiales" transform_uso_materiales datasets transformed.

End DataTransformer.

(** ** Joins and group-by *)

(** The order of group keys: numbers before timestamps before strings,
    each kind in its own order. *)
Definition cell_rank (c : cell) : nat :=
  match c with VNum _ => 0 | VDate _ => 1 | VStr _ => 2 | NA => 3 end.

Definition cell_leb (a b : cell) : bool :=
  match a, b with
  | VNum x, VNum y => num_leb x y
  | VDate x, VDate y => bool_decide (x ≤ y)%Z
  | VStr x, VStr y => String.leb x y
  | _, _ => bool_decide (cell_rank a ≤ cell_rank b)%nat
  end.

Definition cell_le (a b : cell) : Prop := Is_true (cell_leb a b).

#[global] Instance cell_le_dec : RelDecision cell_le.
Proof. intros a b. unfold cell_le. apply _. Defined.

(** The rows of [rk] whose key is [k] (a null key matches a null key). *)
Definition matches (k : cell) (rk : list cell) : list nat :=
  true_positions (map (λ v, bool_decide (v = k)) rk).

(** The row pairs of [how='left']: every left row in order, once per
    matching right row, or once with no right row. *)
Fixpoint join_rows_from (i : nat) (lk rk : list cell)
  : list (nat * option nat) :=
  match lk with
  | [] => []
  | k :: lk' =>
      match matches k rk with
      | [] => [(i, None)]
      | js => (λ j, (i, Some j)) <$> js
      end ++ join_rows_from (S i) lk' rk
  end.

Definition join_rows (lk rk : list cell) : list (nat * option nat) :=
  join_rows_from 0 lk rk.

Definition take_rows (idx : list nat) (s : Series) : Series :=
  mkSeries (dtype_of s) (map (λ i, default NA (values s !! i)) idx).

Definition take_rows_opt (idx : list (option nat)) (s : Series) : Series :=
  mkSeries (dtype_of s)
    (map (λ o, match o with
               | Some j => default NA (values s !! j)
               | None => NA
               end) idx).

(** [left.merge(right, left_on=.., right_on=.., how='left', suffixes=..)];
    [on=k] is [left_on = right_on = k], and then the key appears once.  A
    label that both frames carry (the shared key apart) gets the suffixes. *)
Definition merge_left (left right : DataFrame) (left_on right_on : string)
    (suffixes : string * string) : result DataFrame :=
  rk ← get_column right_on right;
  lk ← get_column left_on left;
  let idx := join_rows (values lk) (values rk) in
  let shared_key n := bool_decide (left_on = right_on) && bool_decide (n = left_on) in
  let overlap n :=
    has_column n left && has_column n right && negb (shared_key n) in
  let lcols :=
    map (λ col, (if overlap col.1 then col.1 +:+ suffixes.1 else col.1,
                 take_rows (idx.*1) col.2)) left in
  let rcols :=
    map (λ col, (if overlap col.1 then col.1 +:+ suffixes.2 else col.1,
                 take_rows_opt (idx.*2) col.2))
      (filter (λ col, ¬ Is_true (shared_key col.1)) right) in
  Ok (lcols ++ rcols).

(** The groups of [df.groupby(key)]: the distinct non-null keys, sorted. *)
Definition group_keys (keys : list cell) : list cell :=
  merge_sort cell_le (remove_dups (filter (λ k, k ≠ NA) keys)).

(** The cells of a column in the rows of group [k]. *)
Definition group_of (k : cell) (keys vs : list cell) : list cell :=
  keep_where (map (λ v, bool_decide (v = k)) keys) vs.

Inductive aggfunc :=
  | First                (* 'first' *)
  | Sum                  (* 'sum' *)
  | Count                (* 'count' *)
  | Min                  (* 'min' *)
  | Max                  (* 'max' *)
  | CountEq (v : cell).  (* lambda x: (x == v).sum() *)

(** ['first']: the first non-null cell of the group. *)
Fixpoint agg_first (vs : list cell) : cell :=
  match vs with
  | [] => NA
  | NA :: vs' => agg_first vs'
  | v :: _ => v
  end.

(** ['sum']: the sum of the numbers of the group, nulls skipped; the sum
    of no number is 0. *)
Definition agg_sum (vs : list cell) : cell :=
  of_float
    (foldl (λ acc c, match c with
                     | VNum x => acc ≫= λ a, num_add a x
                     | _ => acc
                     end) (Some (Fin 0)) vs).

(** ['count']: the number of non-null cells. *)
Definition count_notna (vs : list cell) : nat := length (filter (λ v, v ≠ NA) vs).

(** ['min'] and ['max'], nulls skipped. *)
Definition agg_min (vs : list cell) : cell :=
  foldl (λ acc c, match acc, c with
                  | _, NA => acc
                  | NA, _ => c
                  | _, _ => if cell_leb c acc then c else acc
                  end) NA vs.

Definition agg_max (vs : list cell) : cell :=
  foldl (λ acc c, match acc, c with
                  | _, NA => acc
                  | NA, _ => c
                  | _, _ => if cell_leb acc c then c else acc
                  end) NA vs.

Definition aggregate (f : aggfunc) (vs : list cell) : cell :=
  match f with
  | First => agg_first vs
  | Sum => agg_sum vs
  | Count => VNum (num_of_nat (count_notna vs))
  | Min => agg_min vs
  | Max => agg_max vs
  | CountEq v => VNum (num_of_nat (occurrences v vs))
  end.

Definition agg_dtype (f : aggfunc) (d : dtype) : dtype :=
  match f with
  | First | Min | Max => d
  | Sum | Count | CountEq _ => Numeric
  end.

(** One aggregated column: a value per group. *)
Definition agg_column (f : aggfunc) (gk : list cell) (keys : list cell)
    (s : Series) : Series :=
  mkSeries (agg_dtype f (dtype_of s))
    (map (λ k, aggregate f (group_of k keys (values s))) gk).

Fixpoint agg_columns (spec : list (string * aggfunc)) (gk keys : list cell)
    (df : DataFrame) : result DataFrame :=
  match spec with
  | [] => Ok []
  | (c, f) :: spec' =>
      s ← get_column c df;
      rest ← agg_columns spec' gk keys df;
      Ok ((c, agg_column f gk keys s) :: rest)
  end.

(** [df.groupby(key).agg(spec).reset_index()] *)
Definition groupby_agg (key : string) (spec : list (string * aggfunc))
    (df : DataFrame) : result DataFrame :=
  ks ← get_column key df;
  let gk := group_keys (values ks) in
  cols ← agg_columns spec gk (values ks) df;
  Ok ((key, mkSeries (dtype_of ks) gk) :: cols).

(** ** [load.py]: class [DataLoader] *)

Module DataLoader.

Definition _create_ordenes_completas (ordenes clientes empleados : DataFrame)
  : result DataFrame :=
  right ← select ["id_cliente"; "nombre_empresa"; "ciudad"] clientes;
  df ← merge_left ordenes right "id_cliente" "id_cliente" ("_x", "_y");
  right ← select ["id_empleado"; "nombre"; "cargo"] empleados;
  df ← merge_left df right "id_empleado_responsable" "id_empleado"
         ("", "_empleado");
  Ok (rename [("nombre", "nombre_empleado"); ("cargo", "cargo_empleado")] df).

Definition _create_ventas_por_producto (detalles productos ordenes : DataFrame)
  : result DataFrame :=
  right ← select ["id_producto"; "nombre_producto"] productos;
  df ← merge_left detalles right "id_producto" "id_producto" ("_x", "_y");
  right ← select ["id_orden"; "fecha_orden"; "estado"] ordenes;
  df ← merge_left df right "id_orden" "id_orden" ("_x", "_y");
  ventas ← groupby_agg "id_producto"
             [("nombre_producto", First); ("cantidad", Sum);
              ("subtotal", Sum); ("id_orden", Count)] df;
  let ventas :=
    rename [("cantidad", "cantidad_total"); ("subtotal", "ingresos_totales");
            ("id_orden", "num_ordenes")] ventas in
  ingresos_totales ← get_column "ingresos_totales" ventas;
  num_ordenes ← get_column "num_ordenes" ventas;
  Ok (set_column "ticket_promedio" (series_div ingresos_totales num_ordenes)
        ventas).

Definition _create_uso_materiales_agregado (uso materiales ordenes : DataFrame)
  : result DataFrame :=
  right ← select ["id_material"; "nombre_material"; "tipo";
                  "cantidad_disponible"] materiales;
  df ← merge_left uso right "id_material" "id_material" ("_x", "_y");
  right ← select ["id_orden"; "fecha_orden"] ordenes;
  df ← merge_left df right "id_orden" "id_orden" ("_x", "_y");
  uso_agg ← groupby_agg "id_material"
              [("nombre_material", First); ("tipo", First);
               ("cantidad_disponible", First); ("cantidad_usada", Sum);
               ("id_orden", Count)] df;
  let uso_agg :=
    rename [("cantidad_usada", "cantidad_total_usada");
            ("id_orden", "num_ordenes")] uso_agg in
  cantidad_total_usada ← get_column "cantidad_total_usada" uso_agg;
  cantidad_disponible ← get_column "cantidad_disponible" uso_agg;
  Ok (set_column "tasa_rotacion"
        (fillna0 (series_div cantidad_total_usada cantidad_disponible))
        uso_agg).

Definition _create_metricas_por_cliente (ordenes detalles clientes : DataFrame)
  : result DataFrame :=
  totales_orden ← groupby_agg "id_orden" [("subtotal", Sum)] detalles;
  let totales_orden := rename [("subtotal", "total_orden")] totales_orden in
  df ← merge_left ordenes totales_orden "id_orden" "id_orden" ("_x", "_y");
  metricas ← groupby_agg "id_cliente"
               [("id_orden", Count); ("total_orden", Sum);
                ("fecha_orden", Min); ("fecha_orden", Max)] df;
  metricas ← set_columns ["id_cliente"; "num_ordenes"; "ingresos_totales";
                          "primera_orden"; "ultima_orden"] metricas;
  right ← select ["id_cliente"; "nombre_empresa"; "ciudad"] clientes;
  metricas ← merge_left metricas right "id_cliente" "id_cliente" ("_x", "_y");
  ingresos_totales ← get_column "ingresos_totales" metricas;
  num_ordenes ← get_column "num_ordenes" metricas;
  Ok (set_column "ticket_promedio" (series_div ingresos_totales num_ordenes)
        metricas).

Definition _create_productividad_empleados (ordenes empleados : DataFrame)
  : result DataFrame :=
  prod ← groupby_agg "id_empleado_responsable"
           [("id_orden", Count); ("estado", CountEq (VStr "Completado"))]
           ordenes;
  prod ← set_columns ["id_empleado"; "total_ordenes"; "ordenes_completadas"]
           prod;
  right ← select ["id_empleado"; "nombre"; "cargo"] empleados;
  prod ← merge_left prod right "id_empleado" "id_empleado" ("_x", "_y");
  ordenes_completadas ← get_column "ordenes_completadas" prod;
  total_ordenes ← get_column "total_ordenes" prod;
  Ok (set_column "tasa_completitud"
        (series_round2
           (series_times100 (series_div ordenes_completadas total_ordenes)))
        prod).

(** [all(k in datasets for k in ks)] *)
Definition all_in (ks : list string) (datasets : gmap string DataFrame) : bool :=
  forallb (λ k, bool_decide (is_Some (datasets !! k))) ks.

(** [datasets[k]] *)
Definition getitem (k : string) (datasets : gmap string DataFrame)
  : result DataFrame :=
  match datasets !! k with
  | Some df => Ok df
  | None => Raise KeyError
  end.

Definition create_analytics_tables (datasets : gmap string DataFrame)
  : result (gmap string DataFrame) :=
  let analytics : gmap string DataFrame := ∅ in
  analytics ←
    (if all_in ["ordenes_produccion"; "clientes"; "empleados"] datasets then
       a ← getitem "ordenes_produccion" datasets;
       b ← getitem "clientes" datasets;
       c ← getitem "empleados" datasets;
       t ← _create_ordenes_completas a b c;
       Ok (<["ordenes_completas" := t]> analytics)
     else Ok analytics);
  analytics ←
    (if all_in ["detalles_orden"; "productos"; "ordenes_produccion"] datasets
     then
       a ← getitem "detalles_orden" datasets;
       b ← getitem "productos" datasets;
       c ← getitem "ordenes_produccion" datasets;
       t ← _create_ventas_por_producto a b c;
       Ok (<["ventas_por_producto" := t]> analytics)
     else Ok analytics);
  analytics ←
    (if all_in ["uso_materiales"; "materiales"; "ordenes_produccion"] datasets
     then
       a ← getitem "uso_materiales" datasets;
       b ← getitem "materiales" datasets;
       c ← getitem "ordenes_produccion" datasets;
       t ← _create_uso_materiales_agregado a b c;
       Ok (<["uso_materiales_agregado" := t]> analytics)
     else Ok analytics);
  analytics ←
    (if all_in ["ordenes_produccion"; "detalles_orden"; "clientes"] datasets
     then
       a ← getitem "ordenes_produccion" datasets;
       b ← getitem "detalles_orden" datasets;
       c ← getitem "clientes" datasets;
       t ← _create_metricas_por_cliente a b c;
       Ok (<["metricas_por_cliente" := t]> analytics)
     else Ok analytics);
  (if all_in ["ordenes_produccion"; "empleados"] datasets then
     a ← getitem "ordenes_produccion" datasets;
     b ← getitem "empleados" datasets;
     t ← _create_productividad_empleados a b;
     Ok (<["productividad_empleados" := t]> analytics)
   else Ok analytics).

End DataLoader.

(** ** A reader for plain decimal numbers and ISO calendar dates

    An instance of [Parsers] that agrees with pandas on the strings it
    accepts: optionally signed decimal literals such as [12], [-5] and
    [3.75], and dates written [YYYY-MM-DD].  It serves to run the model on
    concrete tables. *)

Module Reader.

Definition digit_value (c : ascii) : option Z :=
  if Py.isdigit c then Some (Z.of_N (N_of_ascii c) - 48)%Z else None.

Fixpoint digits_from (acc : Z) (s : string) : option Z :=
  match s with
  | EmptyString => Some acc
  | String c s' => d ← digit_value c; digits_from (10 * acc + d)%Z s'
  end.

(** A non-empty run of decimal digits. *)
Definition natural (s : string) : option Z :=
  match s with
  | EmptyString => None
  | _ => digits_from 0 s
  end.

Definition unsigned_number (s : string) : option Qc :=
  match Py.split "." s with
  | [i] => n ← natural i; Some (Qc_of_Z n)
  | [i; f] =>
      n ← natural i; m ← natural f;
      Some (Qc_of_Z n + Qc_of_Z m / Qc_of_Z (10 ^ Z.of_nat (String.length f)))%Qc
  | _ => None
  end.

Definition number (s : string) : option num :=
  match s with
  | String "-" s' => q ← unsigned_number s'; Some (Fin (- q)%Qc)
  | _ => q ← unsigned_number s; Some (Fin q)
  end.

Definition is_leap (y : Z) : bool :=
  ((y `mod` 4 =? 0) && negb (y `mod` 100 =? 0) || (y `mod` 400 =? 0))%Z.

Definition days_in_month (y m : Z) : Z :=
  if (m =? 2)%Z then (if is_leap y then 29 else 28)%Z
  else if ((m =? 4) || (m =? 6) || (m =? 9) || (m =? 11))%Z then 30%Z
  else 31%Z.

(** Days from 1970-01-01 to the given day of the proleptic Gregorian
    calendar. *)
Definition days_from_civil (y m d : Z) : Z :=
  let y' := (if m <=? 2 then y - 1 else y)%Z in
  let era := (y' `div` 400)%Z in
  let yoe := (y' - era * 400)%Z in
  let mp := (if 2 <? m then m - 3 else m + 9)%Z in
  let doy := ((153 * mp + 2) `div` 5 + d - 1)%Z in
  let doe := (yoe * 365 + yoe `div` 4 - yoe `div` 100 + doy)%Z in
  (era * 146097 + doe - 719468)%Z.

Definition iso_date (s : string) : option Z :=
  match Py.split "-" s with
  | [ys; ms; ds] =>
      if bool_decide (String.length ys = 4 ∧ String.length ms = 2
                      ∧ String.length ds = 2) then
        y ← natural ys; m ← natural ms; d ← natural ds;
        if ((1 <=? m) && (m <=? 12) && (1 <=? d) && (d <=? days_in_month y m))%Z
        then Some (days_from_civil y m d * ns_per_day)%Z
        else None
      else None
  | _ => None
  end.

(** A number is a count of nanoseconds since the epoch. *)
Definition datetime_of_cell (c : cell) : option Z :=
  match c with
  | VStr s => iso_date s
  | VDate t => Some t
  | VNum (Fin q) => Some (Z.quot (Qnum q) (Z.pos (Qden q)))
  | _ => None
  end.

Definition iso_reader : Parsers :=
  {| parse_number := number;
     parse_datetimes := map datetime_of_cell;
     parse_datetimes_length := length_map datetime_of_cell |}.

End Reader.

(** ** Vocabulary of the statements *)

(** A string with no blank at its head, resp. at its end. *)
Definition head_ok (s : string) : bool :=
  match s with
  | EmptyString => true
  | String c _ => negb (Py.isspace c)
  end.

Fixpoint last_ok (s : string) : bool :=
  match s with
  | EmptyString => true
  | String c EmptyString => negb (Py.isspace c)
  | String _ s' => last_ok s'
  end.

(** A string that [strip] leaves alone. *)
Definition trimmed (s : string) : bool := head_ok s && last_ok s.

Fixpoint all_digits (s : string) : bool :=
  match s with
  | EmptyString => true
  | String c s' => Py.isdigit c && all_digits s'
  end.

(** ** Example tables *)

Definition int_cell (z : Z) : cell := VNum (num_of_Z z).
Definition object_column (vs : list cell) : Series := mkSeries Object vs.
Definition int_column (zs : list Z) : Series := mkSeries Numeric (int_cell <$> zs).
Arguments int_cell z%_Z.

(** Scenario 4: one order line with quantity 0 and subtotal 100. *)
Definition order_line_quantity_zero : DataFrame :=
  [("id_orden", int_column [1]%Z); ("id_producto", int_column [7]%Z);
   ("cantidad", int_column [0]%Z); ("subtotal", int_column [100]%Z)].

(** Scenario 1: an order dated 2024-01-01, completed 2024-01-10, with
    status [" completado "]. *)
Definition production_order_scenario : DataFrame :=
  [("id_orden", int_column [1]%Z);
   ("fecha_orden", object_column [VStr "2024-01-01"]);
   ("fecha_completado", object_column [VStr "2024-01-10"]);
   ("estado", object_column [VStr " completado "])].

(** ** The five derived tables, as the specification lists them *)

Inductive derived :=
  | OrdenesCompletas
  | VentasPorProducto
  | UsoMaterialesAgregado
  | MetricasPorCliente
  | ProductividadEmpleados.

#[global] Instance derived_eq_dec : EqDecision derived.
Proof. solve_decision. Defined.

Definition all_derived : list derived :=
  [OrdenesCompletas; VentasPorProducto; UsoMaterialesAgregado;
   MetricasPorCliente; ProductividadEmpleados].

Definition derived_name (t : derived) : string :=
  match t with
  | OrdenesCompletas => "ordenes_completas"
  | VentasPorProducto => "ventas_por_producto"
  | UsoMaterialesAgregado => "uso_materiales_agregado"
  | MetricasPorCliente => "metricas_por_cliente"
  | ProductividadEmpleados => "productividad_empleados"
  end.

(** The source entities a derived table is built from. *)
Definition required (t : derived) : list string :=
  match t with
  | OrdenesCompletas => ["ordenes_produccion"; "clientes"; "empleados"]
  | VentasPorProducto => ["detalles_orden"; "productos"; "ordenes_produccion"]
  | UsoMaterialesAgregado => ["uso_materiales"; "materiales"; "ordenes_produccion"]
  | MetricasPorCliente => ["ordenes_produccion"; "detalles_orden"; "clientes"]
  | ProductividadEmpleados => ["ordenes_produccion"; "empleados"]
  end.

(** All the required entities of [t] are in the cleaned entity set. *)
Definition buildable (t : derived) (datasets : gmap string DataFrame) : Prop :=
  ∀ k, k ∈ required t → is_Some (datasets !! k).

(** The builder of a derived table, applied to its entities. *)
Definition builder (t : derived) (datasets : gmap string DataFrame)
  : result DataFrame :=
  match t with
  | OrdenesCompletas =>
      a ← DataLoader.getitem "ordenes_produccion" datasets;
      b ← DataLoader.getitem "clientes" datasets;
      c ← DataLoader.getitem "empleados" datasets;
      DataLoader._create_ordenes_completas a b c
  | VentasPorProducto =>
      a ← DataLoader.getitem "detalles_orden" datasets;
      b ← DataLoader.getitem "productos" datasets;
      c ← DataLoader.getitem "ordenes_produccion" datasets;
      DataLoader._create_ventas_por_producto a b c
  | UsoMaterialesAgregado =>
      a ← DataLoader.getitem "uso_materiales" datasets;
      b ← DataLoader.getitem "materiales" datasets;
      c ← DataLoader.getitem "ordenes_produccion" datasets;
      DataLoader._create_uso_materiales_agregado a b c
  | MetricasPorCliente =>
      a ← DataLoader.getitem "ordenes_produccion" datasets;
      b ← DataLoader.getitem "detalles_orden" datasets;
      c ← DataLoader.getitem "clientes" datasets;
      DataLoader._create_metricas_por_cliente a b c
  | ProductividadEmpleados =>
      a ← DataLoader.getitem "ordenes_produccion" datasets;
      b ← DataLoader.getitem "empleados" datasets;
      DataLoader._create_productividad_empleados a b
  end.

(** One block of [create_analytics_tables]. *)
Definition build_if_available (datasets : gmap string DataFrame)
    (analytics : gmap string DataFrame) (t : derived)
  : result (gmap string DataFrame) :=
  if DataLoader.all_in (required t) datasets then
    tbl ← builder t datasets; Ok (<[derived_name t := tbl]> analytics)
  else Ok analytics.

(** A small cleaned entity set: two customers, one employee, two products,
    one material, two orders, three order lines and one material usage. *)
Definition clientes_limpio : DataFrame :=
  [("id_cliente", int_column [1; 2]%Z);
   ("nombre_empresa", object_column [VStr "Acme"; VStr "Bolt"]);
   ("ciudad", object_column [VStr "Cali"; VStr "Lima"]);
   ("email", object_column [VStr "a@x.com"; VStr "b@y.com"])].

Definition empleados_limpio : DataFrame :=
  [("id_empleado", int_column [4]%Z);
   ("nombre", object_column [VStr "Ana"]);
   ("cargo", object_column [VStr "Jefe"])].

Definition productos_limpio : DataFrame :=
  [("id_producto", int_column [7; 8]%Z);
   ("nombre_producto", object_column [VStr "Silla"; VStr "Mesa"]);
   ("precio", int_column [10; 25]%Z)].

Definition materiales_limpio : DataFrame :=
  [("id_material", int_column [3]%Z);
   ("nombre_material", object_column [VStr "Pino"]);
   ("tipo", object_column [VStr "Madera"]);
   ("cantidad_disponible", int_column [0]%Z)].

Definition ordenes_limpio : DataFrame :=
  [("id_orden", int_column [1; 2]%Z);
   ("id_cliente", int_column [1; 1]%Z);
   ("id_empleado_responsable", int_column [4; 4]%Z);
   ("fecha_orden",
    mkSeries Datetime64 [VDate 1704067200000000000; VDate 1704153600000000000]);
   ("estado", object_column [VStr "Completado"; VStr "Pendiente"])].

Definition detalles_limpio : DataFrame :=
  [("id_orden", int_column [1; 1; 2]%Z);
   ("id_producto", int_column [7; 8; 7]%Z);
   ("cantidad", int_column [2; 1; 3]%Z);
   ("subtotal", int_column [20; 25; 30]%Z)].

Definition uso_limpio : DataFrame :=
  [("id_orden", int_column [1]%Z);
   ("id_material", int_column [3]%Z);
   ("cantidad_usada", int_column [5]%Z)].

(** Scenario 5: the cleaned entity set without the [materiales] table. *)
Definition entities_without_materiales : gmap string DataFrame :=
  <["clientes" := clientes_limpio]>
    (<["empleados" := empleados_limpio]>
      (<["productos" := productos_limpio]>
        (<["ordenes_produccion" := ordenes_limpio]>
          (<["detalles_orden" := detalles_limpio]>
            (<["uso_materiales" := uso_limpio]> ∅))))).

(** Three raw customers; the last two have no email. *)
Definition customers_missing_emails : DataFrame :=
  [("id_cliente", int_column [1; 2; 3]%Z);
   ("nombre_empresa", object_column [VStr "Acme"; VStr "Bolt"; VStr "Cord"]);
   ("contacto_email", object_column [VStr "a@x.com"; NA; NA])].

(** Raw customers without the email column. *)
Definition customers_without_email_column : DataFrame :=
  [("id_cliente", int_column [1; 2]%Z);
   ("nombre_empresa", object_column [VStr "Acme"; VStr "Bolt"]);
   ("contacto_telefono", object_column [VStr "555-0101"; VStr "555-0102"])].

(** Two raw customers whose emails differ only by a leading blank. *)
Definition customers_blank_before_email : DataFrame :=
  [("id_cliente", int_column [1; 2]%Z);
   ("contacto_email", object_column [VStr " a@x.com"; VStr "a@x.com"])].

(** A step [f] leaves the column [c] of [df] as it is (or there is no such
    column). *)
Definition fixed (c : string) (f : Series → result Series) (df : DataFrame)
  : Prop :=
  ∀ s, get_column c df = Ok s → f s = Ok s.

(** A step that, applied to its own result, returns it. *)
Definition idempotent_step (f : Series → result Series) : Prop :=
  ∀ s s', f s = Ok s' → f s' = Ok s'.

(** A price that [transform_productos] rejects. *)
Definition invalid_price (c : cell) : bool := cell_le_zero c || isna c.

(** The columns [transform_ordenes_produccion] reads as dates. *)
Definition date_columns (df : DataFrame) : list string :=
  filter (λ col, Py.has_substring "fecha" (Py.lower col)) (columns df).

(** The renaming applied by [transform_clientes]. *)
Definition clientes_renames : list (string * string) :=
  [("contacto_telefono", "telefono"); ("contacto_email", "email");
   ("contacto_nombre", "nombre_contacto")].

(** A column of digit strings (and nulls). *)
Definition digits_only (s : Series) : Prop :=
  dtype_of s = Object
  ∧ Forall (λ c, c = NA ∨ ∃ x, c = VStr x ∧ all_digits x = true) (values s).

(** ** Emails *)

Fixpoint last_char (s : string) : option ascii :=
  match s with
  | EmptyString => None
  | String c EmptyString => Some c
  | String _ s' => last_char s'
  end.

Definition ends_with_digit (s : string) : bool :=
  match last_char s with
  | Some c => Py.isdigit c
  | None => false
  end.

(** [s] without the digits at its end. *)
Fixpoint rstrip_digits (s : string) : string :=
  match s with
  | EmptyString => EmptyString
  | String c s' =>
      match rstrip_digits s' with
      | EmptyString => if Py.isdigit c then EmptyString else String c EmptyString
      | r => String c r
      end
  end.

(** An email cell the suffixing of [transform_clientes] is made for: a
    string [name@domain] with a single [@], no blank at either end, and a
    name that does not end in a digit. *)
Definition plain_email (c : cell) : Prop :=
  ∃ name domain,
    c = VStr (name +:+ "@" +:+ domain)
    ∧ Py.contains "@" name = false
    ∧ Py.contains "@" domain = false
    ∧ trimmed (name +:+ "@" +:+ domain) = true
    ∧ ends_with_digit name = false.

(** What the loop of [transform_clientes] leaves in row [i] of the email
    column when it runs over the rows [idxs]. *)
Definition suffixed_cell (idxs : list nat) (i : nat) (c : cell) : cell :=
  if decide (i ∈ idxs) then
    match c with
    | VStr e =>
        if Py.contains "@" e then
          match Py.split "@" e with
          | [name; domain] =>
              VStr (name +:+ Py.str_of_nat i +:+ "@" +:+ domain)
          | _ => c
          end
        else c
    | _ => c
    end
  else c.

(** Scenario 2: two raw customers share the email [a@x.com]. *)
Definition customers_shared_email : DataFrame :=
  [("id_cliente", int_column [1; 2]%Z);
   ("contacto_email", object_column [VStr "a@x.com"; VStr "a@x.com"])].

(** Three raw customers: two share [a@x.com], the third already has the
    email the suffixing produces for row 1. *)
Definition customers_suffix_collision : DataFrame :=
  [("id_cliente", int_column [1; 2; 3]%Z);
   ("contacto_email",
    object_column [VStr "a@x.com"; VStr "a@x.com"; VStr "a1@x.com"])].

(** The label of a column of the left (resp. right) frame after a merge. *)
Definition merged_label (left right : DataFrame) (left_on right_on sfx : string)
    (n : string) : string :=
  if has_column n left && has_column n right
     && negb (bool_decide (left_on = right_on) && bool_decide (n = left_on))
  then n +:+ sfx else n.

#[global] Arguments group_keys : simpl never.
#[global] Arguments join_rows : simpl never.
#[global] Arguments agg_column : simpl never.
#[global] Arguments take_rows : simpl never.
#[global] Arguments take_rows_opt : simpl never.
#[global] Arguments series_div : simpl never.
#[global] Arguments series_times100 : simpl never.
#[global] Arguments series_round2 : simpl never.
#[global] Arguments fillna0 : simpl never.

(** A cleaned order table with one order that has no order id. *)
Definition ordenes_without_id : DataFrame :=
  [("id_orden", mkSeries Numeric [NA]);
   ("id_cliente", int_column [1]%Z);
   ("id_empleado_responsable", int_column [4]%Z);
   ("fecha_orden", mkSeries Datetime64 [VDate 1704067200000000000]);
   ("estado", object_column [VStr "Completado"])].

(** The columns of an order that the builders read. *)
Definition order_columns : list string :=
  ["id_orden"; "id_cliente"; "id_empleado_responsable"; "fecha_orden";
   "estado"].

(** The cells of the column [c] of a frame (none when there is no such
    column). *)
Definition cells (c : string) (df : DataFrame) : list cell :=
  match get_column c df with Ok s => values s | Raise _ => [] end.

(** The frame has all the columns [cs]. *)
Definition has_columns (cs : list string) (df : DataFrame) : bool :=
  forallb (λ c, has_column c df) cs.

(** All the columns of the frame have as many cells as the first. *)
Definition rectangular (df : DataFrame) : Prop := frame_rows (nrows df) df.

(** Two customers with the same customer id. *)
Definition clientes_repeated_id : DataFrame :=
  [("id_cliente", int_column [1; 1]%Z);
   ("nombre_empresa", object_column [VStr "Acme"; VStr "Acme Sur"]);
   ("ciudad", object_column [VStr "Cali"; VStr "Lima"]);
   ("email", object_column [VStr "a@x.com"; VStr "b@y.com"])].

(** The frame has none of the columns [cs]. *)
Definition lacks_columns (cs : list string) (df : DataFrame) : bool :=
  forallb (λ c, negb (has_column c df)) cs.

(** A number or a null. *)
Definition is_number (v : cell) : bool :=
  match v with VNum _ | NA => true | _ => false end.

(** The frame has the column [c], and it is a numeric column. *)
Definition numeric (c : string) (df : DataFrame) : bool :=
  match get_column c df with
  | Ok s => bool_decide (dtype_of s = Numeric) && forallb is_number (values s)
  | Raise _ => false
  end.

(** The number of distinct non-null cells, as the specification counts
    the orders of a product. *)
Definition count_distinct (vs : list cell) : nat :=
  length (remove_dups (filter (λ v, v ≠ NA) vs)).

(** The cells of the finite numbers [qs], and their sum. *)
Definition finite_cells (qs : list Qc) : list cell :=
  (λ q, VNum (Fin q)) <$> qs.

Definition Qc_sum (qs : list Qc) : Qc := foldr Qcplus 0%Qc qs.

(** Cleaned order lines where order 1 lists product 7 twice. *)
Definition detalles_product_twice : DataFrame :=
  [("id_orden", int_column [1; 1]%Z);
   ("id_producto", int_column [7; 7]%Z);
   ("cantidad", int_column [2; 3]%Z);
   ("subtotal", int_column [20; 30]%Z);
   ("precio_unitario", int_column [10; 10]%Z)].

(** [(c * 100).round(2)] on a cell. *)
Definition percent (c : cell) : cell :=
  cell_round2 (cell_mul c (VNum (num_of_Z 100))).





(** A price above zero. *)
Definition positive_price (c : cell) : Prop :=
  ∃ x, c = VNum x ∧ num_leb x (Fin 0) = false.

(** Raw products: a price of -5, a price that is no number, a missing
    price and two valid prices. *)
Definition productos_raw : DataFrame :=
  [("id_producto", int_column [1; 2; 3; 4; 5]%Z);
   ("nombre_producto",
    object_column [VStr " Silla "; VStr "Mesa"; VStr "Banco"; VStr "Cama";
                   VStr "Cuna "]);
   ("precio",
    object_column [VStr "10"; VStr "-5"; VStr "gratis"; NA; VStr "25.5"])].

(** A step on a column that keeps its number of cells. *)
Definition length_preserving (f : Series → result Series) : Prop :=
  ∀ s s', f s = Ok s' → length (values s') = length (values s).

(** The column [c] is absent or a string column. *)
Definition text_or_absent (c : string) (df : DataFrame) : bool :=
  match get_column c df with
  | Ok s => bool_decide (dtype_of s = Object)
  | Raise _ => true
  end.

(** A step made of [.str] methods: it goes through on a string column and
    raises [AttributeError] on any other. *)
Definition string_step (f : Series → result Series) : Prop :=
  (∀ s, dtype_of s = Object → ∃ s', f s = Ok s' ∧ dtype_of s' = Object)
  ∧ (∀ s, dtype_of s ≠ Object → f s = Raise AttributeError).

(** Employees whose names were read as numbers. *)
Definition empleados_numeric_names : DataFrame :=
  [("id_empleado", int_column [1; 2]%Z); ("nombre", int_column [101; 102]%Z)].

(** The cleaned form [v] of a quantity [c]: a number, [c] itself when it is
    one, the number read out of a string, and 0 for a null or a string that
    is no number. *)
Definition cleaned_quantity {reader : Parsers} (c v : cell) : Prop :=
  ∃ x, v = VNum x
       ∧ match c with
         | VNum y => x = y
         | NA => x = Fin 0
         | VStr t => x = default (Fin 0) (parse_number t)
         | VDate t => x = num_of_Z t
         end.

(** Raw materials: a negative, an unreadable and a missing quantity. *)
Definition materiales_raw : DataFrame :=
  [("id_material", int_column [1; 2; 3; 4]%Z);
   ("tipo", object_column [VStr " madera"; VStr "METAL"; VStr "tela "; NA]);
   ("cantidad_disponible",
    object_column [VStr "12.5"; VStr "-3"; VStr "mucho"; NA])].

(** A string without upper-case letters. *)
Fixpoint no_upper (s : string) : bool :=
  match s with
  | EmptyString => true
  | String c s' => negb (Py.isupper c) && no_upper s'
  end.

(** Raw employees. *)
Definition empleados_raw : DataFrame :=
  [("id_empleado", int_column [1; 2]%Z);
   ("nombre", object_column [VStr " Ana Ruiz"; VStr "Luis Paz "]);
   ("cargo", object_column [VStr "jefe de PLANTA"; VStr " operario "]);
   ("email", object_column [VStr " Ana.Ruiz@Traza.CO "; NA])].

(** Raw customers with phones written in three ways and a city with
    blanks around it. *)
Definition customers_with_phones : DataFrame :=
  [("id_cliente", int_column [1; 2; 3]%Z);
   ("ciudad", object_column [VStr " Cali "; VStr "Lima"; NA]);
   ("contacto_telefono",
    object_column [VStr " (+57) 300-123 4567"; VStr "555.0102"; NA]);
   ("contacto_email",
    object_column [VStr "a@x.com"; VStr "b@y.com"; VStr "c@z.com"])].

(** The seven entities [transform_all] knows, each with its cleaning
    operation, in the order of the source. *)
Definition cleaners {reader : Parsers}
  : list (string * (DataFrame → result DataFrame)) :=
  [("clientes", transform_clientes);
   ("ordenes_produccion", transform_ordenes_produccion);
   ("productos", transform_productos);
   ("materiales", transform_materiales);
   ("empleados", transform_empleados);
   ("detalles_orden", transform_detalles_orden);
   ("uso_materiales", transform_uso_materiales)].

(** Raw tables with a table [transform_all] does not know. *)
Definition raw_with_unknown_table : gmap string DataFrame :=
  <["empleados" := empleados_raw]>
    (<["proveedores" := empleados_raw]>
      (<["clientes" := customers_with_phones]> ∅)).

(** Raw orders with a delivery date whose label is capitalised, and
    without a completion date. *)
Definition ordenes_with_delivery_date : DataFrame :=
  [("id_orden", int_column [1; 2]%Z);
   ("fecha_orden", object_column [VStr "2024-01-01"; VStr "2024-02-30"]);
   ("Fecha_Entrega", object_column [VStr "2024-01-15"; NA]);
   ("estado", object_column [VStr "en proceso"; VStr " PENDIENTE"])].

(** A computation that raises nothing but [KeyError]. *)
Definition only_KeyError {A} (m : result A) : Prop :=
  ∀ e, m = Raise e → e = KeyError.

(** Order lines that already carry the name of the product. *)
Definition detalles_with_product_name : DataFrame :=
  [("id_orden", int_column [1; 2]%Z);
   ("id_producto", int_column [7; 8]%Z);
   ("nombre_producto", object_column [VStr "Silla"; VStr "Mesa"]);
   ("cantidad", int_column [2; 1]%Z);
   ("subtotal", int_column [20; 25]%Z)].

(** Orders of a known and of an unknown customer; the second has no
    responsible employee. *)
Definition ordenes_unknown_customer : DataFrame :=
  [("id_orden", int_column [1; 2]%Z);
   ("id_cliente", int_column [2; 9]%Z);
   ("id_empleado_responsable", mkSeries Numeric [int_cell 4; NA]);
   ("fecha_orden",
    mkSeries Datetime64 [VDate 1704067200000000000; VDate 1704153600000000000]);
   ("estado", object_column [VStr "Completado"; VStr "Pendiente"])].

(** A date or a null. *)
Definition date_or_null (v : cell) : Prop := v = NA ∨ ∃ t, v = VDate t.

(** Orders of two customers; no order line refers to order 3, the only
    order of customer 2. *)
Definition ordenes_two_customers : DataFrame :=
  [("id_orden", int_column [1; 2; 3]%Z);
   ("id_cliente", int_column [1; 1; 2]%Z);
   ("id_empleado_responsable", int_column [4; 4; 4]%Z);
   ("fecha_orden",
    mkSeries Datetime64 [VDate 1704153600000000000; VDate 1704067200000000000;
                         VDate 1704240000000000000]);
   ("estado", object_column [VStr "Completado"; VStr "Pendiente";
                             VStr "Pendiente"])].

(** ** [extract.py]: class [DataExtractor]

    The directory of the raw files is what [pd.read_csv] makes of each of
    its files: the frame it returns, or nothing when it raises (the file is
    not there, or is no CSV file). *)

Module DataExtractor.

(** [_load_csv]: the frame, or [None] on any exception. *)
Definition _load_csv (read_csv : string → option DataFrame) (filename : string)
  : option DataFrame :=
  read_csv filename.

Definition extract_clientes read_csv := _load_csv read_csv "clientes.csv".
Definition extract_ordenes_produccion read_csv :=
  _load_csv read_csv "ordenes_produccion.csv".
Definition extract_productos read_csv := _load_csv read_csv "productos.csv".
Definition extract_materiales read_csv := _load_csv read_csv "materiales.csv".
Definition extract_empleados read_csv := _load_csv read_csv "empleados.csv".
Definition extract_detalles_orden read_csv :=
  _load_csv read_csv "detalles_orden.csv".
Definition extract_uso_materiales read_csv :=
  _load_csv read_csv "uso_materiales.csv".

(** [{k: v for k, v in datasets.items() if v is not None}] *)
Definition without_none (datasets : list (string * option DataFrame))
  : gmap string DataFrame :=
  foldl (λ acc kv, match kv.2 with
                   | Some v => <[kv.1 := v]> acc
                   | None => acc
                   end) ∅ datasets.

Definition extract_all (read_csv : string → option DataFrame)
  : gmap string DataFrame :=
  let datasets :=
    [("clientes", extract_clientes read_csv);
     ("ordenes_produccion", extract_ordenes_produccion read_csv);
     ("productos", extract_productos read_csv);
     ("materiales", extract_materiales read_csv);
     ("empleados", extract_empleados read_csv);
     ("detalles_orden", extract_detalles_orden read_csv);
     ("uso_materiales", extract_uso_materiales read_csv)] in
  without_none datasets.

End DataExtractor.

(** ** [load.py]: the files [DataLoader] writes

    A directory of written files maps a file name to the frame the file
    was written from ([to_csv] with [index=False]); writing is taken to
    succeed. *)

(** [save_processed]: [for name, df in datasets.items():
    df.to_csv(processed_dir / f"{name}_limpio.csv")] *)
Definition save_processed (datasets : gmap string DataFrame)
    (processed_dir : gmap string DataFrame) : gmap string DataFrame :=
  map_fold (λ name df files, <[name +:+ "_limpio.csv" := df]> files)
    processed_dir datasets.

(** [save_analytics]: [for name, df in analytics.items():
    df.to_csv(analytics_dir / f"{name}.csv")] *)
Definition save_analytics (analytics : gmap string DataFrame)
    (analytics_dir : gmap string DataFrame) : gmap string DataFrame :=
  map_fold (λ name df files, <[name +:+ ".csv" := df]> files)
    analytics_dir analytics.

(** ** [etl.py]: [run_etl] *)

(** The three directories of a run: [data/raw] ([None] when it does not
    exist), [data/processed] and [data/analytics]. *)
Record disk := mkDisk {
  raw_dir : option (string → option DataFrame);
  processed_dir : gmap string DataFrame;
  analytics_dir : gmap string DataFrame;
}.

(** [run_etl]: the value it returns and the directories it leaves.  Every
    exception is caught by [except Exception] and gives [False]; the
    extractor raises when [data/raw] does not exist, and [not raw_data]
    holds of a dictionary without keys. *)
Definition run_etl {reader : Parsers} (d : disk) : bool * disk :=
  match raw_dir d with
  | None => (false, d)
  | Some read_csv =>
      let raw_data := DataExtractor.extract_all read_csv in
      if bool_decide (size raw_data = 0) then (false, d)
      else
        match transform_all raw_data with
        | Raise _ => (false, d)
        | Ok clean_data =>
            let d :=
              mkDisk (raw_dir d) (save_processed clean_data (processed_dir d))
                (analytics_dir d) in
            match DataLoader.create_analytics_tables clean_data with
            | Raise _ => (false, d)
            | Ok analytics =>
                (true,
                 mkDisk (raw_dir d) (processed_dir d)
                   (save_analytics analytics (analytics_dir d)))
            end
        end
  end.

(** The seven entities, by name. *)
Definition entity_names : list string :=
  ["clientes"; "ordenes_produccion"; "productos"; "materiales"; "empleados";
   "detalles_orden"; "uso_materiales"].

(** A [data/raw] directory with five of the seven files, their tables
    already clean, beside empty [data/processed] and [data/analytics]
    directories. *)
Definition raw_files : gmap string DataFrame :=
  <["clientes.csv" := clientes_limpio]>
    (<["empleados.csv" := empleados_limpio]>
      (<["productos.csv" := productos_limpio]>
        (<["ordenes_produccion.csv" := ordenes_limpio]>
          (<["detalles_orden.csv" := detalles_limpio]> ∅)))).

Definition disk_of (files : gmap string DataFrame) : disk :=
  mkDisk (Some (λ filename, files !! filename)) ∅ ∅.

(** The same directory, with order lines that carry a product name. *)
Definition raw_files_with_product_name : gmap string DataFrame :=
  <["detalles_orden.csv" := detalles_with_product_name]> raw_files.

(** Raw entities in which the order lines carry a product name of their
    own, beside the tables of Scenario 5. *)
Definition entities_with_product_name : gmap string DataFrame :=
  <["detalles_orden" := detalles_with_product_name]> entities_without_materiales.

(** Raw production orders none of which has a status: the column is read
    as float64. *)
Definition ordenes_without_status : DataFrame :=
  [("id_orden", int_column [1; 2]%Z);
   ("fecha_orden", object_column [VStr "2024-01-01"; VStr "2024-01-05"]);
   ("fecha_completado", object_column [VStr "2024-01-10"; NA]);
   ("estado", mkSeries Numeric [NA; NA])].

(** [s.isascii()] *)
Fixpoint isascii (s : string) : bool :=
  match s with
  | EmptyString => true
  | String c s' => (N_of_ascii c <? 128)%N && isascii s'
  end.

(** The strings of the column [c], if it is there, are ASCII text: the
    text on which the string methods of the embedding are those of
    Python. *)
Definition ascii_column (c : string) (df : DataFrame) : bool :=
  match get_column c df with
  | Ok s => forallb (λ v, match v with VStr t => isascii t | _ => true end)
              (values s)
  | Raise _ => true
  end.

(** * Properties *)

(** ** The exception monad *)

Lemma bind_Ok {A B} (m : result A) (f : A → result B) (b : B) :
  m ≫= f = Ok b ↔ ∃ a, m = Ok a ∧ f a = Ok b.
Proof.
  destruct m as [a|e]; simpl; split.
  - intros Hf. by exists a.
  - by intros (a' & [= <-] & Hf).
  - discriminate.
  - by intros (a' & [=] & _).
Qed.

Lemma bind_Ok_l {A B} (m : result A) (f : A → result B) (a : A) :
  m = Ok a → m ≫= f = f a.
Proof. by intros ->. Qed.

Lemma for_each_app {A S} (body : S → A → result S) xs ys (acc : S) :
  for_each body (xs ++ ys) acc = for_each body xs acc ≫= for_each body ys.
Proof.
  revert acc. induction xs as [|x xs IH]; intros acc; simpl; [done|].
  destruct (body acc x) as [acc'|e]; simpl; [apply IH|done].
Qed.

(** A loop whose body leaves the state as it is leaves it as it is. *)
Lemma for_each_fixed {A S} (body : S → A → result S) xs (acc : S) :
  (∀ x, x ∈ xs → body acc x = Ok acc) → for_each body xs acc = Ok acc.
Proof.
  induction xs as [|x xs IH]; intros Hfix; simpl; [done|].
  rewrite Hfix by set_solver. simpl. apply IH. intros; apply Hfix; set_solver.
Qed.

(** An invariant of the state of a loop that ends normally. *)
Lemma for_each_invariant {A S} (I : S → Prop) (body : S → A → result S)
    xs (acc acc' : S) :
  (∀ s x s', x ∈ xs → I s → body s x = Ok s' → I s') →
  I acc → for_each body xs acc = Ok acc' → I acc'.
Proof.
  revert acc. induction xs as [|x xs IH]; intros acc Hstep Hacc; simpl.
  - by intros [= <-].
  - intros (s & Hs & Hrest)%bind_Ok. eapply IH; [|eapply Hstep|]; eauto.
    + intros; eapply Hstep; eauto. set_solver.
    + set_solver.
Qed.

(** ** Columns of a frame *)

Lemma get_column_Ok_elem c df s : get_column c df = Ok s → (c, s) ∈ df.
Proof.
  induction df as [|[n s0] df IH]; simpl; [done|].
  case_decide; [intros [= <-]; subst; left | intros; right; auto].
Qed.

Lemma has_column_get c df : has_column c df = is_Ok (get_column c df).
Proof.
  unfold has_column, columns.
  induction df as [|[n s0] df IH]; simpl; [done|].
  destruct (decide (n = c)) as [->|Hne]; simpl.
  - apply bool_decide_eq_true_2. left.
  - rewrite <- IH. apply bool_decide_ext. set_solver.
Qed.

Lemma has_column_true c df : has_column c df = true ↔ ∃ s, get_column c df = Ok s.
Proof.
  rewrite has_column_get. destruct (get_column c df); simpl; naive_solver.
Qed.

Lemma has_column_false c df :
  has_column c df = false ↔ get_column c df = Raise KeyError.
Proof.
  rewrite has_column_get. split.
  - induction df as [|[n s0] df IH]; simpl; [done|]. case_decide; [done|auto].
  - by intros ->.
Qed.

Lemma get_set_eq c s df : get_column c (set_column c s df) = Ok s.
Proof.
  induction df as [|[n s0] df IH]; simpl.
  - by rewrite decide_True.
  - case_decide; simpl; [by rewrite decide_True | by rewrite decide_False].
Qed.

Lemma get_set_ne c c' s df :
  c ≠ c' → get_column c' (set_column c s df) = get_column c' df.
Proof.
  intros Hne. induction df as [|[n s0] df IH]; simpl.
  - by rewrite decide_False.
  - case_decide; simpl; subst.
    + by rewrite !decide_False.
    + case_decide; [done | apply IH].
Qed.

Lemma get_set c c' s df :
  get_column c' (set_column c s df)
  = if decide (c = c') then Ok s else get_column c' df.
Proof. case_decide; subst; [apply get_set_eq | by apply get_set_ne]. Qed.

Lemma set_get_id c s df : get_column c df = Ok s → set_column c s df = df.
Proof.
  induction df as [|[n s0] df IH]; simpl; [done|].
  case_decide; [by intros [= ->] | intros; f_equal; auto].
Qed.

Lemma set_set c s s' df :
  set_column c s (set_column c s' df) = set_column c s df.
Proof.
  induction df as [|[n s0] df IH]; simpl.
  - by rewrite decide_True.
  - case_decide; simpl; [by rewrite decide_True | rewrite decide_False by done].
    by rewrite IH.
Qed.

Lemma has_set c c' s df :
  has_column c' (set_column c s df) = bool_decide (c = c') || has_column c' df.
Proof.
  rewrite !has_column_get, get_set.
  case_decide; [by rewrite bool_decide_eq_true_2 | by rewrite bool_decide_eq_false_2].
Qed.

Lemma columns_set_present c s df :
  has_column c df = true → columns (set_column c s df) = columns df.
Proof.
  unfold has_column, columns. rewrite bool_decide_eq_true.
  induction df as [|[n s0] df IH]; simpl; [by intros ?%elem_of_nil|].
  case_decide; simpl; [done|]. intros Hin. f_equal. apply IH. set_solver.
Qed.

Lemma columns_set_absent c s df :
  has_column c df = false → columns (set_column c s df) = columns df ++ [c].
Proof.
  unfold has_column, columns. rewrite bool_decide_eq_false.
  induction df as [|[n s0] df IH]; simpl; [done|].
  case_decide; simpl; [set_solver|]. intros Hin. f_equal. apply IH. set_solver.
Qed.

Lemma frame_rows_set n c s df :
  length (values s) = n → frame_rows n df → frame_rows n (set_column c s df).
Proof.
  intros Hs. unfold frame_rows.
  induction df as [|[m s0] df IH]; simpl; intros Hdf.
  - by repeat constructor.
  - inversion_clear Hdf. case_decide; constructor; auto.
Qed.

Lemma frame_rows_get n c s df :
  frame_rows n df → get_column c df = Ok s → length (values s) = n.
Proof.
  unfold frame_rows. rewrite Forall_forall.
  intros Hdf Hget%get_column_Ok_elem. apply (Hdf _ Hget).
Qed.

(** ** Updating one column *)

Lemma update_column_Ok c f df df' :
  update_column c f df = Ok df' ↔
  ∃ s s', get_column c df = Ok s ∧ f s = Ok s' ∧ df' = set_column c s' df.
Proof.
  unfold update_column. rewrite bind_Ok. split.
  - intros (s & Hs & (s' & Hs' & [= <-])%bind_Ok). eauto.
  - intros (s & s' & Hs & Hs' & ->). exists s. split; [done|].
    by rewrite Hs'.
Qed.

Lemma update_column_fixed c f df s :
  get_column c df = Ok s → f s = Ok s → update_column c f df = Ok df.
Proof.
  intros Hs Hf. unfold update_column. rewrite Hs. simpl. rewrite Hf. simpl.
  by rewrite (set_get_id _ _ _ Hs).
Qed.

Lemma update_if_present_fixed c f df :
  (∀ s, get_column c df = Ok s → f s = Ok s) → update_if_present c f df = Ok df.
Proof.
  intros Hfix. unfold update_if_present.
  destruct (has_column c df) eqn:Hc; [|done].
  apply has_column_true in Hc as [s Hs]. eapply update_column_fixed; eauto.
Qed.

Lemma update_if_present_get c f df df' c' :
  update_if_present c f df = Ok df' →
  get_column c' df' = if decide (c = c') then get_column c df ≫= f
                      else get_column c' df.
Proof.
  unfold update_if_present. destruct (has_column c df) eqn:Hc.
  - intros (s & s' & Hs & Hs' & ->)%update_column_Ok.
    rewrite get_set. case_decide; [|done]. by rewrite Hs.
  - intros [= <-]. case_decide; [subst|done].
    apply has_column_false in Hc. by rewrite Hc.
Qed.

Lemma update_if_present_has c f df df' c' :
  update_if_present c f df = Ok df' → has_column c' df' = has_column c' df.
Proof.
  unfold update_if_present. destruct (has_column c df) eqn:Hc.
  - intros (s & s' & Hs & Hs' & ->)%update_column_Ok.
    rewrite has_set. case_bool_decide; subst; [by rewrite Hc | done].
  - by intros [= <-].
Qed.

Lemma update_if_present_columns c f df df' :
  update_if_present c f df = Ok df' → columns df' = columns df.
Proof.
  unfold update_if_present. destruct (has_column c df) eqn:Hc.
  - intros (s & s' & Hs & Hs' & ->)%update_column_Ok.
    by apply columns_set_present.
  - by intros [= <-].
Qed.


(** ** Python strings *)

Ltac by_cases_on_ascii c :=
  destruct c as [[] [] [] [] [] [] [] []]; vm_compute; reflexivity.

Lemma isspace_tolower c : Py.isspace (Py.tolower c) = Py.isspace c.
Proof. by_cases_on_ascii c. Qed.
Lemma isspace_toupper c : Py.isspace (Py.toupper c) = Py.isspace c.
Proof. by_cases_on_ascii c. Qed.
Lemma iscased_tolower c : Py.iscased (Py.tolower c) = Py.iscased c.
Proof. by_cases_on_ascii c. Qed.
Lemma iscased_toupper c : Py.iscased (Py.toupper c) = Py.iscased c.
Proof. by_cases_on_ascii c. Qed.
Lemma tolower_idem c : Py.tolower (Py.tolower c) = Py.tolower c.
Proof. by_cases_on_ascii c. Qed.
Lemma toupper_idem c : Py.toupper (Py.toupper c) = Py.toupper c.
Proof. by_cases_on_ascii c. Qed.
Lemma isdigit_not_isspace c : Py.isdigit c = true → Py.isspace c = false.
Proof. destruct c as [[] [] [] [] [] [] [] []]; vm_compute; congruence. Qed.

Lemma lstrip_head_ok s : head_ok (Py.lstrip s) = true.
Proof.
  induction s as [|c s IH]; simpl; [done|].
  destruct (Py.isspace c) eqn:Hc; simpl; [done | by rewrite Hc].
Qed.

Lemma lstrip_id s : head_ok s = true → Py.lstrip s = s.
Proof. destruct s as [|c s]; simpl; [done|]. by destruct (Py.isspace c). Qed.

Lemma rstrip_last_ok s : last_ok (Py.rstrip s) = true.
Proof.
  induction s as [|c s IH]; simpl; [done|].
  destruct (Py.rstrip s) as [|c' r] eqn:Hr.
  - destruct (Py.isspace c) eqn:Hc; simpl; [done | by rewrite Hc].
  - done.
Qed.

Lemma rstrip_id s : last_ok s = true → Py.rstrip s = s.
Proof.
  induction s as [|c s IH]; simpl; [done|].
  destruct s as [|c' s'].
  - simpl. by destruct (Py.isspace c).
  - intros Hl. by rewrite IH.
Qed.

Lemma rstrip_head_ok s : head_ok s = true → head_ok (Py.rstrip s) = true.
Proof.
  destruct s as [|c s]; simpl; [done|]. intros Hc.
  destruct (Py.rstrip s); [|done].
  destruct (Py.isspace c) eqn:E; simpl in *; rewrite ?E; done.
Qed.

Lemma strip_trimmed s : trimmed (Py.strip s) = true.
Proof.
  unfold trimmed, Py.strip.
  by rewrite rstrip_head_ok, rstrip_last_ok by apply lstrip_head_ok.
Qed.

Lemma strip_id s : trimmed s = true → Py.strip s = s.
Proof.
  unfold trimmed, Py.strip. intros [Hh Hl]%andb_prop.
  by rewrite lstrip_id, rstrip_id.
Qed.

Lemma strip_idem s : Py.strip (Py.strip s) = Py.strip s.
Proof. apply strip_id, strip_trimmed. Qed.

Lemma lower_idem s : Py.lower (Py.lower s) = Py.lower s.
Proof. induction s; simpl; [done|]. by rewrite tolower_idem, IHs. Qed.

Lemma head_ok_lower s : head_ok (Py.lower s) = head_ok s.
Proof. destruct s; simpl; [done|]. by rewrite isspace_tolower. Qed.

Lemma last_ok_lower s : last_ok (Py.lower s) = last_ok s.
Proof.
  induction s as [|c s IH]; simpl; [done|].
  destruct s as [|c' s']; simpl in *; [by rewrite isspace_tolower | done].
Qed.

Lemma trimmed_lower s : trimmed (Py.lower s) = trimmed s.
Proof. unfold trimmed. by rewrite head_ok_lower, last_ok_lower. Qed.

Lemma title_from_idem p s :
  Py.title_from p (Py.title_from p s) = Py.title_from p s.
Proof.
  revert p. induction s as [|c s IH]; intros p; simpl; [done|].
  destruct p.
  - by rewrite tolower_idem, iscased_tolower, IH.
  - by rewrite toupper_idem, iscased_toupper, IH.
Qed.

Lemma head_ok_title_from p s : head_ok (Py.title_from p s) = head_ok s.
Proof.
  destruct s; simpl; [done|].
  destruct p; by rewrite ?isspace_tolower, ?isspace_toupper.
Qed.

Lemma last_ok_title_from p s : last_ok (Py.title_from p s) = last_ok s.
Proof.
  revert p. induction s as [|c s IH]; intros p; simpl; [done|].
  destruct s as [|c' s'].
  - simpl. destruct p; by rewrite ?isspace_tolower, ?isspace_toupper.
  - specialize (IH (Py.iscased c)). simpl in *. apply IH.
Qed.

Lemma title_idem s : Py.title (Py.title s) = Py.title s.
Proof. apply title_from_idem. Qed.

Lemma trimmed_title s : trimmed (Py.title s) = trimmed s.
Proof. unfold trimmed, Py.title. by rewrite head_ok_title_from, last_ok_title_from. Qed.

Lemma remove_nondigits_all_digits s : all_digits (Py.remove_nondigits s) = true.
Proof.
  induction s as [|c s IH]; simpl; [done|].
  destruct (Py.isdigit c) eqn:Hc; simpl; [by rewrite Hc|done].
Qed.

Lemma remove_nondigits_id s : all_digits s = true → Py.remove_nondigits s = s.
Proof.
  induction s as [|c s IH]; simpl; [done|].
  intros [-> Hs]%andb_prop. by rewrite IH.
Qed.

Lemma all_digits_trimmed s : all_digits s = true → trimmed s = true.
Proof.
  unfold trimmed. intros Hs. apply andb_true_intro. split.
  - destruct s; simpl in *; [done|].
    apply andb_prop in Hs as [Hc _]. by rewrite isdigit_not_isspace.
  - induction s as [|c s IH]; simpl in *; [done|].
    apply andb_prop in Hs as [Hc Hs]. destruct s; [|auto].
    by rewrite isdigit_not_isspace.
Qed.

(** The composed string steps of the cleaning rules are idempotent. *)
Lemma strip_title_idem s :
  Py.title (Py.strip (Py.title (Py.strip s))) = Py.title (Py.strip s).
Proof.
  rewrite (strip_id (Py.title _)), title_idem; [done|].
  by rewrite trimmed_title, strip_trimmed.
Qed.

Lemma strip_lower_idem s :
  Py.lower (Py.strip (Py.lower (Py.strip s))) = Py.lower (Py.strip s).
Proof.
  rewrite (strip_id (Py.lower _)), lower_idem; [done|].
  by rewrite trimmed_lower, strip_trimmed.
Qed.

(** ** Column operations *)

Lemma cell_str_compose f g c : cell_str f (cell_str g c) = cell_str (f ∘ g) c.
Proof. by destruct c. Qed.

Lemma str_method_Ok f s s' :
  str_method f s = Ok s' ↔
  dtype_of s = Object ∧ s' = mkSeries Object (map (cell_str f) (values s)).
Proof.
  unfold str_method, str_values. destruct (dtype_of s); simpl; naive_solver.
Qed.

Lemma str_method_compose f g s :
  str_method g s ≫= str_method f = str_method (f ∘ g) s.
Proof.
  unfold str_method, str_values. destruct (dtype_of s); simpl; [done| |done].
  f_equal. f_equal. rewrite map_map. apply map_ext, cell_str_compose.
Qed.

Lemma str_method_idem f s s' :
  (∀ x, f (f x) = f x) → str_method f s = Ok s' → str_method f s' = Ok s'.
Proof.
  intros Hf (Hd & ->)%str_method_Ok. apply str_method_Ok. split; [done|].
  simpl. f_equal. rewrite map_map. apply map_ext. intros [| | |]; simpl; by rewrite ?Hf.
Qed.

Lemma str_method_length f s s' :
  str_method f s = Ok s' → length (values s') = length (values s).
Proof. intros (Hd & ->)%str_method_Ok. simpl. by rewrite length_map. Qed.

Section numeric_columns.
Context {reader : Parsers}.

Lemma cell_to_numeric_idem c : cell_to_numeric (cell_to_numeric c) = cell_to_numeric c.
Proof. destruct c as [| |s|]; simpl; try done. by destruct (parse_number s). Qed.

Lemma to_numeric_idem s : to_numeric (to_numeric s) = to_numeric s.
Proof.
  unfold to_numeric. simpl. f_equal. rewrite map_map.
  apply map_ext, cell_to_numeric_idem.
Qed.

Lemma fillna0_to_numeric_idem s :
  fillna0 (to_numeric (fillna0 (to_numeric s))) = fillna0 (to_numeric s).
Proof.
  unfold fillna0, to_numeric. simpl. f_equal. rewrite !map_map.
  apply map_ext. intros [| |x|]; simpl; try done. by destruct (parse_number x).
Qed.

Lemma to_datetime_idem s : to_datetime (to_datetime s) = to_datetime s.
Proof. unfold to_datetime. destruct (dtype_of s) eqn:Hd; simpl; by rewrite ?Hd. Qed.

Lemma to_datetime_dtype s : dtype_of (to_datetime s) = Datetime64.
Proof. unfold to_datetime. destruct (dtype_of s) eqn:Hd; simpl; by rewrite ?Hd. Qed.

Lemma to_datetime_length s : length (values (to_datetime s)) = length (values s).
Proof.
  unfold to_datetime. destruct (dtype_of s); simpl;
    by rewrite ?length_map, ?parse_datetimes_length.
Qed.

Lemma to_numeric_length s : length (values (to_numeric s)) = length (values s).
Proof. simpl. by rewrite length_map. Qed.

(** The cells of [to_numeric] are numbers or nulls. *)
Lemma to_numeric_cells s c :
  c ∈ values (to_numeric s) → c = NA ∨ ∃ x, c = VNum x.
Proof.
  simpl. intros (c0 & -> & _)%list_elem_of_fmap.
  destruct c0 as [| |x|]; simpl; eauto. destruct (parse_number x); simpl; eauto.
Qed.

(** *** Order lines *)

Lemma update_if_present_pure c (g : Series → Series) df s :
  get_column c df = Ok s →
  update_if_present c (λ s, Ok (g s)) df = Ok (set_column c (g s) df).
Proof.
  intros Hs. unfold update_if_present, update_column.
  assert (has_column c df = true) as -> by (apply has_column_true; eauto).
  by rewrite Hs.
Qed.

Lemma update_if_present_absent c f df :
  has_column c df = false → update_if_present c f df = Ok df.
Proof. unfold update_if_present. by intros ->. Qed.

Lemma update_if_present_pure_total c (g : Series → Series) df :
  ∃ df', update_if_present c (λ s, Ok (g s)) df = Ok df'.
Proof.
  destruct (has_column c df) eqn:Hc.
  - apply has_column_true in Hc as [s Hs]. erewrite update_if_present_pure; eauto.
  - rewrite update_if_present_absent; eauto.
Qed.

Lemma transform_detalles_orden_both df cantidad subtotal :
  get_column "cantidad" df = Ok cantidad →
  get_column "subtotal" df = Ok subtotal →
  transform_detalles_orden df
  = Ok (set_column "precio_unitario"
          (series_div (to_numeric subtotal) (to_numeric cantidad))
          (set_column "subtotal" (to_numeric subtotal)
             (set_column "cantidad" (to_numeric cantidad) df))).
Proof.
  intros Hc Hs. unfold transform_detalles_orden. simpl.
  rewrite (update_if_present_pure _ _ _ _ Hc). simpl.
  erewrite update_if_present_pure by (rewrite get_set_ne; [exact Hs|done]).
  simpl. rewrite !has_set, !get_set. simpl. done.
Qed.

Lemma transform_detalles_orden_total df : ∃ out, transform_detalles_orden df = Ok out.
Proof.
  unfold transform_detalles_orden. simpl.
  destruct (update_if_present_pure_total "cantidad" to_numeric df) as [df1 ->].
  simpl.
  destruct (update_if_present_pure_total "subtotal" to_numeric df1) as [df2 ->].
  simpl.
  destruct (has_column "cantidad" df2) eqn:Hc, (has_column "subtotal" df2) eqn:Hs;
    simpl; eauto.
  apply has_column_true in Hc as [c ->], Hs as [s ->]. simpl. eauto.
Qed.

End numeric_columns.

(** ** Unit prices of order lines (C2) *)

Section C2.
Context {reader : Parsers}.

Lemma cell_div_finite a b :
  b ≠ 0%Qc → cell_div (VNum (Fin a)) (VNum (Fin b)) = VNum (Fin (a / b)).
Proof. intros Hb. simpl. by rewrite bool_decide_eq_false_2. Qed.

Lemma cell_div_by_zero a :
  cell_div (VNum (Fin a)) (VNum (Fin 0))
  = if decide (0 < a)%Qc then VNum PInf
    else if decide (a < 0)%Qc then VNum NInf else NA.
Proof.
  simpl. repeat case_bool_decide; repeat case_decide; done.
Qed.

Lemma cell_div_na_r a : cell_div a NA = NA.
Proof. by destruct a. Qed.

(** C2 (as amended).  On a table with the columns [cantidad] and
    [subtotal] the cleaning of order lines never raises and adds the column
    [precio_unitario], row by row the float quotient of the cleaned subtotal
    by the cleaned quantity: the exact quotient for a non-zero quantity;
    for a quantity of 0, plus or minus infinity when the subtotal is
    positive or negative, and null only when the subtotal is 0; null when
    either value is null. *)
Theorem unit_price_is_float_quotient df cantidad subtotal :
  get_column "cantidad" df = Ok cantidad →
  get_column "subtotal" df = Ok subtotal →
  ∃ out precio_unitario,
    transform_detalles_orden df = Ok out
    ∧ get_column "cantidad" out = Ok (to_numeric cantidad)
    ∧ get_column "subtotal" out = Ok (to_numeric subtotal)
    ∧ get_column "precio_unitario" out = Ok precio_unitario
    ∧ ∀ i q s,
        values (to_numeric cantidad) !! i = Some q →
        values (to_numeric subtotal) !! i = Some s →
        ∃ p, values precio_unitario !! i = Some p
          ∧ (∀ a b, s = VNum (Fin a) → q = VNum (Fin b) → b ≠ 0%Qc →
               p = VNum (Fin (a / b)))
          ∧ (∀ a, s = VNum (Fin a) → q = VNum (Fin 0) → (0 < a)%Qc →
               p = VNum PInf)
          ∧ (∀ a, s = VNum (Fin a) → q = VNum (Fin 0) → (a < 0)%Qc →
               p = VNum NInf)
          ∧ (s = VNum (Fin 0) → q = VNum (Fin 0) → p = NA)
          ∧ (s = NA ∨ q = NA → p = NA).
Proof.
  intros Hc Hs.
  eexists _, _. split; [by apply transform_detalles_orden_both|].
  rewrite !get_set. simpl. repeat split.
  intros i q s Hq Hs'. exists (cell_div s q). split.
  { simpl in *. rewrite lookup_zip_with, Hs'. simpl. by rewrite Hq. }
  repeat split.
  - intros a b -> -> Hb. by apply cell_div_finite.
  - intros a -> -> Ha. rewrite cell_div_by_zero. by rewrite decide_True.
  - intros a -> -> Ha. rewrite cell_div_by_zero.
    rewrite decide_False, decide_True; [done..|].
    by apply Qcle_not_lt, Qclt_le_weak.
  - intros -> ->. done.
  - intros [-> | ->]; [done | apply cell_div_na_r].
Qed.

End C2.

Lemma unit_price_is_float_quotient_witness :
  ∃ out precio_unitario,
    transform_detalles_orden (reader:=Reader.iso_reader) order_line_quantity_zero = Ok out
    ∧ get_column "precio_unitario" out = Ok precio_unitario
    ∧ values precio_unitario !! 0 = Some (VNum PInf).
Proof.
  destruct (unit_price_is_float_quotient (reader:=Reader.iso_reader)
              order_line_quantity_zero (int_column [0]%Z) (int_column [100]%Z)
              eq_refl eq_refl)
    as (out & pu & Hout & _ & _ & Hpu & Hrows).
  exists out, pu. split; [done|]. split; [done|].
  destruct (Hrows 0 (int_cell 0) (int_cell 100) eq_refl eq_refl)
    as (p & Hp & _ & Hpos & _).
  rewrite Hp. f_equal. apply (Hpos (Qc_of_Z 100)); compute_done.
Defined.

(** C2, counterexample.  Scenario 4 of the specification: the order line
    with quantity 0 and subtotal 100 is cleaned without an exception, but
    its unit price is plus infinity, which is not null. *)
Lemma unit_price_of_quantity_zero_is_not_null :
  (out ← transform_detalles_orden (reader:=Reader.iso_reader) order_line_quantity_zero;
   at_get 0 "precio_unitario" out) = Ok (VNum PInf)
  ∧ isna (VNum PInf) = false.
Proof. split; [vm_compute; reflexivity | reflexivity]. Qed.

(** ** Production orders (C9) *)


Lemma has_column_columns c df df' :
  columns df' = columns df → has_column c df' = has_column c df.
Proof. unfold has_column. by intros ->. Qed.

Lemma get_column_in_columns c df s : get_column c df = Ok s → c ∈ columns df.
Proof.
  intros Hs. assert (has_column c df = true) as Hc by (apply has_column_true; eauto).
  unfold has_column in Hc. by apply bool_decide_eq_true in Hc.
Qed.

Section C9.
Context {reader : Parsers}.

Lemma for_each_update_pure (g : Series → Series) cols df :
  (∀ s, g (g s) = g s) →
  Forall (λ c, has_column c df = true) cols →
  ∃ df',
    for_each (λ df c, update_column c (λ s, Ok (g s)) df) cols df = Ok df'
    ∧ columns df' = columns df
    ∧ ∀ c, get_column c df'
           = if decide (c ∈ cols) then get_column c df ≫= (λ s, Ok (g s))
             else get_column c df.
Proof.
  intros Hg. revert df. induction cols as [|c0 cols IH]; intros df Hcols.
  { exists df. repeat split. }
  apply Forall_cons in Hcols as [Hc0 Hrest].
  apply has_column_true in Hc0 as Hget. destruct Hget as [s Hs].
  simpl. unfold update_column at 2. rewrite Hs. simpl.
  destruct (IH (set_column c0 (g s) df)) as (df' & Hloop & Hcolumns & Hget).
  { eapply Forall_impl; [done|]. simpl. intros c Hc.
    erewrite has_column_columns; [exact Hc | by apply columns_set_present]. }
  exists df'. split; [done|]. split.
  { rewrite Hcolumns. by apply columns_set_present. }
  intros c. rewrite Hget, get_set.
  destruct (decide (c0 = c)) as [->|Hne].
  - rewrite (decide_True (P:=c ∈ c :: cols)) by left. rewrite Hs. simpl.
    case_decide; simpl; by rewrite ?Hg.
  - destruct (decide (c ∈ cols)).
    + by rewrite (decide_True (P:=c ∈ c0 :: cols)) by by right.
    + rewrite (decide_False (P:=c ∈ c0 :: cols)); [done|]. set_solver.
Qed.

Lemma for_each_update_pure_rows (g : Series → Series) cols df df' n :
  (∀ s, length (values (g s)) = length (values s)) →
  for_each (λ df c, update_column c (λ s, Ok (g s)) df) cols df = Ok df' →
  frame_rows n df → frame_rows n df'.
Proof.
  intros Hg Hloop Hn.
  eapply (for_each_invariant (frame_rows n)); [|exact Hn|exact Hloop].
  intros d c d' _ Hd (s & s' & Hs & [= <-] & ->)%update_column_Ok.
  apply frame_rows_set; [|done]. rewrite Hg. by eapply frame_rows_get.
Qed.

Lemma date_columns_present df :
  Forall (λ c, has_column c df = true)
    (filter (λ col, Py.has_substring "fecha" (Py.lower col)) (columns df)).
Proof.
  apply Forall_forall. intros c [_ Hc]%list_elem_of_filter.
  by apply bool_decide_eq_true.
Qed.

Lemma cell_days_between_notna a b :
  (a = NA ∨ ∃ t, a = VDate t) → (b = NA ∨ ∃ t, b = VDate t) →
  cell_days_between a b ≠ NA ↔ a ≠ NA ∧ b ≠ NA.
Proof. intros [->|[ta ->]] [->|[tb ->]]; simpl; naive_solver. Qed.

Lemma to_datetime_raw s :
  dtype_of s ≠ Datetime64 →
  to_datetime s = mkSeries Datetime64 (of_timestamp <$> parse_datetimes (values s)).
Proof. unfold to_datetime. by destruct (dtype_of s). Qed.

Lemma of_timestamp_cases o : of_timestamp o = NA ∨ ∃ t, of_timestamp o = VDate t.
Proof. destruct o; simpl; eauto. Qed.

(** C9, the failing input.  No order of the table has a status, so that
    [pd.read_csv] gives the column the dtype float64: the step
    [df_clean['estado'].str.strip()] raises [AttributeError], where the
    claim says that cleaning returns the table with its dates parsed and its
    durations added. *)
Lemma production_orders_cleaning_raises :
  transform_ordenes_produccion ordenes_without_status = Raise AttributeError.
Proof. reflexivity. Qed.

(** On a raw production-order table whose status is a string column
    (columns [fecha_orden], [fecha_completado] and [estado], the dates not
    yet of dtype datetime64) cleaning returns and keeps every row;
    each date becomes the timestamp pandas parses out of it, or null when
    there is none; each status is trimmed and then title-cased; the new
    column [duracion_dias] holds, row by row, the whole days from the order
    date to the completion date, and is non-null exactly when both dates
    are non-null. *)
Theorem production_orders_cleaning df fecha_orden fecha_completado estado :
  get_column "fecha_orden" df = Ok fecha_orden →
  get_column "fecha_completado" df = Ok fecha_completado →
  get_column "estado" df = Ok estado →
  dtype_of fecha_orden ≠ Datetime64 →
  dtype_of fecha_completado ≠ Datetime64 →
  dtype_of estado = Object →
  ∃ out duracion_dias,
    transform_ordenes_produccion df = Ok out
    ∧ (∀ n, frame_rows n df → frame_rows n out)
    ∧ (∀ c, has_column c df = true → has_column c out = true)
    ∧ get_column "fecha_orden" out
      = Ok (mkSeries Datetime64
              (of_timestamp <$> parse_datetimes (values fecha_orden)))
    ∧ get_column "fecha_completado" out
      = Ok (mkSeries Datetime64
              (of_timestamp <$> parse_datetimes (values fecha_completado)))
    ∧ get_column "estado" out
      = Ok (mkSeries Object
              (cell_str (Py.title ∘ Py.strip) <$> values estado))
    ∧ get_column "duracion_dias" out = Ok duracion_dias
    ∧ ∀ i o c,
        parse_datetimes (values fecha_orden) !! i = Some o →
        parse_datetimes (values fecha_completado) !! i = Some c →
        ∃ d, values duracion_dias !! i = Some d
          ∧ (d ≠ NA ↔ is_Some o ∧ is_Some c)
          ∧ ∀ t_orden t_completado,
              o = Some t_orden → c = Some t_completado →
              d = VNum (num_of_Z ((t_completado - t_orden) `div` ns_per_day)).
Proof.
  intros Hfo Hfc Hest Hdfo Hdfc Hdest.
  unfold transform_ordenes_produccion.
  destruct (for_each_update_pure to_datetime _ df to_datetime_idem
              (date_columns_present df)) as (df1 & Hloop & Hcols1 & Hget1).
  rewrite Hloop.
  simpl.
  assert (get_column "estado" df1 = Ok estado) as Hest1.
  { rewrite Hget1, decide_False, Hest; [done|].
    intros [Hc _]%list_elem_of_filter. by vm_compute in Hc. }
  assert (get_column "fecha_orden" df1 = Ok (to_datetime fecha_orden)) as Hfo1.
  { rewrite Hget1, decide_True, Hfo; [done|].
    apply list_elem_of_filter. split; [by vm_compute|].
    by eapply get_column_in_columns. }
  assert (get_column "fecha_completado" df1 = Ok (to_datetime fecha_completado))
    as Hfc1.
  { rewrite Hget1, decide_True, Hfc; [done|].
    apply list_elem_of_filter. split; [by vm_compute|].
    by eapply get_column_in_columns. }
  set (estado' := mkSeries Object (cell_str (Py.title ∘ Py.strip) <$> values estado)).
  assert (update_if_present "estado" (λ s, s ← str_strip s; str_title s) df1
          = Ok (set_column "estado" estado' df1)) as ->.
  { unfold update_if_present, update_column.
    assert (has_column "estado" df1 = true) as -> by (apply has_column_true; eauto).
    rewrite Hest1. simpl. unfold str_strip, str_title.
    rewrite str_method_compose. unfold str_method, str_values. by rewrite Hdest. }
  simpl. rewrite !has_set. simpl.
  assert (has_column "fecha_orden" df1 = true) as -> by (apply has_column_true; eauto).
  assert (has_column "fecha_completado" df1 = true) as ->
    by (apply has_column_true; eauto).
  simpl. rewrite !get_set. simpl. rewrite Hfo1, Hfc1. simpl.
  eexists _, _. split; [done|].
  rewrite !get_set. simpl. rewrite Hfo1, Hfc1, !to_datetime_raw by done.
  split.
  { intros n Hn. apply frame_rows_set.
    { simpl. rewrite length_zip_with, !length_fmap, !parse_datetimes_length.
      rewrite (frame_rows_get _ _ _ _ Hn Hfo), (frame_rows_get _ _ _ _ Hn Hfc). lia. }
    apply frame_rows_set.
    { simpl. rewrite length_fmap. by apply (frame_rows_get _ _ _ _ Hn Hest). }
    eapply for_each_update_pure_rows; [apply to_datetime_length|done..]. }
  split.
  { intros c Hc. rewrite !has_set, (has_column_columns _ _ _ Hcols1), Hc.
    by rewrite !orb_true_r. }
  repeat split.
  intros i o c Ho Hc. simpl. rewrite lookup_zip_with, !list_lookup_fmap, Ho, Hc.
  simpl. eexists. split; [done|]. split.
  - destruct o, c; simpl; split; try naive_solver.
    all: intros [[? ?] [? ?]]; done.
  - by intros to tc -> ->.
Qed.

End C9.

Lemma production_orders_cleaning_witness :
  ∃ out,
    transform_ordenes_produccion (reader:=Reader.iso_reader)
      production_order_scenario = Ok out
    ∧ nrows out = 1
    ∧ at_get 0 "estado" out = Ok (VStr "Completado")
    ∧ at_get 0 "duracion_dias" out = Ok (int_cell 9).
Proof.
  destruct (production_orders_cleaning (reader:=Reader.iso_reader)
              production_order_scenario
              (object_column [VStr "2024-01-01"])
              (object_column [VStr "2024-01-10"])
              (object_column [VStr " completado "])
              eq_refl eq_refl eq_refl)
    as (out & dur & Hout & Hrows & _ & _ & _ & Hest & Hdur & Hdays);
    [discriminate | discriminate | reflexivity |].
  exists out. split; [exact Hout|]. split.
  { assert (frame_rows 1 production_order_scenario) as Hone
      by (repeat constructor).
    apply Hrows in Hone. destruct out as [|[c s] out]; [discriminate|].
    simpl. by inversion Hone. }
  unfold at_get. rewrite Hest, Hdur. simpl. split; [reflexivity|].
  destruct (Hdays 0 (Some 1704067200000000000%Z) (Some 1704844800000000000%Z)
              eq_refl eq_refl) as (d & -> & _ & Hd).
  by rewrite (Hd _ _ eq_refl eq_refl).
Defined.


(** ** Derived tables and their dependencies (C7) *)

Lemma all_in_buildable t datasets :
  DataLoader.all_in (required t) datasets = true ↔ buildable t datasets.
Proof.
  unfold DataLoader.all_in, buildable. rewrite forallb_forall.
  split; intros Hall k Hk.
  - apply (bool_decide_unpack _), Is_true_true, Hall. by apply list_elem_of_In.
  - apply bool_decide_eq_true, Hall. by apply list_elem_of_In.
Qed.

Lemma derived_name_inj : Inj (=) (=) derived_name.
Proof. intros [] []; simpl; intros; by simplify_eq. Qed.

Lemma bind_assoc {A B C} (m : result A) (f : A → result B) (g : B → result C) :
  (m ≫= f) ≫= g = m ≫= (λ a, f a ≫= g).
Proof. by destruct m. Qed.

Lemma bind_ext {A B} (m m' : result A) (f f' : A → result B) :
  m = m' → (∀ a, f a = f' a) → m ≫= f = m' ≫= f'.
Proof. intros <- Hf. destruct m; simpl; [apply Hf | done]. Qed.

Lemma create_analytics_tables_blocks datasets :
  DataLoader.create_analytics_tables datasets
  = for_each (build_if_available datasets) all_derived ∅.
Proof.
  unfold DataLoader.create_analytics_tables, all_derived. cbn [for_each].
  repeat (apply bind_ext; [|intros ?]).
  all: cbv [build_if_available builder required derived_name].
  all: destruct (DataLoader.all_in _ _); [|done].
  all: repeat match goal with
              | |- context [DataLoader.getitem ?k ?d] =>
                  destruct (DataLoader.getitem k d)
              end; simpl; try done.
  by destruct (DataLoader._create_productividad_empleados _ _).
Qed.

(** What a run of blocks leaves in the table of results. *)
Lemma build_blocks_Ok datasets ts acc out :
  NoDup ts →
  for_each (build_if_available datasets) ts acc = Ok out →
  (∀ t, t ∈ ts → buildable t datasets →
        ∃ tbl, builder t datasets = Ok tbl ∧ out !! derived_name t = Some tbl)
  ∧ (∀ name, (∀ t, t ∈ ts → buildable t datasets → name ≠ derived_name t) →
             out !! name = acc !! name).
Proof.
  revert acc. induction ts as [|t0 ts IH]; intros acc Hnd; simpl.
  { intros [= <-]. split; [by intros ? ?%elem_of_nil | done]. }
  apply NoDup_cons in Hnd as [Ht0 Hnd].
  intros (acc1 & Hblock & Hrest)%bind_Ok.
  destruct (IH _ Hnd Hrest) as [Hbuilt Hother]. clear IH.
  unfold build_if_available in Hblock.
  destruct (DataLoader.all_in (required t0) datasets) eqn:Hall.
  - apply bind_Ok in Hblock as (tbl0 & Htbl0 & [= <-]).
    apply all_in_buildable in Hall. split.
    + intros t [->|Ht]%elem_of_cons Hb; [|by apply Hbuilt].
      exists tbl0. split; [done|]. rewrite Hother.
      * apply lookup_insert_eq.
      * intros t' Ht' _ Heq%derived_name_inj. by subst.
    + intros name Hname. destruct (decide (name = derived_name t0)) as [->|Hne].
      * destruct (Hname t0); [left|done..].
      * rewrite Hother, lookup_insert_ne; [done..|].
        intros t Ht. apply Hname. by right.
  - injection Hblock as <-.
    assert (¬ buildable t0 datasets) as Hnb.
    { rewrite <- all_in_buildable. by rewrite Hall. }
    split.
    + intros t [->|Ht]%elem_of_cons Hb; [done|by apply Hbuilt].
    + intros name Hname. apply Hother. intros t Ht. apply Hname. by right.
Qed.

Lemma build_blocks_raise datasets ts acc :
  (∀ t, t ∈ ts → buildable t datasets → is_Ok (builder t datasets) = true) →
  is_Ok (for_each (build_if_available datasets) ts acc) = true.
Proof.
  revert acc. induction ts as [|t0 ts IH]; intros acc Hok; simpl; [done|].
  unfold build_if_available at 2.
  destruct (DataLoader.all_in (required t0) datasets) eqn:Hall; simpl.
  - apply all_in_buildable in Hall.
    specialize (Hok t0 (ltac:(left)) Hall) as Hb.
    destruct (builder t0 datasets); [|done]. simpl.
    apply IH. intros; apply Hok; [by right|done].
  - apply IH. intros; apply Hok; [by right|done].
Qed.

Lemma all_derived_complete t : t ∈ all_derived.
Proof. destruct t; unfold all_derived; set_solver. Qed.

Lemma all_derived_NoDup : NoDup all_derived.
Proof.
  unfold all_derived.
  repeat (apply NoDup_cons; split; [set_solver|]). apply NoDup_nil_2.
Qed.

(** C7, counterexample.  The order lines carry a product name of their
    own, which cleaning keeps.  The three entities of the complete orders
    are in the cleaned set and their builder returns, but the builder of
    the product sales raises: [create_analytics_tables] raises with it and
    returns no table at all. *)
Lemma derived_tables_lost_to_a_raising_builder :
  match @transform_all Reader.iso_reader entities_with_product_name with
  | Ok clean =>
      DataLoader.all_in (required OrdenesCompletas) clean = true
      ∧ is_Ok (builder OrdenesCompletas clean) = true
      ∧ DataLoader.create_analytics_tables clean = Raise KeyError
  | Raise _ => False
  end.
Proof. vm_compute. repeat split; reflexivity. Qed.

(** C7 (as amended).  [create_analytics_tables] returns exactly when the
    builder of every derived table whose required entities are all in the
    cleaned entity set returns: an absent entity never makes it raise, a
    builder that raises does, and then no table is returned.  When it
    returns, a derived table is in the result exactly when its entities are
    present, and nothing else is.  In particular (Scenario 5) without
    [materiales] the result has no [uso_materiales_agregado], while each of
    the other four tables is there whenever its own entities are. *)
Theorem derived_tables_follow_dependencies (datasets : gmap string DataFrame) :
  (is_Ok (DataLoader.create_analytics_tables datasets) = true
   ↔ ∀ t, buildable t datasets → is_Ok (builder t datasets) = true)
  ∧ (∀ analytics,
       DataLoader.create_analytics_tables datasets = Ok analytics →
       (∀ t, buildable t datasets →
             ∃ tbl, builder t datasets = Ok tbl
                    ∧ analytics !! derived_name t = Some tbl)
       ∧ (∀ t, ¬ buildable t datasets → analytics !! derived_name t = None)
       ∧ (∀ name, is_Some (analytics !! name) → ∃ t, name = derived_name t)
       ∧ (datasets !! "materiales" = None →
          analytics !! "uso_materiales_agregado" = None
          ∧ ∀ t, t ≠ UsoMaterialesAgregado →
                 (is_Some (analytics !! derived_name t) ↔ buildable t datasets))).
Proof.
  rewrite create_analytics_tables_blocks. split.
  { split.
    - destruct (for_each _ all_derived ∅) as [analytics|e] eqn:Hrun; [|done].
      intros _ t Ht.
      apply build_blocks_Ok in Hrun as [Hbuilt _]; [|apply all_derived_NoDup].
      by destruct (Hbuilt t (all_derived_complete t) Ht) as (tbl & -> & _).
    - intros Hok. apply build_blocks_raise. auto. }
  intros analytics [Hbuilt Hother]%build_blocks_Ok; [|apply all_derived_NoDup].
  assert (∀ t, ¬ buildable t datasets → analytics !! derived_name t = None)
    as Hskipped.
  { intros t Ht. rewrite Hother; [apply lookup_empty|].
    intros t' _ Hb' Heq%derived_name_inj. by subst. }
  split; [|split; [|split]].
  - intros t Ht. apply Hbuilt; [apply all_derived_complete|done].
  - done.
  - intros name [tbl Htbl].
    destruct (decide (name ∈ derived_name <$> all_derived)) as [Hin|Hno].
    { apply list_elem_of_fmap in Hin as (t & -> & _). by exists t. }
    rewrite Hother, lookup_empty in Htbl; [done|].
    intros t Ht _ ->. apply Hno. by apply list_elem_of_fmap_2.
  - intros Hmat.
    assert (¬ buildable UsoMaterialesAgregado datasets) as Hno.
    { intros Hb. destruct (Hb "materiales") as [? Hsome]; [set_solver|].
      by rewrite Hmat in Hsome. }
    split; [by apply (Hskipped UsoMaterialesAgregado)|].
    intros t _. split.
    + intros Hsome.
      destruct (DataLoader.all_in (required t) datasets) eqn:Hall.
      { by apply all_in_buildable. }
      rewrite Hskipped in Hsome; [by destruct Hsome|].
      rewrite <- all_in_buildable. by rewrite Hall.
    + intros Hb. destruct (Hbuilt t (all_derived_complete t) Hb) as (tbl & _ & ->).
      by eexists.
Qed.


(** Scenario 5 on a concrete entity set: four tables are built, and
    [uso_materiales_agregado] is not. *)
Example scenario_without_materiales :
  match DataLoader.create_analytics_tables entities_without_materiales with
  | Ok analytics =>
      dom analytics
      = {["ordenes_completas"; "ventas_por_producto"; "metricas_por_cliente";
          "productividad_empleados"]}
  | Raise _ => False
  end.
Proof. vm_compute. reflexivity. Qed.


(** ** Totality of the cleaning operations (C6) *)

(** C6, the failing inputs.  Cleaning a customer table in which two rows
    have no email raises [TypeError] (the test ['@' in original_email] is
    applied to NaN), and cleaning a customer table without an email column
    raises [KeyError]; the claim says that cleaning never raises. *)
Lemma customer_cleaning_raises :
  transform_clientes customers_missing_emails = Raise TypeError
  ∧ transform_clientes customers_without_email_column = Raise KeyError.
Proof. split; vm_compute; reflexivity. Qed.

(** ** Idempotence of the cleaning operations (C8) *)

(** C8, the failing input.  Two customers whose emails differ by a leading
    blank: the first cleaning looks for duplicates before it trims, and
    leaves both with the same email; cleaning the result again finds the
    duplicate and rewrites the second email, where the claim says that the
    second cleaning changes nothing. *)
Lemma customer_cleaning_not_idempotent :
  ∃ once twice,
    transform_clientes customers_blank_before_email = Ok once
    ∧ transform_clientes once = Ok twice
    ∧ at_get 1 "email" once = Ok (VStr "a@x.com")
    ∧ at_get 1 "email" twice = Ok (VStr "a1@x.com")
    ∧ once ≠ twice.
Proof.
  eexists _, _. split; [vm_compute; reflexivity|].
  split; [vm_compute; reflexivity|].
  split; [vm_compute; reflexivity|].
  split; [vm_compute; reflexivity|].
  intros Heq. by vm_compute in Heq.
Qed.


Lemma fixed_after_update c f df df' :
  idempotent_step f → update_if_present c f df = Ok df' → fixed c f df'.
Proof.
  intros Hf Hupd s Hs.
  rewrite (update_if_present_get _ _ _ _ c Hupd), decide_True in Hs by done.
  apply bind_Ok in Hs as (s0 & _ & Hs). eauto.
Qed.

Lemma fixed_update_other c f c2 f2 df df' :
  c2 ≠ c → update_if_present c2 f2 df = Ok df' → fixed c f df → fixed c f df'.
Proof.
  intros Hne Hupd Hfix s Hs.
  rewrite (update_if_present_get _ _ _ _ c Hupd), decide_False in Hs by done.
  auto.
Qed.

Lemma fixed_set_other c f c2 s2 df :
  c2 ≠ c → fixed c f df → fixed c f (set_column c2 s2 df).
Proof. intros Hne Hfix s Hs. rewrite get_set_ne in Hs by done. auto. Qed.

Lemma fixed_update c f df : fixed c f df → update_if_present c f df = Ok df.
Proof. apply update_if_present_fixed. Qed.

Lemma idempotent_str_method f :
  (∀ x, f (f x) = f x) → idempotent_step (str_method f).
Proof. intros Hf s s'. by apply str_method_idem. Qed.

Lemma idempotent_strip : idempotent_step str_strip.
Proof. apply idempotent_str_method, strip_idem. Qed.

Lemma idempotent_strip_title :
  idempotent_step (λ s, s ← str_strip s; str_title s).
Proof.
  intros s s'. unfold str_strip, str_title. rewrite !str_method_compose.
  apply idempotent_str_method. intros x. apply strip_title_idem.
Qed.

Lemma idempotent_strip_lower :
  idempotent_step (λ s, s ← str_strip s; str_lower s).
Proof.
  intros s s'. unfold str_strip, str_lower. rewrite !str_method_compose.
  apply idempotent_str_method. intros x. apply strip_lower_idem.
Qed.

Lemma idempotent_pure (g : Series → Series) :
  (∀ s, g (g s) = g s) → idempotent_step (λ s, Ok (g s)).
Proof. intros Hg s s' [= <-]. by rewrite Hg. Qed.

(** *** Employees *)

Lemma transform_empleados_idempotent df out :
  transform_empleados df = Ok out → transform_empleados out = Ok out.
Proof.
  unfold transform_empleados.
  intros (df1 & H1 & (df2 & H2 & H3)%bind_Ok)%bind_Ok.
  assert (fixed "nombre" str_strip out) as F1.
  { eapply fixed_update_other; [|exact H3|]; [done|].
    eapply fixed_update_other; [|exact H2|]; [done|].
    eapply fixed_after_update; [apply idempotent_strip|exact H1]. }
  assert (fixed "cargo" (λ s, s ← str_strip s; str_title s) out) as F2.
  { eapply fixed_update_other; [|exact H3|]; [done|].
    eapply fixed_after_update; [apply idempotent_strip_title|exact H2]. }
  assert (fixed "email" (λ s, s ← str_strip s; str_lower s) out) as F3.
  { eapply fixed_after_update; [apply idempotent_strip_lower|exact H3]. }
  rewrite (fixed_update _ _ _ F1). simpl.
  rewrite (fixed_update _ _ _ F2). simpl.
  by rewrite (fixed_update _ _ _ F3).
Qed.

Section idempotence.
Context {reader : Parsers}.

(** Two successive total updates of one column. *)
Lemma update_twice c (g1 g2 : Series → Series) df :
  (if has_column c df then
     df1 ← update_column c (λ s, Ok (g1 s)) df;
     update_column c (λ s, Ok (g2 s)) df1
   else Ok df)
  = update_if_present c (λ s, Ok (g2 (g1 s))) df.
Proof.
  unfold update_if_present. destruct (has_column c df) eqn:Hc; [|done].
  apply has_column_true in Hc as [s Hs].
  unfold update_column. rewrite Hs. simpl. rewrite get_set_eq. simpl.
  by rewrite set_set.
Qed.

(** *** Materials and material usage *)

Lemma transform_uso_materiales_idempotent df out :
  transform_uso_materiales df = Ok out → transform_uso_materiales out = Ok out.
Proof.
  unfold transform_uso_materiales. rewrite !update_twice. intros H1.
  apply fixed_update. eapply fixed_after_update; [|exact H1].
  apply idempotent_pure, fillna0_to_numeric_idem.
Qed.

Lemma transform_materiales_idempotent df out :
  transform_materiales df = Ok out → transform_materiales out = Ok out.
Proof.
  unfold transform_materiales.
  intros (df1 & H1 & (df2 & H2 & H3)%bind_Ok)%bind_Ok.
  rewrite update_twice in H3.
  assert (fixed "tipo" (λ s, s ← str_strip s; str_title s) out) as F1.
  { eapply fixed_update_other; [|exact H3|]; [done|].
    eapply fixed_update_other; [|exact H2|]; [done|].
    eapply fixed_after_update; [apply idempotent_strip_title|exact H1]. }
  assert (fixed "unidad_medida" (λ s, s ← str_strip s; str_lower s) out) as F2.
  { eapply fixed_update_other; [|exact H3|]; [done|].
    eapply fixed_after_update; [apply idempotent_strip_lower|exact H2]. }
  assert (fixed "cantidad_disponible"
            (λ s, Ok (fillna0 (to_numeric s))) out) as F3.
  { eapply fixed_after_update; [|exact H3].
    apply idempotent_pure, fillna0_to_numeric_idem. }
  rewrite (fixed_update _ _ _ F1). simpl.
  rewrite (fixed_update _ _ _ F2). simpl.
  rewrite update_twice. by apply fixed_update.
Qed.

(** *** Order lines *)

Lemma transform_detalles_orden_idempotent df out :
  transform_detalles_orden df = Ok out → transform_detalles_orden out = Ok out.
Proof.
  unfold transform_detalles_orden. cbn [for_each].
  intros (df2 & (df1 & H1 & (df2' & H2 & [= ->])%bind_Ok)%bind_Ok & H3)%bind_Ok.
  assert (fixed "cantidad" (λ s, Ok (to_numeric s)) df2) as F1.
  { eapply fixed_update_other; [|exact H2|]; [done|].
    eapply fixed_after_update; [|exact H1].
    apply idempotent_pure, to_numeric_idem. }
  assert (fixed "subtotal" (λ s, Ok (to_numeric s)) df2) as F2.
  { eapply fixed_after_update; [|exact H2].
    apply idempotent_pure, to_numeric_idem. }
  destruct (has_column "cantidad" df2 && has_column "subtotal" df2) eqn:Hboth.
  - apply bind_Ok in H3 as (subtotal & Hs & (cantidad & Hc & [= <-])%bind_Ok).
    set (pu := series_div subtotal cantidad).
    assert (fixed "cantidad" (λ s, Ok (to_numeric s))
              (set_column "precio_unitario" pu df2)) as F1'
      by by apply fixed_set_other.
    assert (fixed "subtotal" (λ s, Ok (to_numeric s))
              (set_column "precio_unitario" pu df2)) as F2'
      by by apply fixed_set_other.
    rewrite (fixed_update _ _ _ F1'). simpl. rewrite (fixed_update _ _ _ F2').
    simpl. rewrite !has_set, !get_set. simpl. rewrite Hboth, Hs, Hc. simpl.
    by rewrite set_set.
  - injection H3 as <-.
    rewrite (fixed_update _ _ _ F1). simpl.
    rewrite (fixed_update _ _ _ F2). simpl. by rewrite Hboth.
Qed.

(** *** Products *)

Lemma keep_where_map {A B} (f : A → B) mask (xs : list A) :
  keep_where mask (map f xs) = map f (keep_where mask xs).
Proof.
  revert xs. induction mask as [|b mask IH]; intros [|x xs]; simpl; try done.
  destruct b; simpl; by rewrite IH.
Qed.

Lemma get_filter_rows c mask df :
  get_column c (filter_rows mask df)
  = get_column c df ≫= λ s, Ok (mkSeries (dtype_of s) (keep_where mask (values s))).
Proof.
  unfold filter_rows. induction df as [|[n s] df IH]; simpl; [done|].
  case_decide; [done | apply IH].
Qed.

Lemma has_filter_rows c mask df :
  has_column c (filter_rows mask df) = has_column c df.
Proof.
  rewrite !has_column_get, get_filter_rows. by destruct (get_column c df).
Qed.


Lemma invalid_prices_map precio :
  zip_with orb (series_le_zero precio) (series_isna precio)
  = map invalid_price (values precio).
Proof.
  unfold series_le_zero, series_isna.
  induction (values precio) as [|c vs IH]; simpl; [done|]. by rewrite IH.
Qed.

Lemma count_true_0 mask : count_true mask = 0 ↔ Forall (λ b, b = false) mask.
Proof.
  unfold count_true. induction mask as [|b mask IH]; simpl.
  - split; [constructor | done].
  - rewrite filter_cons. destruct b; simpl.
    + split; [done | by inversion 1].
    + rewrite IH. split; [by constructor | by inversion 1].
Qed.

Lemma keep_valid_prices vs :
  Forall (λ b, b = false)
    (map invalid_price (keep_where (map negb (map invalid_price vs)) vs)).
Proof.
  induction vs as [|c vs IH]; simpl; [constructor|].
  destruct (invalid_price c) eqn:Hc; simpl; [done|]. constructor; [done|apply IH].
Qed.

Lemma keep_where_all_true {A} mask (xs : list A) :
  length mask = length xs → Forall (λ b, b = true) mask → keep_where mask xs = xs.
Proof.
  revert xs. induction mask as [|b mask IH]; intros [|x xs]; simpl; try done.
  intros [= Hlen] [-> Hmask]%Forall_cons. by rewrite IH.
Qed.

Lemma transform_productos_idempotent df out :
  transform_productos df = Ok out → transform_productos out = Ok out.
Proof.
  unfold transform_productos.
  intros (df1 & H1 & (df2 & H2 & H3)%bind_Ok)%bind_Ok.
  assert (fixed "nombre_producto" str_strip df2) as F1.
  { eapply fixed_update_other; [|exact H2|]; [done|].
    eapply fixed_after_update; [apply idempotent_strip|exact H1]. }
  assert (fixed "precio" (λ s, Ok (to_numeric s)) df2) as F2.
  { eapply fixed_after_update; [|exact H2].
    apply idempotent_pure, to_numeric_idem. }
  destruct (has_column "precio" df2) eqn:Hp.
  2:{ injection H3 as <-. rewrite (fixed_update _ _ _ F1). simpl.
      rewrite (fixed_update _ _ _ F2). simpl. by rewrite Hp. }
  apply bind_Ok in H3 as (precio & Hprecio & H3).
  rewrite invalid_prices_map in H3.
  case_bool_decide as Hcount.
  2:{ injection H3 as <-. rewrite (fixed_update _ _ _ F1). simpl.
      rewrite (fixed_update _ _ _ F2). simpl. rewrite Hp, Hprecio. simpl.
      rewrite invalid_prices_map. by rewrite bool_decide_eq_false_2. }
  injection H3 as <-.
  set (mask := map negb (map invalid_price (values precio))).
  assert (fixed "nombre_producto" str_strip (filter_rows mask df2)) as F1'.
  { intros s. rewrite get_filter_rows.
    intros (s0 & Hs0 & [= <-])%bind_Ok. specialize (F1 _ Hs0).
    apply str_method_Ok in F1 as [Hd Hs0']. apply str_method_Ok. simpl.
    split; [done|]. apply (f_equal values) in Hs0'. simpl in Hs0'.
    f_equal; [done|]. by rewrite <- keep_where_map, <- Hs0'. }
  assert (fixed "precio" (λ s, Ok (to_numeric s)) (filter_rows mask df2)) as F2'.
  { intros s. rewrite get_filter_rows.
    intros (s0 & Hs0 & [= <-])%bind_Ok. specialize (F2 _ Hs0).
    injection F2 as F2. unfold to_numeric in *. simpl.
    assert (dtype_of s0 = Numeric) as Hd by by rewrite <- F2.
    apply (f_equal values) in F2. simpl in F2.
    do 2 f_equal; [done|]. by rewrite <- keep_where_map, F2. }
  rewrite (fixed_update _ _ _ F1'). simpl.
  rewrite (fixed_update _ _ _ F2'). simpl.
  rewrite has_filter_rows, Hp, get_filter_rows, Hprecio. simpl.
  rewrite invalid_prices_map. simpl.
  rewrite bool_decide_eq_false_2; [done|].
  assert (count_true (map invalid_price (keep_where mask (values precio))) = 0)
    as ->; [|lia].
  apply count_true_0, keep_valid_prices.
Qed.

(** *** Production orders *)


Lemma date_column_name c df :
  c ∈ date_columns df → c ≠ "estado" ∧ c ≠ "duracion_dias".
Proof.
  intros [Hc _]%list_elem_of_filter. split; intros ->; by vm_compute in Hc.
Qed.

Lemma date_columns_set c s df :
  c ∉ date_columns (set_column c s df) →
  date_columns (set_column c s df) = date_columns df.
Proof.
  unfold date_columns. destruct (has_column c df) eqn:Hc.
  - by rewrite columns_set_present.
  - rewrite columns_set_absent, filter_app by done. intros Hnot.
    rewrite filter_cons, filter_nil. case_decide as Hd; [|by rewrite app_nil_r].
    exfalso. apply Hnot. rewrite elem_of_app. right.
    apply list_elem_of_filter. split; [done|left].
Qed.

Lemma transform_ordenes_produccion_idempotent df out :
  transform_ordenes_produccion df = Ok out →
  transform_ordenes_produccion out = Ok out.
Proof.
  unfold transform_ordenes_produccion. fold (date_columns df) (date_columns out).
  intros (df1 & H1 & (df2 & H2 & H3)%bind_Ok)%bind_Ok.
  destruct (for_each_update_pure to_datetime _ df to_datetime_idem
              (date_columns_present df)) as (df1' & Hloop & Hcols1 & Hget1).
  fold (date_columns df) in Hloop, Hget1.
  rewrite H1 in Hloop. injection Hloop as <-.
  pose proof (update_if_present_columns _ _ _ _ H2) as Hcols2.
  assert (fixed "estado" (λ s, s ← str_strip s; str_title s) df2) as Fest.
  { eapply fixed_after_update; [apply idempotent_strip_title|exact H2]. }
  assert (date_columns df2 = date_columns df) as Hdates2.
  { unfold date_columns. by rewrite Hcols2, Hcols1. }
  assert (∀ c, c ∈ date_columns df →
               ∃ s, get_column c df2 = Ok s ∧ to_datetime s = s) as Hconv.
  { intros c Hc. destruct (date_column_name _ _ Hc) as [Hne _].
    rewrite (update_if_present_get _ _ _ _ c H2), decide_False by done.
    rewrite Hget1, decide_True by done.
    assert (has_column c df = true) as [s0 Hs0]%has_column_true.
    { apply list_elem_of_filter in Hc as [_ Hc]. by apply bool_decide_eq_true. }
    exists (to_datetime s0). rewrite Hs0. split; [done|apply to_datetime_idem]. }
  destruct (has_column "fecha_orden" df2 && has_column "fecha_completado" df2)
    eqn:Hboth.
  - apply bind_Ok in H3 as (fc & Hfc & (fo & Hfo & [= <-])%bind_Ok).
    set (dur := series_days_between fc fo).
    assert (date_columns (set_column "duracion_dias" dur df2) = date_columns df)
      as ->.
    { rewrite date_columns_set; [done|].
      intros Hin. by destruct (date_column_name _ _ Hin). }
    rewrite for_each_fixed.
    2:{ intros c Hc. destruct (Hconv c Hc) as (s & Hs & Hfix).
        destruct (date_column_name _ _ Hc) as [_ Hne].
        eapply update_column_fixed; [by rewrite get_set_ne|by rewrite Hfix]. }
    simpl. rewrite (fixed_update "estado") by by apply fixed_set_other.
    simpl. rewrite !has_set, !get_set. simpl. rewrite Hboth, Hfc, Hfo. simpl.
    by rewrite set_set.
  - injection H3 as <-. rewrite Hdates2, for_each_fixed.
    2:{ intros c Hc. destruct (Hconv c Hc) as (s & Hs & Hfix).
        eapply update_column_fixed; [done|by rewrite Hfix]. }
    simpl. rewrite (fixed_update _ _ _ Fest). simpl. by rewrite Hboth.
Qed.

End idempotence.

(** *** Customers *)


Lemma rename_clientes_name n :
  let n' := default n (assoc n clientes_renames) in
  default n' (assoc n' clientes_renames) = n'.
Proof.
  simpl. repeat (case_decide; subst; simpl; try done).
Qed.

Lemma rename_columns m df :
  columns (rename m df) = map (λ n, default n (assoc n m)) (columns df).
Proof. unfold columns, rename. induction df as [|[n s] df IH]; simpl; by f_equal. Qed.

Lemma rename_fixed m df :
  Forall (λ n, default n (assoc n m) = n) (columns df) → rename m df = df.
Proof.
  unfold columns, rename. induction df as [|[n s] df IH]; simpl; [done|].
  intros [Hn Hdf]%Forall_cons. simpl in Hn. rewrite Hn. f_equal. by apply IH.
Qed.

Lemma rename_clientes_idem df out :
  columns out = columns (rename clientes_renames df) →
  rename clientes_renames out = out.
Proof.
  intros Hcols. apply rename_fixed. rewrite Hcols, rename_columns.
  apply Forall_map, Forall_forall. intros n _. apply rename_clientes_name.
Qed.

Lemma object_columns_set c s s' df :
  get_column c df = Ok s → (dtype_of s' = Object ↔ dtype_of s = Object) →
  object_columns (set_column c s' df) = object_columns df.
Proof.
  unfold object_columns. intros Hs Hd.
  induction df as [|[n s0] df IH]; [done|].
  cbn [get_column set_column] in *.
  destruct (decide (n = c)) as [->|Hne].
  - injection Hs as ->. rewrite !filter_cons. simpl.
    destruct (decide (dtype_of s' = Object)), (decide (dtype_of s = Object));
      naive_solver.
  - rewrite !filter_cons.
    destruct (decide (dtype_of (n, s0).2 = Object));
      [rewrite !fmap_cons; f_equal|]; by apply IH.
Qed.

(** The last loop of [transform_clientes]: every object column is trimmed. *)
Lemma strip_loop cols d out :
  for_each (λ d col, update_column col str_strip d) cols d = Ok out →
  columns out = columns d
  ∧ object_columns out = object_columns d
  ∧ (∀ c s, get_column c d = Ok s →
            ∃ s', get_column c out = Ok s' ∧ (s' = s ∨ str_strip s = Ok s'))
  ∧ (∀ c, c ∈ cols → ∃ s, get_column c out = Ok s ∧ str_strip s = Ok s).
Proof.
  revert d. induction cols as [|c0 cols IH]; intros d; simpl.
  { intros [= <-]. repeat split; [eauto | by intros ? ?%elem_of_nil]. }
  intros (d' & (s0 & s0' & Hs0 & Hstrip & ->)%update_column_Ok & Hrest)%bind_Ok.
  destruct (IH _ Hrest) as (Hcols & Hobj & Hget & Hdone). clear IH.
  pose proof (idempotent_strip _ _ Hstrip) as Hfix.
  apply str_method_Ok in Hstrip as Hd. destruct Hd as [Hd Hs0'].
  assert (∃ s', get_column c0 out = Ok s' ∧ s' = s0') as (s1 & Hs1 & ->).
  { destruct (Hget c0 s0') as (s1 & Hs1 & [->|Hs1']); [apply get_set_eq|eauto|].
    exists s1. split; [done|]. congruence. }
  split; [|split; [|split]].
  - rewrite Hcols. apply columns_set_present. apply has_column_true. eauto.
  - rewrite Hobj. eapply object_columns_set; [done|]. by rewrite Hs0'.
  - intros c s Hs. destruct (decide (c = c0)) as [->|Hne].
    + exists s0'. split; [done|]. right. congruence.
    + apply Hget. by rewrite get_set_ne.
  - intros c [->|Hc]%elem_of_cons; [eauto | by apply Hdone].
Qed.

(** The loop over the duplicated rows touches the email column only. *)
Lemma suffix_duplicate_other d idx d' :
  suffix_duplicate d idx = Ok d' →
  columns d' = columns d
  ∧ ∀ c, c ≠ "email" → get_column c d' = get_column c d.
Proof.
  unfold suffix_duplicate, at_get, at_set.
  intros (v & (s & Hs & Hv)%bind_Ok & Hbody)%bind_Ok.
  destruct v as [| |e|]; try done.
  destruct (Py.contains "@" e); [|by injection Hbody as <-].
  destruct (Py.split "@" e) as [|name [|domain [|]]]; try done.
  rewrite Hs in Hbody. simpl in Hbody. injection Hbody as <-. split.
  - apply columns_set_present. apply has_column_true. eauto.
  - intros c Hne. by rewrite get_set_ne.
Qed.

Lemma suffix_loop_other idxs d d' :
  for_each suffix_duplicate idxs d = Ok d' →
  columns d' = columns d
  ∧ ∀ c, c ≠ "email" → get_column c d' = get_column c d.
Proof.
  intros Hloop.
  apply (for_each_invariant
           (λ x, columns x = columns d
                 ∧ ∀ c, c ≠ "email" → get_column c x = get_column c d)
           _ _ _ _ ) in Hloop; [done| |done].
  intros x idx x' _ [Hcols Hget] [Hcols' Hget']%suffix_duplicate_other.
  split; [congruence|]. intros c Hc. rewrite Hget', Hget; done.
Qed.

Lemma digits_only_fixed s :
  digits_only s → str_strip s = Ok s ∧ str_remove_nondigits s = Ok s.
Proof.
  intros [Hd Hcells]. destruct s as [d vs]. simpl in *. subst d.
  split; apply str_method_Ok; (split; [done|]); f_equal; simpl.
  - induction Hcells as [|c vs [->|(x & -> & Hx)] _ IH]; simpl; [done|by f_equal|].
    rewrite strip_id by by apply all_digits_trimmed. by f_equal.
  - induction Hcells as [|c vs [->|(x & -> & Hx)] _ IH]; simpl; [done|by f_equal|].
    rewrite remove_nondigits_id by done. by f_equal.
Qed.

Lemma digits_only_cleaned s s1 s2 :
  str_strip s = Ok s1 → str_remove_nondigits s1 = Ok s2 → digits_only s2.
Proof.
  intros [_ ->]%str_method_Ok [_ ->]%str_method_Ok. split; [done|]. simpl.
  apply Forall_map, Forall_map, Forall_forall. intros [| |x|] _; simpl; eauto.
  right. eexists. split; [done|]. apply remove_nondigits_all_digits.
Qed.

Lemma occurrences_notin v vs : v ∉ vs → occurrences v vs = 0.
Proof.
  unfold occurrences. induction vs as [|x vs IH]; [done|].
  intros [Hne Hnotin]%not_elem_of_cons. rewrite filter_cons.
  rewrite decide_False by done. by apply IH.
Qed.

Lemma occurrences_cons v x vs :
  occurrences v (x :: vs) = (if decide (x = v) then 1 else 0) + occurrences v vs.
Proof. unfold occurrences. rewrite filter_cons. by case_decide. Qed.

Lemma occurrences_NoDup v vs : NoDup vs → occurrences v vs ≤ 1.
Proof.
  induction 1 as [|x vs Hx Hnd IH]; [unfold occurrences; simpl; lia|].
  rewrite occurrences_cons. case_decide; [subst|lia].
  rewrite occurrences_notin by done. lia.
Qed.

Lemma duplicated_NoDup vs : NoDup vs → count_true (duplicated vs) = 0.
Proof.
  intros Hnd. apply count_true_0. unfold duplicated.
  apply Forall_map, Forall_forall. intros v _.
  apply bool_decide_eq_false. pose proof (occurrences_NoDup v vs Hnd). lia.
Qed.

(** Cleaning a cleaned customer table whose emails are pairwise distinct
    returns it unchanged. *)
Lemma transform_clientes_idempotent df out email :
  transform_clientes df = Ok out →
  get_column "email" out = Ok email →
  NoDup (values email) →
  transform_clientes out = Ok out.
Proof.
  unfold transform_clientes. fold clientes_renames.
  set (d0 := rename clientes_renames df).
  intros (d1 & H1 & (email0 & Hemail0 & (d3 & H3 & H4)%bind_Ok)%bind_Ok)%bind_Ok
         Hemail Hnd.
  apply strip_loop in H4 as Hstrip.
  destruct Hstrip as (Hcols4 & Hobj4 & Hget4 & Hdone4).
  assert (columns d3 = columns d1
          ∧ ∀ c, c ≠ "email" → get_column c d3 = get_column c d1)
    as [Hcols3 Hget3].
  { case_bool_decide; [by apply suffix_loop_other in H3|by injection H3 as <-]. }
  assert (columns d1 = columns d0
          ∧ (has_column "telefono" d0 = true →
             ∃ t, get_column "telefono" d1 = Ok t ∧ digits_only t))
    as [Hcols1 Htel1].
  { destruct (has_column "telefono" d0) eqn:Htel.
    - apply bind_Ok in H1 as (d' & (t0 & t1 & Ht0 & Ht1 & ->)%update_column_Ok
                                 & (t1' & t2 & Ht1' & Ht2 & ->)%update_column_Ok).
      rewrite get_set_eq in Ht1'. injection Ht1' as <-. split.
      + rewrite !columns_set_present; rewrite ?has_set, ?Htel; by rewrite ?orb_true_r.
      + intros _. exists t2. rewrite get_set_eq. split; [done|].
        by eapply digits_only_cleaned.
    - injection H1 as <-. split; [done|]. by intros ?. }
  assert (columns out = columns d0) as Hcols
    by by rewrite Hcols4, Hcols3, Hcols1.
  rewrite (rename_clientes_idem df out) by done.
  assert (has_column "telefono" out = has_column "telefono" d0) as ->
    by by apply has_column_columns.
  assert ((if has_column "telefono" d0
           then df_clean ← update_column "telefono" str_strip out;
                update_column "telefono" str_remove_nondigits df_clean
           else Ok out) = Ok out) as ->.
  { destruct (has_column "telefono" d0); [|done].
    destruct Htel1 as (t & Ht & Hdig); [done|].
    apply digits_only_fixed in Hdig as Hfix. destruct Hfix as [Hfix1 Hfix2].
    assert (get_column "telefono" out = Ok t) as Htout.
    { rewrite <- Hget3 in Ht by done.
      destruct (Hget4 _ _ Ht) as (t' & Ht' & [->|Hstr]); [done|]. congruence. }
    rewrite (update_column_fixed _ _ _ _ Htout Hfix1). simpl.
    by rewrite (update_column_fixed _ _ _ _ Htout Hfix2). }
  simpl. rewrite Hemail. simpl.
  rewrite (duplicated_NoDup _ Hnd). rewrite bool_decide_eq_false_2 by lia.
  simpl. rewrite Hobj4. apply for_each_fixed.
  intros c Hc. rewrite <- Hobj4 in Hc.
  assert (c ∈ object_columns d3) as Hc3 by by rewrite <- Hobj4.
  destruct (Hdone4 c Hc3) as (s & Hs & Hfix).
  by eapply update_column_fixed.
Qed.

(** The cleaning of production orders, products, materials, employees,
    order lines and material usage is idempotent in the embedding:
    whenever cleaning a table returns, cleaning its output returns that
    output unchanged.  The cleaning of customers is idempotent on the tables
    whose cleaned emails are pairwise distinct. *)
Theorem cleaning_idempotent {reader : Parsers} :
  (∀ df out, transform_ordenes_produccion df = Ok out →
             transform_ordenes_produccion out = Ok out)
  ∧ (∀ df out, transform_productos df = Ok out →
               transform_productos out = Ok out)
  ∧ (∀ df out, transform_materiales df = Ok out →
               transform_materiales out = Ok out)
  ∧ (∀ df out, transform_empleados df = Ok out →
               transform_empleados out = Ok out)
  ∧ (∀ df out, transform_detalles_orden df = Ok out →
               transform_detalles_orden out = Ok out)
  ∧ (∀ df out, transform_uso_materiales df = Ok out →
               transform_uso_materiales out = Ok out)
  ∧ (∀ df out email,
       transform_clientes df = Ok out →
       get_column "email" out = Ok email →
       NoDup (values email) →
       transform_clientes out = Ok out).
Proof.
  repeat split.
  - apply transform_ordenes_produccion_idempotent.
  - apply transform_productos_idempotent.
  - apply transform_materiales_idempotent.
  - apply transform_empleados_idempotent.
  - apply transform_detalles_orden_idempotent.
  - apply transform_uso_materiales_idempotent.
  - apply transform_clientes_idempotent.
Qed.

(** The scenario tables are cleaned, and cleaning them again changes
    nothing. *)
Example cleaning_twice_scenarios :
  (∃ out,
     transform_ordenes_produccion (reader:=Reader.iso_reader)
       production_order_scenario = Ok out
     ∧ transform_ordenes_produccion (reader:=Reader.iso_reader) out = Ok out)
  ∧ (∃ out,
       transform_detalles_orden (reader:=Reader.iso_reader)
         order_line_quantity_zero = Ok out
       ∧ transform_detalles_orden (reader:=Reader.iso_reader) out = Ok out).
Proof.
  split; (eexists; split; [vm_compute; reflexivity|]).
  - apply (transform_ordenes_produccion_idempotent production_order_scenario).
    vm_compute. reflexivity.
  - apply (transform_detalles_orden_idempotent order_line_quantity_zero).
    vm_compute. reflexivity.
Qed.

(** ** Unique customer emails (C3) *)


(** *** Strings around the [@] *)

Lemma app_cons_string x (a b : string) : String x a +:+ b = String x (a +:+ b).
Proof. reflexivity. Qed.

Lemma app_nil_string (b : string) : "" +:+ b = b.
Proof. reflexivity. Qed.

Ltac simpl_app := rewrite ?app_cons_string, ?app_nil_string in *; simpl in *.

Lemma app_assoc_string (a b c : string) : (a +:+ b) +:+ c = a +:+ (b +:+ c).
Proof. induction a as [|x a IH]; simpl_app; [done|]. by f_equal. Qed.

Lemma contains_app ch a b :
  Py.contains ch (a +:+ b) = Py.contains ch a || Py.contains ch b.
Proof.
  induction a as [|x a IH]; simpl_app; [done|]. by rewrite IH, orb_assoc.
Qed.

Lemma contains_digits ch s :
  Py.isdigit ch = false → all_digits s = true → Py.contains ch s = false.
Proof.
  intros Hch. induction s as [|x s IH]; simpl; [done|].
  intros [Hx Hs]%andb_prop. rewrite IH by done.
  rewrite bool_decide_eq_false_2; [done|]. intros ->. congruence.
Qed.

(** A string is cut at its first [@] in one way only. *)
Lemma cut_at_unique n1 d1 n2 d2 :
  Py.contains "@" n1 = false → Py.contains "@" n2 = false →
  n1 +:+ "@" +:+ d1 = n2 +:+ "@" +:+ d2 → n1 = n2 ∧ d1 = d2.
Proof.
  revert n2. induction n1 as [|x n1 IH]; intros [|y n2]; simpl_app.
  - by intros _ _ [= ->].
  - intros _ [Hy _]%orb_false_elim [= <- _]. by rewrite bool_decide_eq_true_2 in Hy.
  - intros [Hx _]%orb_false_elim _ [= -> _]. by rewrite bool_decide_eq_true_2 in Hx.
  - intros [_ H1]%orb_false_elim [_ H2]%orb_false_elim [= -> Heq].
    destruct (IH _ H1 H2 Heq) as [-> ->]. done.
Qed.

Lemma split_at_single name domain :
  Py.contains "@" name = false → Py.contains "@" domain = false →
  Py.split "@" (name +:+ "@" +:+ domain) = [name; domain]
  ∧ Py.contains "@" (name +:+ "@" +:+ domain) = true.
Proof.
  intros Hn Hd.
  assert (Py.split "@" domain = [domain]) as Hsplit_d.
  { clear Hn. induction domain as [|x d IH]; simpl in *; [done|].
    apply orb_false_elim in Hd as [Hx Hd]. rewrite Hx, IH; done. }
  split.
  - induction name as [|x n IH]; simpl_app.
    + by rewrite Hsplit_d.
    + apply orb_false_elim in Hn as [Hx Hn]. rewrite Hx, IH; done.
  - rewrite contains_app. simpl. by rewrite orb_true_r.
Qed.

Lemma rstrip_digits_all s : all_digits s = true → rstrip_digits s = "".
Proof.
  induction s as [|x s IH]; simpl; [done|].
  intros [Hx Hs]%andb_prop. by rewrite IH, Hx.
Qed.

Lemma rstrip_digits_app a x :
  ends_with_digit a = false → all_digits x = true → rstrip_digits (a +:+ x) = a.
Proof.
  intros Ha Hx. induction a as [|c a IH]; simpl_app.
  - by apply rstrip_digits_all.
  - destruct a as [|c' a'].
    + simpl_app. rewrite rstrip_digits_all by done.
      unfold ends_with_digit in Ha. simpl in Ha. by rewrite Ha.
    + rewrite IH; [done|]. exact Ha.
Qed.

(** Names that do not end in a digit, followed by digits: the name and the
    digits are determined. *)
Lemma digits_suffix_unique a x b y :
  ends_with_digit a = false → ends_with_digit b = false →
  all_digits x = true → all_digits y = true →
  a +:+ x = b +:+ y → a = b ∧ x = y.
Proof.
  intros Ha Hb Hx Hy Heq.
  assert (a = b) as <-.
  { rewrite <- (rstrip_digits_app a x), <- (rstrip_digits_app b y), Heq; done. }
  split; [done|]. by apply (inj (String.app a)).
Qed.

Lemma ends_with_digit_app a x :
  x ≠ "" → all_digits x = true → ends_with_digit (a +:+ x) = true.
Proof.
  intros Hne Hx. unfold ends_with_digit.
  assert (∃ c, last_char (a +:+ x) = Some c ∧ Py.isdigit c = true)
    as (c & -> & Hc); [|done].
  induction a as [|c0 a IH]; simpl_app.
  - induction x as [|c x IHx]; [done|].
    simpl in Hx. apply andb_prop in Hx as [Hc Hx].
    destruct x as [|c' x']; [by exists c|]. apply IHx; [done|done].
  - destruct IH as (c & Hlast & Hc). exists c. split; [|done].
    destruct (a +:+ x) eqn:Hax; [done|]. exact Hlast.
Qed.

(** *** The decimal form of a row index *)

Lemma pretty_N_char_digit x : Py.isdigit (pretty_N_char x) = true.
Proof. unfold pretty_N_char. by repeat case_match. Qed.

Lemma pretty_N_go_digits x s :
  all_digits s = true → all_digits (pretty_N_go x s) = true.
Proof.
  revert s. induction (N.lt_wf_0 x) as [x _ IH]; intros s Hs.
  destruct (decide (0 < x)%N) as [Hx|Hx].
  - rewrite pretty_N_go_step by done. apply IH; [by apply N.div_lt|].
    simpl. by rewrite pretty_N_char_digit.
  - assert (x = 0%N) as -> by lia. by rewrite pretty_N_go_0.
Qed.

Lemma pretty_N_go_nonempty x s : s ≠ "" → pretty_N_go x s ≠ "".
Proof.
  revert s. induction (N.lt_wf_0 x) as [x _ IH]; intros s Hs.
  destruct (decide (0 < x)%N) as [Hx|Hx].
  - rewrite pretty_N_go_step by done. apply IH; [by apply N.div_lt|done].
  - assert (x = 0%N) as -> by lia. by rewrite pretty_N_go_0.
Qed.

Lemma str_of_nat_digits n :
  all_digits (Py.str_of_nat n) = true ∧ Py.str_of_nat n ≠ "".
Proof.
  unfold Py.str_of_nat, pretty, pretty_nat, pretty, pretty_N.
  case_decide; [done|]. split; [by apply pretty_N_go_digits|].
  assert (0 < N.of_nat n)%N as Hpos by lia.
  rewrite pretty_N_go_step by done. by apply pretty_N_go_nonempty.
Qed.

Lemma str_of_nat_inj i j : Py.str_of_nat i = Py.str_of_nat j → i = j.
Proof. apply (inj pretty). Qed.

(** *** Rows with a duplicated value *)

Lemma positions_from_spec k mask i :
  i ∈ positions_from k mask ↔ ∃ j, i = k + j ∧ mask !! j = Some true.
Proof.
  revert k. induction mask as [|b mask IH]; intros k; simpl.
  { split; [by intros ?%elem_of_nil | by intros (j & _ & ?)]. }
  destruct b.
  - rewrite elem_of_cons, IH. split.
    + intros [->|(j & -> & Hj)]; [exists 0|exists (S j)]; split; (done || lia).
    + intros ([|j] & -> & Hj); [left; lia|right; exists j; split; [lia|done]].
  - rewrite IH. split.
    + intros (j & -> & Hj). exists (S j). split; [lia|done].
    + intros ([|j] & -> & Hj); [done|]. exists j. split; [lia|done].
Qed.

Lemma true_positions_spec mask i : i ∈ true_positions mask ↔ mask !! i = Some true.
Proof.
  unfold true_positions. rewrite positions_from_spec. split.
  - by intros (j & -> & Hj).
  - intros Hi. by exists i.
Qed.

Lemma positions_from_NoDup k mask : NoDup (positions_from k mask).
Proof.
  revert k. induction mask as [|b mask IH]; intros k; simpl; [constructor|].
  destruct b; [|apply IH]. constructor; [|apply IH].
  rewrite positions_from_spec. intros (j & Hj & _). lia.
Qed.

Lemma true_positions_NoDup mask : NoDup (true_positions mask).
Proof. apply positions_from_NoDup. Qed.

Lemma occurrences_pos v vs : v ∈ vs → 0 < occurrences v vs.
Proof.
  induction 1 as [v vs|v y vs _ IH]; rewrite occurrences_cons;
    [rewrite decide_True by done|]; lia.
Qed.

Lemma occurrences_two v vs i j :
  i ≠ j → vs !! i = Some v → vs !! j = Some v → 1 < occurrences v vs.
Proof.
  revert i j. induction vs as [|x vs IH]; intros i j Hne Hi Hj; [done|].
  rewrite occurrences_cons.
  assert (∀ k, vs !! k = Some v → 0 < occurrences v vs) as Hone.
  { intros k Hk. eapply occurrences_pos, list_elem_of_lookup_2, Hk. }
  destruct i as [|i], j as [|j]; simpl in *; try done.
  - injection Hi as ->. rewrite decide_True by done.
    specialize (Hone _ Hj). lia.
  - injection Hj as ->. rewrite decide_True by done.
    specialize (Hone _ Hi). lia.
  - assert (1 < occurrences v vs) by (apply (IH i j); [lia|done..]).
    case_decide; lia.
Qed.

Lemma duplicated_lookup vs i v :
  vs !! i = Some v →
  duplicated vs !! i = Some (bool_decide (1 < occurrences v vs)).
Proof.
  intros Hi. unfold duplicated.
  change (map ?f vs) with (f <$> vs). by rewrite list_lookup_fmap, Hi.
Qed.

(** Two rows with the same value are both marked. *)
Lemma duplicated_pair vs i j v :
  i ≠ j → vs !! i = Some v → vs !! j = Some v →
  i ∈ true_positions (duplicated vs) ∧ j ∈ true_positions (duplicated vs).
Proof.
  intros Hne Hi Hj.
  pose proof (occurrences_two _ _ _ _ Hne Hi Hj) as Hocc.
  rewrite !true_positions_spec, (duplicated_lookup _ _ _ Hi),
    (duplicated_lookup _ _ _ Hj).
  by rewrite bool_decide_eq_true_2.
Qed.

(** Of the marked rows, only the first is outside the tail. *)
Lemma outside_tail {A} (l : list A) x y :
  x ∈ l → y ∈ l → x ∉ tail l → y ∉ tail l → x = y.
Proof.
  destruct l as [|h t]; simpl; [by intros ?%elem_of_nil|].
  intros [->|Hx]%elem_of_cons [->|Hy]%elem_of_cons Hxt Hyt; done.
Qed.

(** *** The loop over the duplicated rows *)

Lemma suffixed_cell_notin idxs i c : i ∉ idxs → suffixed_cell idxs i c = c.
Proof. intros Hi. unfold suffixed_cell. by rewrite decide_False. Qed.

Lemma suffixed_cell_other idx idxs i c :
  i ≠ idx → suffixed_cell (idx :: idxs) i c = suffixed_cell idxs i c.
Proof.
  intros Hne. unfold suffixed_cell.
  destruct (decide (i ∈ idxs)) as [Hi|Hi].
  - by rewrite decide_True by by right.
  - rewrite decide_False; [done|]. by intros [?|?]%elem_of_cons.
Qed.

Lemma suffix_loop_email idxs d d' s :
  NoDup idxs →
  get_column "email" d = Ok s →
  for_each suffix_duplicate idxs d = Ok d' →
  ∃ s', get_column "email" d' = Ok s'
        ∧ values s' = imap (suffixed_cell idxs) (values s).
Proof.
  revert d s. induction idxs as [|idx idxs IH]; intros d s Hnd Hs; simpl.
  { intros [= <-]. exists s. split; [done|]. apply list_eq. intros i.
    rewrite list_lookup_imap. by destruct (values s !! i). }
  apply NoDup_cons in Hnd as [Hidx Hnd].
  intros (d1 & Hbody & Hrest)%bind_Ok.
  unfold suffix_duplicate, at_get, at_set in Hbody. rewrite Hs in Hbody.
  simpl in Hbody. destruct (values s !! idx) as [v|] eqn:Hv; [|done].
  simpl in Hbody. destruct v as [| |e|]; try done.
  destruct (Py.contains "@" e) eqn:Hat.
  - destruct (Py.split "@" e) as [|name [|domain [|]]] eqn:Hsplit; try done.
    injection Hbody as <-.
    edestruct (IH _ _ Hnd (get_set_eq _ _ _) Hrest) as (s' & Hs' & Hvals).
    exists s'. split; [done|]. rewrite Hvals. simpl. apply list_eq. intros i.
    rewrite !list_lookup_imap. destruct (decide (i = idx)) as [->|Hne].
    + rewrite list_lookup_insert_eq by by eapply lookup_lt_Some.
      rewrite Hv. simpl. f_equal. rewrite suffixed_cell_notin by done.
      unfold suffixed_cell. rewrite decide_True by left. by rewrite Hat, Hsplit.
    + rewrite list_lookup_insert_ne by done.
      destruct (values s !! i); simpl; [|done]. by rewrite suffixed_cell_other.
  - injection Hbody as <-.
    destruct (IH _ _ Hnd Hs Hrest) as (s' & Hs' & Hvals).
    exists s'. split; [done|]. rewrite Hvals. apply list_eq. intros i.
    rewrite !list_lookup_imap. destruct (decide (i = idx)) as [->|Hne].
    + rewrite Hv. simpl. f_equal. rewrite suffixed_cell_notin by done.
      unfold suffixed_cell. rewrite decide_True by left. by rewrite Hat.
    + destruct (values s !! i); simpl; [|done]. by rewrite suffixed_cell_other.
Qed.

Lemma true_positions_none mask : count_true mask = 0 → true_positions mask = [].
Proof.
  intros Hmask%count_true_0. unfold true_positions. generalize 0.
  induction Hmask as [|b mask -> _ IH]; intros k; simpl; [done|apply IH].
Qed.

(** *** Plain emails *)

Lemma head_ok_app a b : a ≠ "" → head_ok (a +:+ b) = head_ok a.
Proof. by destruct a. Qed.

Lemma last_ok_app a b : b ≠ "" → last_ok (a +:+ b) = last_ok b.
Proof.
  intros Hb. induction a as [|c a IH]; simpl_app; [done|].
  destruct (a +:+ b) eqn:Hab; [|done].
  destruct a; simpl_app; [done|discriminate].
Qed.

Lemma trimmed_suffixed name domain i :
  trimmed (name +:+ "@" +:+ domain) = true →
  trimmed (name +:+ Py.str_of_nat i +:+ "@" +:+ domain) = true.
Proof.
  unfold trimmed. intros [Hh Hl]%andb_prop. apply andb_true_intro.
  destruct (str_of_nat_digits i) as [Hdig Hne]. split.
  - destruct name as [|c name]; [|done]. simpl_app.
    destruct (Py.str_of_nat i) as [|c ds]; [done|]. simpl_app.
    apply andb_prop in Hdig as [Hc _]. by rewrite isdigit_not_isspace.
  - rewrite <- (app_assoc_string name (Py.str_of_nat i) ("@" +:+ domain)).
    rewrite last_ok_app by done. by rewrite last_ok_app in Hl.
Qed.

Lemma plain_email_suffixed idxs i c :
  plain_email c →
  ∃ name domain,
    c = VStr (name +:+ "@" +:+ domain)
    ∧ Py.contains "@" name = false
    ∧ ends_with_digit name = false
    ∧ suffixed_cell idxs i c
      = (if decide (i ∈ idxs)
         then VStr (name +:+ Py.str_of_nat i +:+ "@" +:+ domain) else c)
    ∧ cell_str Py.strip (suffixed_cell idxs i c) = suffixed_cell idxs i c.
Proof.
  intros (name & domain & -> & Hn & Hd & Htrim & Hdigit).
  exists name, domain. repeat split; try done.
  - unfold suffixed_cell. case_decide; [|done].
    destruct (split_at_single name domain Hn Hd) as [-> ->]. done.
  - unfold suffixed_cell. case_decide; simpl.
    + destruct (split_at_single name domain Hn Hd) as [-> ->]. simpl.
      by rewrite strip_id by by apply trimmed_suffixed.
    + by rewrite strip_id.
Qed.

(** After the loop no two rows share an email. *)
Lemma suffixed_emails_NoDup vs :
  Forall plain_email vs →
  NoDup (imap (suffixed_cell (tail (true_positions (duplicated vs)))) vs).
Proof.
  intros Hplain. set (idxs := tail (true_positions (duplicated vs))).
  apply NoDup_alt. intros i j x.
  rewrite !list_lookup_imap.
  destruct (vs !! i) as [ci|] eqn:Hi; [|done].
  destruct (vs !! j) as [cj|] eqn:Hj; [|done].
  simpl. intros [= <-] [= Heq].
  destruct (decide (i = j)) as [|Hne]; [done|]. exfalso.
  rewrite Forall_lookup in Hplain.
  destruct (plain_email_suffixed idxs i ci (Hplain _ _ Hi))
    as (ni & di & -> & Hni & Hdi & Hci & _).
  destruct (plain_email_suffixed idxs j cj (Hplain _ _ Hj))
    as (nj & dj & -> & Hnj & Hdj & Hcj & _).
  rewrite Hci, Hcj in Heq.
  destruct (str_of_nat_digits i) as [Hdigi Hnei].
  destruct (str_of_nat_digits j) as [Hdigj Hnej].
  assert (∀ n k, Py.contains "@" n = false →
                 Py.contains "@" (n +:+ Py.str_of_nat k) = false) as Hnoat.
  { intros n k Hn. rewrite contains_app, Hn. simpl.
    apply contains_digits; [done|]. apply str_of_nat_digits. }
  destruct (decide (i ∈ idxs)) as [Hiin|Hiout],
           (decide (j ∈ idxs)) as [Hjin|Hjout].
  - injection Heq as Heq.
    rewrite <- (app_assoc_string ni (Py.str_of_nat i) ("@" +:+ di)),
      <- (app_assoc_string nj (Py.str_of_nat j) ("@" +:+ dj)) in Heq.
    apply cut_at_unique in Heq as [Heq _]; [|by apply Hnoat..].
    apply digits_suffix_unique in Heq as [_ Heq]; [|done..].
    by apply str_of_nat_inj in Heq.
  - injection Heq as Heq.
    rewrite <- (app_assoc_string ni (Py.str_of_nat i) ("@" +:+ di)) in Heq.
    apply cut_at_unique in Heq as [Heq _]; [|done|by apply Hnoat].
    rewrite Heq, ends_with_digit_app in Hdj; done.
  - injection Heq as Heq.
    rewrite <- (app_assoc_string nj (Py.str_of_nat j) ("@" +:+ dj)) in Heq.
    apply cut_at_unique in Heq as [Heq _]; [|by apply Hnoat|done].
    rewrite <- Heq, ends_with_digit_app in Hdi; done.
  - rewrite <- Heq in Hi.
    destruct (duplicated_pair vs i j _ Hne Hi Hj) as [Hii Hjj].
    apply Hne. by eapply outside_tail.
Qed.


(** C3, the failing input.  The second customer shares the email of the
    first and is renamed to [a1@x.com], the email the third customer already
    has: after cleaning, rows 1 and 2 share an email, where the claim says
    that no two rows do. *)
Lemma customer_emails_collide_after_suffix :
  ∃ out,
    transform_clientes customers_suffix_collision = Ok out
    ∧ at_get 1 "email" out = Ok (VStr "a1@x.com")
    ∧ at_get 2 "email" out = Ok (VStr "a1@x.com").
Proof. eexists. repeat split; vm_compute; reflexivity. Qed.

(** What the suffixing achieves.  Let the emails of a raw customer table
    be strings [name@domain] with a single [@], no blank at either end and a
    name that does not end in a digit.  Whenever cleaning returns, no two
    rows of the result share an email; a row whose email is not duplicated
    keeps it, and
    so does the first row of the table whose email is duplicated; every
    other row with a duplicated email gets its row index inserted before the
    [@]. *)
Theorem customer_emails_unique df out email0 :
  get_column "email" (rename clientes_renames df) = Ok email0 →
  Forall plain_email (values email0) →
  transform_clientes df = Ok out →
  ∃ email,
    get_column "email" out = Ok email
    ∧ NoDup (values email)
    ∧ length (values email) = length (values email0)
    ∧ ∀ i name domain,
        values email0 !! i = Some (VStr (name +:+ "@" +:+ domain)) →
        Py.contains "@" name = false →
        Py.contains "@" domain = false →
        let marked := true_positions (duplicated (values email0)) in
        (i ∉ marked ∨ head marked = Some i →
         values email !! i = Some (VStr (name +:+ "@" +:+ domain)))
        ∧ (i ∈ tail marked →
           values email !! i
           = Some (VStr (name +:+ Py.str_of_nat i +:+ "@" +:+ domain))).
Proof.
  intros Hemail0 Hplain. unfold transform_clientes. fold clientes_renames.
  set (d0 := rename clientes_renames df) in *.
  intros (d1 & H1 & (email1 & Hemail1 & (d3 & H3 & H4)%bind_Ok)%bind_Ok)%bind_Ok.
  assert (email1 = email0) as ->.
  { cut (get_column "email" d1 = get_column "email" d0); [congruence|].
    destruct (has_column "telefono" d0); [|by injection H1 as <-].
    apply bind_Ok in H1 as (d' & (t0 & t1 & Ht0 & Ht1 & ->)%update_column_Ok
                               & (t1' & t2 & Ht1' & Ht2 & ->)%update_column_Ok).
    by rewrite !get_set_ne. }
  set (marked := true_positions (duplicated (values email0))).
  assert (for_each suffix_duplicate (tail marked) d1 = Ok d3) as Hloop.
  { case_bool_decide as Hcount; [done|]. injection H3 as <-.
    unfold marked. rewrite true_positions_none; [done|lia]. }
  assert (NoDup (tail marked)) as Hnd.
  { pose proof (true_positions_NoDup (duplicated (values email0))) as Hnd.
    fold marked in Hnd. destruct marked; [done|]. by apply NoDup_cons in Hnd as []. }
  destruct (suffix_loop_email _ _ _ _ Hnd Hemail1 Hloop) as (email3 & Hemail3 & Hvals3).
  destruct (strip_loop _ _ _ H4) as (_ & _ & Hget4 & _).
  destruct (Hget4 _ _ Hemail3) as (email & Hemail & Hstrip).
  assert (values email = imap (suffixed_cell (tail marked)) (values email0))
    as Hvals.
  { destruct Hstrip as [->|[_ ->]%str_method_Ok]; [done|]. simpl.
    rewrite Hvals3. apply list_eq. intros i.
    change (map ?f ?l) with (f <$> l).
    rewrite list_lookup_fmap, !list_lookup_imap.
    destruct (values email0 !! i) as [c|] eqn:Hc; [|done]. simpl. f_equal.
    rewrite Forall_lookup in Hplain.
    by destruct (plain_email_suffixed (tail marked) i c (Hplain _ _ Hc))
      as (? & ? & _ & _ & _ & _ & ->). }
  exists email. split; [done|]. rewrite Hvals. split; [|split].
  - by apply suffixed_emails_NoDup.
  - apply length_imap.
  - intros i name domain Hi Hn Hd. simpl. fold marked.
    rewrite list_lookup_imap, Hi. simpl.
    destruct (split_at_single name domain Hn Hd) as [Hsplit Hat]. split.
    + intros Hkeep. rewrite suffixed_cell_notin; [done|].
      intros Htail. destruct Hkeep as [Hout|Hhead].
      * apply Hout. destruct marked; [done|by right].
      * pose proof (true_positions_NoDup (duplicated (values email0))) as Hnd'.
        fold marked in Hnd'. destruct marked as [|h t]; [done|].
        injection Hhead as ->. by apply NoDup_cons in Hnd' as [].
    + intros Htail. unfold suffixed_cell. rewrite decide_True by done.
      by rewrite Hat, Hsplit.
Qed.

Lemma customer_emails_unique_witness :
  ∃ out email,
    transform_clientes customers_shared_email = Ok out
    ∧ get_column "email" out = Ok email
    ∧ NoDup (values email)
    ∧ values email = [VStr "a@x.com"; VStr "a1@x.com"].
Proof.
  destruct (transform_clientes customers_shared_email) as [out|] eqn:Hout;
    [|by vm_compute in Hout].
  assert (Forall plain_email [VStr "a@x.com"; VStr "a@x.com"]) as Hplain.
  { repeat constructor; by exists "a", "x.com". }
  destruct (customer_emails_unique customers_shared_email out
              (object_column [VStr "a@x.com"; VStr "a@x.com"])
              eq_refl Hplain Hout)
    as (email & Hemail & Hnd & Hlen & Hrows).
  exists out, email. split; [reflexivity|]. split; [exact Hemail|].
  split; [exact Hnd|].
  destruct (Hrows 0 "a" "x.com" eq_refl eq_refl eq_refl) as [H0 _].
  destruct (Hrows 1 "a" "x.com" eq_refl eq_refl eq_refl) as [_ H1].
  specialize (H0 (or_intror eq_refl)).
  specialize (H1 ltac:(vm_compute; left)).
  destruct (values email) as [|e0 [|e1 [|]]]; try discriminate.
  simpl in H0, H1. by injection H0 as ->; injection H1 as ->.
Defined.

(** ** Left joins *)

Lemma get_column_app c (l1 l2 : DataFrame) :
  get_column c (l1 ++ l2)
  = match get_column c l1 with Ok s => Ok s | Raise _ => get_column c l2 end.
Proof.
  induction l1 as [|[n s] l1 IH]; simpl; [done|]. by case_decide.
Qed.

(** Columns renamed by [g] and transformed by [h]. *)
Lemma get_column_map_Ok (g : string → string) (h : Series → Series) df c s :
  get_column c df = Ok s →
  g c = c →
  (∀ n, n ∈ columns df → g n = c → n = c) →
  get_column c (map (λ col, (g col.1, h col.2)) df) = Ok (h s).
Proof.
  intros Hs Hc Hg. induction df as [|[n s0] df IH]; simpl in *; [done|].
  destruct (decide (n = c)) as [->|Hne].
  - injection Hs as ->. by rewrite Hc, decide_True.
  - rewrite decide_False; [apply IH; [done|]|].
    + intros m Hm. apply Hg. by right.
    + intros Hgn. apply Hne, Hg; [left|done].
Qed.

Lemma get_column_map_absent (g : string → string) (h : Series → Series) df c :
  (∀ n, n ∈ columns df → g n ≠ c) →
  get_column c (map (λ col, (g col.1, h col.2)) df) = Raise KeyError.
Proof.
  intros Hg. induction df as [|[n s0] df IH]; simpl in *; [done|].
  rewrite decide_False; [apply IH|]; intros; apply Hg; (by right) || left.
Qed.

Lemma last_char_app a b : b ≠ "" → last_char (a +:+ b) = last_char b.
Proof.
  intros Hb. induction a as [|c a IH]; simpl_app; [done|].
  destruct (a +:+ b) eqn:Hab; [|done].
  destruct a; simpl_app; [done|discriminate].
Qed.

(** A label that does not end like the suffix is no suffixed label. *)
Lemma not_suffixed n sfx c :
  sfx ≠ "" → last_char c ≠ last_char sfx → n +:+ sfx ≠ c.
Proof. intros Hs Hlast <-. by rewrite last_char_app in Hlast. Qed.


Lemma merge_left_Ok left right lo ro sx sy out :
  merge_left left right lo ro (sx, sy) = Ok out ↔
  ∃ lk rk,
    get_column lo left = Ok lk ∧ get_column ro right = Ok rk
    ∧ out =
      map (λ col, (merged_label left right lo ro sx col.1,
                   take_rows ((join_rows (values lk) (values rk)).*1) col.2))
        left
      ++ map (λ col, (merged_label left right lo ro sy col.1,
                      take_rows_opt ((join_rows (values lk) (values rk)).*2)
                        col.2))
           (filter (λ col, ¬ Is_true (bool_decide (lo = ro)
                                      && bool_decide (col.1 = lo))) right).
Proof.
  unfold merge_left. rewrite bind_Ok. split.
  - intros (rk & Hrk & (lk & Hlk & [= <-])%bind_Ok). by exists lk, rk.
  - intros (lk & rk & Hlk & Hrk & ->). exists rk. split; [done|].
    by rewrite Hlk.
Qed.

(** A column of the left frame, after the merge: its cells in the joined
    rows. *)
Lemma merge_left_get_l left right lo ro sx sy out c s :
  merge_left left right lo ro (sx, sy) = Ok out →
  get_column c left = Ok s →
  merged_label left right lo ro sx c = c →
  (∀ n, n ∈ columns right → n +:+ sx = c → n = c) →
  ∃ lk rk,
    get_column lo left = Ok lk ∧ get_column ro right = Ok rk
    ∧ get_column c out
      = Ok (take_rows ((join_rows (values lk) (values rk)).*1) s).
Proof.
  intros (lk & rk & Hlk & Hrk & ->)%merge_left_Ok Hs Hc Hsfx.
  exists lk, rk. split; [done|]. split; [done|].
  rewrite get_column_app.
  rewrite (get_column_map_Ok (merged_label left right lo ro sx) _ left c s);
    [done..|].
  intros n Hn. unfold merged_label.
  destruct (has_column n right) eqn:Hr.
  - case_match; [|done]. apply Hsfx. by apply bool_decide_eq_true in Hr.
  - by rewrite andb_false_r.
Qed.

(** *** The row pairs of a left join *)

Lemma matches_spec k rk j : j ∈ matches k rk ↔ rk !! j = Some k.
Proof.
  unfold matches. rewrite true_positions_spec.
  change (map ?f rk) with (f <$> rk). rewrite list_lookup_fmap.
  destruct (rk !! j) as [v|]; simpl; [|done]. split.
  - intros [= Hv%bool_decide_eq_true]. by subst.
  - intros [= ->]. by rewrite bool_decide_eq_true_2.
Qed.

(** A key that is unique in the right frame matches at most one row. *)
Lemma matches_unique k rk : NoDup rk → length (matches k rk) ≤ 1.
Proof.
  intros Hnd.
  pose proof (true_positions_NoDup (map (λ v, bool_decide (v = k)) rk)) as Hm.
  fold (matches k rk) in Hm.
  destruct (matches k rk) as [|j1 [|j2 js]] eqn:Heq; simpl; [lia..|].
  exfalso. apply NoDup_cons in Hm as [Hj1 _]. apply Hj1.
  assert (rk !! j1 = Some k) as H1 by (apply matches_spec; rewrite Heq; left).
  assert (rk !! j2 = Some k) as H2
    by (apply matches_spec; rewrite Heq; right; left).
  rewrite (NoDup_lookup _ _ _ _ Hnd H1 H2). left.
Qed.

Lemma join_rows_from_left i lk rk j :
  j ∈ (join_rows_from i lk rk).*1 ↔ i ≤ j < i + length lk.
Proof.
  revert i. induction lk as [|k lk IH]; intros i; cbn [join_rows_from length].
  { split; [by intros ?%elem_of_nil | lia]. }
  rewrite fmap_app, elem_of_app, IH.
  destruct (matches k rk) as [|j0 js].
  - rewrite fmap_cons, fmap_nil, list_elem_of_singleton. simpl. lia.
  - rewrite <- list_fmap_compose.
    assert (j ∈ (fst ∘ (λ j1, (i, Some j1))) <$> j0 :: js ↔ j = i) as ->; [|lia].
    split.
    + by intros (? & -> & _)%list_elem_of_fmap.
    + intros ->. apply list_elem_of_fmap. exists j0. split; [done|left].
Qed.

Lemma join_rows_from_length i lk rk : length lk ≤ length (join_rows_from i lk rk).
Proof.
  revert i. induction lk as [|k lk IH]; intros i; cbn [join_rows_from length];
    [lia|].
  rewrite length_app. specialize (IH (S i)).
  destruct (matches k rk); cbn [length]; rewrite ?length_fmap; cbn [length]; lia.
Qed.

Lemma join_rows_from_unique i lk rk :
  NoDup rk → (join_rows_from i lk rk).*1 = seq i (length lk).
Proof.
  intros Hnd. revert i.
  induction lk as [|k lk IH]; intros i; cbn [join_rows_from length seq]; [done|].
  rewrite fmap_app, IH. pose proof (matches_unique k rk Hnd) as Hlen.
  by destruct (matches k rk) as [|j [|]]; simpl in *; [..|lia].
Qed.

(** No row of the left frame is dropped... *)
Lemma join_rows_left lk rk j : j ∈ (join_rows lk rk).*1 ↔ j < length lk.
Proof. unfold join_rows. rewrite join_rows_from_left. lia. Qed.

Lemma join_rows_length lk rk : length lk ≤ length (join_rows lk rk).
Proof. apply join_rows_from_length. Qed.

(** ... and none is repeated when the keys of the right frame are unique. *)
Lemma join_rows_unique lk rk :
  NoDup rk → (join_rows lk rk).*1 = seq 0 (length lk).
Proof. apply join_rows_from_unique. Qed.

Lemma take_rows_seq s :
  take_rows (seq 0 (length (values s))) s = s.
Proof.
  destruct s as [d vs]. unfold take_rows. simpl. f_equal.
  apply list_eq. intros i. change (map ?f ?l) with (f <$> l).
  rewrite list_lookup_fmap. destruct (decide (i < length vs)) as [Hi|Hi].
  - rewrite lookup_seq_lt by done. simpl.
    destruct (lookup_lt_is_Some_2 vs i Hi) as [v Hv]. by rewrite Hv.
  - rewrite lookup_seq_ge, lookup_ge_None_2 by lia. done.
Qed.

Lemma take_rows_length idx s : length (values (take_rows idx s)) = length idx.
Proof. simpl. by rewrite length_map. Qed.

Lemma take_rows_opt_length idx s :
  length (values (take_rows_opt idx s)) = length idx.
Proof. simpl. by rewrite length_map. Qed.

(** The joined rows show the cells of the left column, all of them. *)
Lemma take_rows_elements idx s v :
  (∀ j, j ∈ idx ↔ j < length (values s)) →
  v ∈ values (take_rows idx s) ↔ v ∈ values s.
Proof.
  intros Hidx. simpl. change (map ?f ?l) with (f <$> l).
  rewrite list_elem_of_fmap. split.
  - intros (j & -> & Hj%Hidx).
    destruct (lookup_lt_is_Some_2 _ _ Hj) as [w Hw]. rewrite Hw. simpl.
    by eapply list_elem_of_lookup_2.
  - intros (j & Hj)%list_elem_of_lookup_1. exists j. rewrite Hj. split; [done|].
    apply Hidx. by eapply lookup_lt_Some.
Qed.

(** The frame a merge returns has one row per joined pair. *)
Lemma merge_left_rows left right lo ro sfx out :
  merge_left left right lo ro sfx = Ok out →
  ∃ lk rk,
    get_column lo left = Ok lk ∧ get_column ro right = Ok rk
    ∧ frame_rows (length (join_rows (values lk) (values rk))) out.
Proof.
  destruct sfx as [sx sy].
  intros (lk & rk & Hlk & Hrk & ->)%merge_left_Ok. exists lk, rk.
  split; [done|]. split; [done|]. unfold frame_rows.
  apply Forall_app. split; apply Forall_map, Forall_forall; intros [n s] _; simpl;
    by rewrite length_map, length_fmap.
Qed.

(** ** Group-by *)

Lemma group_keys_perm vs :
  group_keys vs ≡ₚ remove_dups (filter (λ k, k ≠ NA) vs).
Proof. apply merge_sort_Permutation. Qed.

(** One group per distinct non-null key. *)
Lemma group_keys_NoDup vs : NoDup (group_keys vs).
Proof. rewrite group_keys_perm. apply NoDup_remove_dups. Qed.

Lemma group_keys_spec vs k : k ∈ group_keys vs ↔ k ≠ NA ∧ k ∈ vs.
Proof.
  rewrite group_keys_perm, elem_of_remove_dups, list_elem_of_filter. done.
Qed.

Lemma groupby_agg_Ok key spec df out :
  groupby_agg key spec df = Ok out ↔
  ∃ ks cols,
    get_column key df = Ok ks
    ∧ agg_columns spec (group_keys (values ks)) (values ks) df = Ok cols
    ∧ out = (key, mkSeries (dtype_of ks) (group_keys (values ks))) :: cols.
Proof.
  unfold groupby_agg. rewrite bind_Ok. split.
  - intros (ks & Hks & (cols & Hcols & [= <-])%bind_Ok). by exists ks, cols.
  - intros (ks & cols & Hks & Hcols & ->). exists ks. split; [done|].
    by rewrite Hcols.
Qed.

Lemma agg_columns_rows spec gk keys df cols :
  agg_columns spec gk keys df = Ok cols → frame_rows (length gk) cols.
Proof.
  revert cols. induction spec as [|[c f] spec IH]; intros cols; simpl.
  { intros [= <-]. constructor. }
  intros (s & Hs & (rest & Hrest & [= <-])%bind_Ok)%bind_Ok.
  constructor; [simpl; by rewrite length_map | by apply IH].
Qed.

Lemma groupby_agg_rows key spec df out :
  groupby_agg key spec df = Ok out →
  ∃ ks, get_column key df = Ok ks
        ∧ frame_rows (length (group_keys (values ks))) out.
Proof.
  intros (ks & cols & Hks & Hcols & ->)%groupby_agg_Ok. exists ks.
  split; [done|]. constructor; [done|]. by eapply agg_columns_rows.
Qed.

(** *** The rows of a group *)

Lemma keep_where_length {A} mask (xs : list A) :
  length mask = length xs → length (keep_where mask xs) = count_true mask.
Proof.
  unfold count_true. revert xs.
  induction mask as [|b mask IH]; intros [|x xs]; simpl; try done.
  intros [= Hlen]. rewrite filter_cons. destruct b; simpl; by rewrite IH.
Qed.

Lemma group_of_length k keys vs :
  length vs = length keys → length (group_of k keys vs) = occurrences k keys.
Proof.
  intros Hlen. unfold group_of. rewrite keep_where_length
    by by rewrite length_map.
  unfold count_true, occurrences. clear.
  induction keys as [|x keys IH]; [done|]. simpl.
  rewrite !filter_cons. repeat case_decide; case_bool_decide; simpl;
    by rewrite ?IH.
Qed.

Lemma keep_where_elem {A} mask (xs : list A) x :
  x ∈ keep_where mask xs → x ∈ xs.
Proof.
  revert xs. induction mask as [|b mask IH]; intros [|y xs]; simpl;
    try by intros ?%elem_of_nil.
  destruct b; [intros [->|?]%elem_of_cons|intros ?]; [left|right; auto..].
Qed.

Lemma count_notna_all vs : Forall (λ v, v ≠ NA) vs → count_notna vs = length vs.
Proof.
  unfold count_notna. induction 1 as [|v vs Hv _ IH]; [done|].
  rewrite filter_cons, decide_True by done. simpl. by rewrite IH.
Qed.

Lemma occurrences_le v vs : occurrences v vs ≤ length vs.
Proof. unfold occurrences. apply length_filter. Qed.

(** ** Percentages *)

Local Open Scope Qc_scope.

Lemma Qc_of_Z_le a b : (a ≤ b)%Z → Qc_of_Z a ≤ Qc_of_Z b.
Proof. apply Z2Qc_inj_le. Qed.

Lemma Qc_of_Z_lt a b : (a < b)%Z → Qc_of_Z a < Qc_of_Z b.
Proof. apply Z2Qc_inj_lt. Qed.

Lemma Qc_of_Z_lt_inv a b : Qc_of_Z a < Qc_of_Z b → (a < b)%Z.
Proof. apply Z2Qc_inj_lt. Qed.

Lemma Qc_of_Z_pos t : (0 < t)%Z → 0 < Qc_of_Z t.
Proof. intros Ht. rewrite <- Z2Qc_inj_0. by apply Qc_of_Z_lt. Qed.

Lemma Qc_of_Z_nonneg t : (0 ≤ t)%Z → 0 ≤ Qc_of_Z t.
Proof. intros Ht. rewrite <- Z2Qc_inj_0. by apply Qc_of_Z_le. Qed.

Lemma round_half_even_bounds (q : Qc) (a b : Z) :
  Qc_of_Z a ≤ q → q ≤ Qc_of_Z b → (a ≤ round_half_even q ≤ b)%Z.
Proof.
  intros Ha Hb.
  assert (a ≤ Qfloor q)%Z as Hlo.
  { rewrite <- (Qfloor_Z a). by apply Qfloor_resp_le. }
  assert (Qfloor q ≤ b)%Z as Hhi.
  { rewrite <- (Qfloor_Z b). by apply Qfloor_resp_le. }
  unfold round_half_even. set (fl := Qfloor q) in *.
  case_bool_decide as Hr; [lia|].
  assert (Qc_of_Z fl < q) as Hlt.
  { apply Qcnot_lt_le in Hr.
    assert (0 < q - Qc_of_Z fl) as Hpos
      by (eapply Qclt_le_trans; [|exact Hr]; done).
    apply Qclt_minus_iff. exact Hpos. }
  assert (fl < b)%Z.
  { apply Qc_of_Z_lt_inv. by eapply Qclt_le_trans. }
  repeat case_bool_decide; try case_match; lia.
Qed.

Lemma ratio_in_unit (c t : Z) :
  (0 ≤ c ≤ t)%Z → (1 ≤ t)%Z → 0 ≤ Qc_of_Z c / Qc_of_Z t ∧ Qc_of_Z c / Qc_of_Z t ≤ 1.
Proof.
  intros [Hc Hct] Ht.
  assert (0 < Qc_of_Z t) as Htpos by (apply Qc_of_Z_pos; lia).
  assert (0 ≤ Qc_of_Z c) as Hcpos by (apply Qc_of_Z_nonneg; lia).
  pose proof (Qcinv_pos _ Htpos) as Hinv. unfold Qcdiv. split.
  - apply Qcmult_nonneg_nonneg; [done|by apply Qclt_le_weak].
  - rewrite <- (Qcmult_inv_r (Qc_of_Z t)) by by apply not_eq_sym, Qclt_not_eq.
    apply Qcmult_le_compat_r; [|by apply Qclt_le_weak].
    apply Qc_of_Z_le. lia.
Qed.

(** The completion rate of [c] completed orders out of [t]. *)
Lemma completion_rate_bounds (c t : nat) :
  (1 ≤ t)%nat → (c ≤ t)%nat →
  ∃ x,
    cell_round2
      (cell_mul (cell_div (VNum (num_of_nat c)) (VNum (num_of_nat t)))
         (VNum (num_of_Z 100)))
    = VNum (Fin x)
    ∧ 0 ≤ x ∧ x ≤ Qc_of_Z 100.
Proof.
  intros Ht Hct. unfold num_of_nat, num_of_Z. simpl.
  assert (Qc_of_Z (Z.of_nat t) ≠ 0) as Hne.
  { rewrite <- Z2Qc_inj_0. intros ?%Z2Qc_inj. lia. }
  rewrite bool_decide_eq_false_2 by done. simpl.
  eexists. split; [done|].
  destruct (ratio_in_unit (Z.of_nat c) (Z.of_nat t)) as [H0 H1]; [lia..|].
  set (q := Qc_of_Z (Z.of_nat c) / Qc_of_Z (Z.of_nat t)) in *. clearbody q.
  assert (0 ≤ Qc_of_Z 100) as H100 by done.
  assert (Qc_of_Z 0 ≤ q * Qc_of_Z 100 * Qc_of_Z 100) as Hlo.
  { rewrite Z2Qc_inj_0.
    apply Qcmult_nonneg_nonneg; [apply Qcmult_nonneg_nonneg|]; done. }
  assert (q * Qc_of_Z 100 * Qc_of_Z 100 ≤ Qc_of_Z 10000) as Hhi.
  { replace (Qc_of_Z 10000) with (1 * Qc_of_Z 100 * Qc_of_Z 100)
      by by apply Qc_is_canon.
    apply Qcmult_le_compat_r; [apply Qcmult_le_compat_r|]; done. }
  destruct (round_half_even_bounds _ _ _ Hlo Hhi) as [Hr0 Hr1].
  set (r := round_half_even (q * Qc_of_Z 100 * Qc_of_Z 100)) in *. clearbody r.
  assert (0 < / Qc_of_Z 100) as Hinv by by apply Qcinv_pos.
  unfold Qcdiv. split.
  - apply Qcmult_nonneg_nonneg; [|by apply Qclt_le_weak].
    by apply Qc_of_Z_nonneg.
  - replace (Qc_of_Z 100) with (Qc_of_Z 10000 * / Qc_of_Z 100) at 2
      by by apply Qc_is_canon.
    apply Qcmult_le_compat_r; [|by apply Qclt_le_weak].
    by apply Qc_of_Z_le.
Qed.

Local Close Scope Qc_scope.

(** ** Employee productivity (C10) *)


Lemma productividad_empleados_run ordenes empleados resp ido est eid en ec :
  get_column "id_empleado_responsable" ordenes = Ok resp →
  get_column "id_orden" ordenes = Ok ido →
  get_column "estado" ordenes = Ok est →
  get_column "id_empleado" empleados = Ok eid →
  get_column "nombre" empleados = Ok en →
  get_column "cargo" empleados = Ok ec →
  let keys := values resp in
  let gk := group_keys keys in
  let idx := join_rows gk (values eid) in
  let total := take_rows (idx.*1) (agg_column Count gk keys ido) in
  let done := take_rows (idx.*1)
                (agg_column (CountEq (VStr "Completado")) gk keys est) in
  DataLoader._create_productividad_empleados ordenes empleados
  = Ok [("id_empleado", take_rows (idx.*1) (mkSeries (dtype_of resp) gk));
        ("total_ordenes", total);
        ("ordenes_completadas", done);
        ("nombre", take_rows_opt (idx.*2) en);
        ("cargo", take_rows_opt (idx.*2) ec);
        ("tasa_completitud",
         series_round2 (series_times100 (series_div done total)))].
Proof.
  intros Hresp Hido Hest Heid Hen Hec. simpl.
  unfold DataLoader._create_productividad_empleados, groupby_agg.
  rewrite Hresp. simpl. rewrite Hido, Hest. simpl.
  rewrite Heid, Hen, Hec. simpl.
  unfold merge_left. simpl. done.
Qed.


Lemma take_rows_lookup idx s r j :
  idx !! r = Some j →
  values (take_rows idx s) !! r = Some (default NA (values s !! j)).
Proof.
  intros Hr. unfold take_rows. simpl. change (map ?f ?l) with (f <$> l).
  by rewrite list_lookup_fmap, Hr.
Qed.

Lemma agg_column_lookup f gk keys s j k :
  gk !! j = Some k →
  values (agg_column f gk keys s) !! j
  = Some (aggregate f (group_of k keys (values s))).
Proof.
  intros Hj. unfold agg_column. simpl. change (map ?f ?l) with (f <$> l).
  by rewrite list_lookup_fmap, Hj.
Qed.

Lemma map_lookup {A B} (f : A → B) (l : list A) i :
  map f l !! i = f <$> l !! i.
Proof. apply list_lookup_fmap. Qed.

Lemma series_div_lookup a b r x y :
  values a !! r = Some x → values b !! r = Some y →
  values (series_div a b) !! r = Some (cell_div x y).
Proof.
  intros Ha Hb. unfold series_div. simpl. by rewrite lookup_zip_with, Ha, Hb.
Qed.

Lemma series_times100_lookup a r x :
  values a !! r = Some x →
  values (series_times100 a) !! r = Some (cell_mul x (VNum (num_of_Z 100))).
Proof. intros Ha. unfold series_times100. simpl. by rewrite map_lookup, Ha. Qed.

Lemma series_round2_lookup a r x :
  values a !! r = Some x →
  values (series_round2 a) !! r = Some (cell_round2 x).
Proof. intros Ha. unfold series_round2. simpl. by rewrite map_lookup, Ha. Qed.

Lemma fillna0_lookup a r x :
  values a !! r = Some x → values (fillna0 a) !! r = Some (cell_fillna0 x).
Proof. intros Ha. unfold fillna0. simpl. by rewrite map_lookup, Ha. Qed.

(** C10, counterexample.  An order without an order id that is assigned
    to employee 4 and completed: the employee is listed with 0 orders and 1
    completed order, and the completion rate is infinite. *)
Lemma completion_rate_of_order_without_id :
  ∃ out,
    DataLoader._create_productividad_empleados ordenes_without_id
      empleados_limpio = Ok out
    ∧ at_get 0 "total_ordenes" out = Ok (VNum (num_of_nat 0))
    ∧ at_get 0 "ordenes_completadas" out = Ok (VNum (num_of_nat 1))
    ∧ at_get 0 "tasa_completitud" out = Ok (VNum PInf).
Proof. eexists. repeat split; vm_compute; reflexivity. Qed.

(** C10 (as amended).  When no order lacks its order id, the productivity
    table is built, and in each of its rows the employee has at least one
    order, no more completed orders than orders, and a completion rate that
    is a number between 0 and 100. *)
Theorem completion_rate_is_percentage ordenes empleados resp ido est eid en ec n :
  get_column "id_empleado_responsable" ordenes = Ok resp →
  get_column "id_orden" ordenes = Ok ido →
  get_column "estado" ordenes = Ok est →
  get_column "id_empleado" empleados = Ok eid →
  get_column "nombre" empleados = Ok en →
  get_column "cargo" empleados = Ok ec →
  frame_rows n ordenes →
  Forall (λ v, v ≠ NA) (values ido) →
  ∃ out total completed tasa,
    DataLoader._create_productividad_empleados ordenes empleados = Ok out
    ∧ get_column "total_ordenes" out = Ok total
    ∧ get_column "ordenes_completadas" out = Ok completed
    ∧ get_column "tasa_completitud" out = Ok tasa
    ∧ ∀ r, r < nrows out →
        ∃ (t c : nat) (x : Qc),
          values total !! r = Some (VNum (num_of_nat t))
          ∧ values completed !! r = Some (VNum (num_of_nat c))
          ∧ values tasa !! r = Some (VNum (Fin x))
          ∧ 1 ≤ t ∧ c ≤ t ∧ (0 ≤ x)%Qc ∧ (x ≤ Qc_of_Z 100)%Qc.
Proof.
  intros Hresp Hido Hest Heid Hen Hec Hrows Hids.
  eexists _, _, _, _.
  split; [by apply (productividad_empleados_run _ _ _ _ _ _ _ _ Hresp Hido Hest
                      Heid Hen Hec)|].
  simpl. do 3 (split; [done|]).
  set (keys := values resp). set (gk := group_keys keys).
  set (idx := join_rows gk (values eid)).
  rewrite length_map, length_fmap. intros r Hr.
  destruct (lookup_lt_is_Some_2 (idx.*1) r) as [j Hj];
    [by rewrite length_fmap|].
  assert (j < length gk) as Hjlt.
  { apply (join_rows_left gk (values eid)). by eapply list_elem_of_lookup_2. }
  destruct (lookup_lt_is_Some_2 gk j Hjlt) as [k Hk].
  assert (k ∈ keys) as Hkin.
  { eapply group_keys_spec, list_elem_of_lookup_2, Hk. }
  pose proof (frame_rows_get _ _ _ _ Hrows Hresp) as Hlen_keys.
  pose proof (frame_rows_get _ _ _ _ Hrows Hido) as Hlen_ido.
  pose proof (frame_rows_get _ _ _ _ Hrows Hest) as Hlen_est.
  set (t := count_notna (group_of k keys (values ido))).
  set (c := occurrences (VStr "Completado") (group_of k keys (values est))).
  assert (t = occurrences k keys) as Ht.
  { unfold t. rewrite count_notna_all.
    - apply group_of_length. unfold keys. congruence.
    - apply Forall_forall. intros v Hv%keep_where_elem.
      rewrite Forall_forall in Hids. by apply Hids. }
  assert (1 ≤ t) as Ht1.
  { rewrite Ht. by apply occurrences_pos. }
  assert (c ≤ t) as Hct.
  { rewrite Ht. unfold c. etrans; [apply occurrences_le|].
    rewrite group_of_length; [done|]. unfold keys. congruence. }
  destruct (completion_rate_bounds c t Ht1 Hct) as (x & Hx & Hx0 & Hx100).
  exists t, c, x.
  assert (values (take_rows idx.*1 (agg_column Count gk keys ido)) !! r
          = Some (VNum (num_of_nat t))) as Htotal.
  { rewrite (take_rows_lookup _ _ _ _ Hj).
    by rewrite (agg_column_lookup _ _ _ _ _ _ Hk). }
  assert (values (take_rows idx.*1
                    (agg_column (CountEq (VStr "Completado")) gk keys est)) !! r
          = Some (VNum (num_of_nat c))) as Hdone.
  { rewrite (take_rows_lookup _ _ _ _ Hj).
    by rewrite (agg_column_lookup _ _ _ _ _ _ Hk). }
  split; [done|]. split; [done|]. split; [|done].
  rewrite <- Hx.
  by apply series_round2_lookup, series_times100_lookup, series_div_lookup.
Qed.

Lemma completion_rate_is_percentage_witness :
  ∃ out tasa x,
    DataLoader._create_productividad_empleados ordenes_limpio empleados_limpio
    = Ok out
    ∧ get_column "tasa_completitud" out = Ok tasa
    ∧ values tasa !! 0 = Some (VNum (Fin x))
    ∧ (0 ≤ x)%Qc ∧ (x ≤ Qc_of_Z 100)%Qc.
Proof.
  destruct (completion_rate_is_percentage ordenes_limpio empleados_limpio
              (int_column [4; 4]%Z) (int_column [1; 2]%Z)
              (object_column [VStr "Completado"; VStr "Pendiente"])
              (int_column [4]%Z) (object_column [VStr "Ana"])
              (object_column [VStr "Jefe"]) 2
              eq_refl eq_refl eq_refl eq_refl eq_refl eq_refl)
    as (out & total & completed & tasa & Hout & Htotal & Hdone & Htasa & Hrow).
  { repeat constructor. }
  { repeat constructor; discriminate. }
  assert (nrows out = 1) as Hn.
  { pose proof Hout as Hout'. vm_compute in Hout'. injection Hout' as Heq.
    rewrite <- Heq. reflexivity. }
  destruct (Hrow 0) as (t & c & x & _ & _ & Hx & _ & _ & Hx0 & Hx100);
    [rewrite Hn; lia|].
  by exists out, tasa, x.
Defined.

(** ** More on joins and renamings *)

Lemma app_empty_string (a : string) : a +:+ "" = a.
Proof. induction a as [|c a IH]; simpl_app; [done|]. by f_equal. Qed.

Lemma get_column_rename m c df :
  default c (assoc c m) = c →
  (∀ n, n ∈ columns df → default n (assoc n m) = c → n = c) →
  get_column c (rename m df) = get_column c df.
Proof.
  intros Hc Hm. unfold rename.
  destruct (get_column c df) as [s|e] eqn:Hs.
  - by apply (get_column_map_Ok (λ n, default n (assoc n m)) (λ s, s)).
  - assert (has_column c df = false) as Hno.
    { rewrite has_column_get, Hs. done. }
    apply has_column_false in Hno as He. rewrite Hs in He. rewrite He.
    apply (get_column_map_absent (λ n, default n (assoc n m)) (λ s, s)).
    intros n Hn Heq. apply Hm in Heq as ->; [|done].
    unfold has_column in Hno. by apply bool_decide_eq_false in Hno.
Qed.

Lemma frame_rows_rename n m df : frame_rows n df → frame_rows n (rename m df).
Proof. unfold frame_rows, rename. intros Hdf. by apply Forall_map. Qed.

Lemma frame_rows_select n cs df out :
  frame_rows n df → select cs df = Ok out → frame_rows n out.
Proof.
  intros Hdf. revert out. induction cs as [|c cs IH]; intros out; simpl.
  { intros [= <-]. constructor. }
  intros (s & Hs & (rest & Hrest & [= <-])%bind_Ok)%bind_Ok.
  constructor; [by eapply frame_rows_get | by apply IH].
Qed.

Lemma get_column_filter (P : string * Series → Prop) `{!∀ x, Decision (P x)}
    c (df : DataFrame) :
  (∀ s, P (c, s)) →
  get_column c (filter P df) = get_column c df.
Proof.
  intros Hc. induction df as [|[n s] df IH]; [done|].
  rewrite filter_cons. simpl. destruct (decide (n = c)) as [->|Hne].
  - rewrite decide_True by done. simpl. by rewrite decide_True.
  - case_decide; simpl; [by rewrite decide_False|done].
Qed.

(** A column of the right frame, after the merge: its cells in the matched
    rows, null where there is no match. *)
Lemma merge_left_get_r left right lo ro sx sy out c s :
  merge_left left right lo ro (sx, sy) = Ok out →
  get_column c right = Ok s →
  has_column c left = false →
  ¬ (lo = ro ∧ c = lo) →
  (∀ n, n ∈ columns right → n +:+ sx ≠ c) →
  (∀ n, n ∈ columns right → n +:+ sy = c → n = c) →
  ∃ lk rk,
    get_column lo left = Ok lk ∧ get_column ro right = Ok rk
    ∧ get_column c out
      = Ok (take_rows_opt ((join_rows (values lk) (values rk)).*2) s).
Proof.
  intros (lk & rk & Hlk & Hrk & ->)%merge_left_Ok Hs Hleft Hkey Hsx Hsy.
  exists lk, rk. split; [done|]. split; [done|].
  rewrite get_column_app.
  rewrite (get_column_map_absent (merged_label left right lo ro sx)).
  2:{ intros n Hn. unfold merged_label.
      destruct (has_column n right) eqn:Hr.
      - case_match; [apply Hsx; by apply bool_decide_eq_true in Hr|].
        intros ->. unfold has_column in Hleft.
        by apply bool_decide_eq_false in Hleft.
      - rewrite andb_false_r. simpl. intros ->. unfold has_column in Hleft.
        by apply bool_decide_eq_false in Hleft. }
  apply (get_column_map_Ok (merged_label left right lo ro sy)).
  - rewrite get_column_filter; [done|]. intros s0. simpl.
    intros [Hlo%bool_decide_eq_true Hc%bool_decide_eq_true]%Is_true_true%andb_true_iff.
    by apply Hkey.
  - unfold merged_label. by rewrite Hleft.
  - intros n Hn. unfold merged_label.
    assert (n ∈ columns right) as Hn'.
    { unfold columns in *. apply list_elem_of_fmap in Hn as ([n' s'] & -> & Hin).
      apply list_elem_of_filter in Hin as [_ Hin].
      apply list_elem_of_fmap. by exists (n', s'). }
    case_match; [by apply Hsy|done].
Qed.

Lemma merge_left_success left right lo ro sfx lk rk :
  get_column lo left = Ok lk → get_column ro right = Ok rk →
  ∃ out, merge_left left right lo ro sfx = Ok out.
Proof. intros Hlk Hrk. unfold merge_left. rewrite Hrk, Hlk. simpl. eauto. Qed.

Lemma merge_left_col left right lo ro sx sy out lk rk c s :
  merge_left left right lo ro (sx, sy) = Ok out →
  get_column lo left = Ok lk → get_column ro right = Ok rk →
  get_column c left = Ok s →
  has_column c right = false ∨ (lo = ro ∧ c = lo) →
  Forall (λ n, n +:+ sx = c → n = c) (columns right) →
  get_column c out = Ok (take_rows ((join_rows (values lk) (values rk)).*1) s).
Proof.
  intros Hout Hlk Hrk Hs Hc Hsfx.
  destruct (merge_left_get_l _ _ _ _ _ _ _ c s Hout Hs)
    as (lk' & rk' & Hlk' & Hrk' & ->).
  - unfold merged_label. destruct Hc as [->|[-> ->]].
    + by rewrite andb_false_r.
    + rewrite !bool_decide_eq_true_2 by done. simpl. by rewrite andb_false_r.
  - rewrite Forall_forall in Hsfx. done.
  - congruence.
Qed.

Lemma merge_left_col_r left right lo ro sx sy out lk rk c s :
  merge_left left right lo ro (sx, sy) = Ok out →
  get_column lo left = Ok lk → get_column ro right = Ok rk →
  get_column c right = Ok s →
  has_column c left = false →
  ¬ (lo = ro ∧ c = lo) →
  Forall (λ n, n +:+ sx ≠ c ∧ (n +:+ sy = c → n = c)) (columns right) →
  get_column c out
  = Ok (take_rows_opt ((join_rows (values lk) (values rk)).*2) s).
Proof.
  intros Hout Hlk Hrk Hs Hc Hkey Hsfx. rewrite Forall_forall in Hsfx.
  destruct (merge_left_get_r _ _ _ _ _ _ _ c s Hout Hs Hc Hkey)
    as (lk' & rk' & Hlk' & Hrk' & ->).
  - intros n Hn. by apply Hsfx.
  - intros n Hn. by apply Hsfx.
  - congruence.
Qed.

(** Conditions on the labels of a frame whose columns are known. *)
Ltac labels :=
  repeat (apply Forall_cons; split); try apply Forall_nil;
  cbv; repeat split; (done || discriminate || congruence).

(** When the keys of the right frame are unique, the columns of the left
    frame go through the merge as they are. *)
Lemma take_rows_unique n lk rk s :
  NoDup rk → length lk = n → length (values s) = n →
  take_rows ((join_rows lk rk).*1) s = s.
Proof.
  intros Hnd Hlk Hs. rewrite join_rows_unique by done.
  rewrite Hlk, <- Hs. apply take_rows_seq.
Qed.

Lemma join_rows_unique_length lk rk :
  NoDup rk → length (join_rows lk rk) = length lk.
Proof.
  intros Hnd. rewrite <- (length_fmap fst), join_rows_unique by done.
  apply length_seq.
Qed.

(** ** Product sales *)

Section ventas_por_producto.
Context (detalles productos ordenes : DataFrame).
Context (dp dord dc ds pp pn oo ofe oe : Series).
Context (Hdp : get_column "id_producto" detalles = Ok dp).
Context (Hdord : get_column "id_orden" detalles = Ok dord).
Context (Hdc : get_column "cantidad" detalles = Ok dc).
Context (Hds : get_column "subtotal" detalles = Ok ds).
Context (Hdn : has_column "nombre_producto" detalles = false).
Context (Hpp : get_column "id_producto" productos = Ok pp).
Context (Hpn : get_column "nombre_producto" productos = Ok pn).
Context (Hoo : get_column "id_orden" ordenes = Ok oo).
Context (Hofe : get_column "fecha_orden" ordenes = Ok ofe).
Context (Hoe : get_column "estado" ordenes = Ok oe).

Lemma ventas_por_producto_run :
  let idx1 := join_rows (values dp) (values pp) in
  let idx2 := join_rows (values (take_rows (idx1.*1) dord)) (values oo) in
  let col s := take_rows (idx2.*1) (take_rows (idx1.*1) s) in
  let keys := values (col dp) in
  let gk := group_keys keys in
  let ingresos := agg_column Sum gk keys (col ds) in
  let num := agg_column Count gk keys (col dord) in
  DataLoader._create_ventas_por_producto detalles productos ordenes
  = Ok [("id_producto", mkSeries (dtype_of (col dp)) gk);
        ("nombre_producto",
         agg_column First gk keys
           (take_rows (idx2.*1) (take_rows_opt (idx1.*2) pn)));
        ("cantidad_total", agg_column Sum gk keys (col dc));
        ("ingresos_totales", ingresos);
        ("num_ordenes", num);
        ("ticket_promedio", series_div ingresos num)].
Proof.
  intros idx1 idx2 col keys gk ingresos num.
  unfold DataLoader._create_ventas_por_producto. simpl.
  rewrite Hpp, Hpn. simpl.
  set (R1 := [("id_producto", pp); ("nombre_producto", pn)]).
  destruct (merge_left_success detalles R1 "id_producto" "id_producto"
              ("_x", "_y") dp pp Hdp eq_refl) as [df1 Hdf1].
  rewrite Hdf1. simpl. rewrite Hoo, Hofe, Hoe. simpl.
  set (R2 := [("id_orden", oo); ("fecha_orden", ofe); ("estado", oe)]).
  assert (∀ c s, get_column c detalles = Ok s →
            has_column c R1 = false ∨ ("id_producto" = "id_producto" ∧ c = "id_producto") →
            Forall (λ n, n +:+ "_x" = c → n = c) (columns R1) →
            get_column c df1 = Ok (take_rows (idx1.*1) s)) as Hleft1.
  { intros c s Hs Hc Hl.
    by apply (merge_left_col _ _ _ _ _ _ _ dp pp c s Hdf1 Hdp eq_refl). }
  pose proof (Hleft1 _ _ Hdp (or_intror (conj eq_refl eq_refl)) ltac:(labels))
    as Hdp1.
  pose proof (Hleft1 _ _ Hdord (or_introl eq_refl) ltac:(labels)) as Hdord1.
  pose proof (Hleft1 _ _ Hdc (or_introl eq_refl) ltac:(labels)) as Hdc1.
  pose proof (Hleft1 _ _ Hds (or_introl eq_refl) ltac:(labels)) as Hds1.
  assert (get_column "nombre_producto" df1 = Ok (take_rows_opt (idx1.*2) pn))
    as Hpn1.
  { apply (merge_left_col_r _ _ _ _ _ _ _ dp pp "nombre_producto" pn Hdf1 Hdp
             eq_refl eq_refl Hdn).
    - intros [_ [=]].
    - labels. }
  destruct (merge_left_success df1 R2 "id_orden" "id_orden"
              ("_x", "_y") _ oo Hdord1 eq_refl) as [df2 Hdf2].
  rewrite Hdf2. simpl.
  assert (∀ c s, get_column c df1 = Ok s →
            has_column c R2 = false ∨ ("id_orden" = "id_orden" ∧ c = "id_orden") →
            Forall (λ n, n +:+ "_x" = c → n = c) (columns R2) →
            get_column c df2 = Ok (take_rows (idx2.*1) s)) as Hleft2.
  { intros c s Hs Hc Hl.
    by apply (merge_left_col _ _ _ _ _ _ _ _ oo c s Hdf2 Hdord1 eq_refl). }
  pose proof (Hleft2 _ _ Hdp1 (or_introl eq_refl) ltac:(labels)) as Hdp2.
  pose proof (Hleft2 _ _ Hdord1 (or_intror (conj eq_refl eq_refl)) ltac:(labels))
    as Hdord2.
  pose proof (Hleft2 _ _ Hdc1 (or_introl eq_refl) ltac:(labels)) as Hdc2.
  pose proof (Hleft2 _ _ Hds1 (or_introl eq_refl) ltac:(labels)) as Hds2.
  pose proof (Hleft2 _ _ Hpn1 (or_introl eq_refl) ltac:(labels)) as Hpn2.
  unfold groupby_agg. rewrite Hdp2. simpl.
  rewrite Hpn2, Hdc2, Hds2, Hdord2. simpl. done.
Qed.

End ventas_por_producto.

(** ** Material usage *)

Section uso_materiales_agregado.
Context (uso materiales ordenes : DataFrame).
Context (um uord uc mm mn mt md oo ofe : Series).
Context (Hum : get_column "id_material" uso = Ok um).
Context (Huord : get_column "id_orden" uso = Ok uord).
Context (Huc : get_column "cantidad_usada" uso = Ok uc).
Context (Hun : has_column "nombre_material" uso = false).
Context (Hut : has_column "tipo" uso = false).
Context (Hud : has_column "cantidad_disponible" uso = false).
Context (Hmm : get_column "id_material" materiales = Ok mm).
Context (Hmn : get_column "nombre_material" materiales = Ok mn).
Context (Hmt : get_column "tipo" materiales = Ok mt).
Context (Hmd : get_column "cantidad_disponible" materiales = Ok md).
Context (Hoo : get_column "id_orden" ordenes = Ok oo).
Context (Hofe : get_column "fecha_orden" ordenes = Ok ofe).

Lemma uso_materiales_agregado_run :
  let idx1 := join_rows (values um) (values mm) in
  let idx2 := join_rows (values (take_rows (idx1.*1) uord)) (values oo) in
  let col s := take_rows (idx2.*1) (take_rows (idx1.*1) s) in
  let looked s := take_rows (idx2.*1) (take_rows_opt (idx1.*2) s) in
  let keys := values (col um) in
  let gk := group_keys keys in
  let disponible := agg_column First gk keys (looked md) in
  let usada := agg_column Sum gk keys (col uc) in
  DataLoader._create_uso_materiales_agregado uso materiales ordenes
  = Ok [("id_material", mkSeries (dtype_of (col um)) gk);
        ("nombre_material", agg_column First gk keys (looked mn));
        ("tipo", agg_column First gk keys (looked mt));
        ("cantidad_disponible", disponible);
        ("cantidad_total_usada", usada);
        ("num_ordenes", agg_column Count gk keys (col uord));
        ("tasa_rotacion", fillna0 (series_div usada disponible))].
Proof.
  intros idx1 idx2 col looked keys gk disponible usada.
  unfold DataLoader._create_uso_materiales_agregado. simpl.
  rewrite Hmm, Hmn, Hmt, Hmd. simpl.
  set (R1 := [("id_material", mm); ("nombre_material", mn); ("tipo", mt);
              ("cantidad_disponible", md)]).
  destruct (merge_left_success uso R1 "id_material" "id_material"
              ("_x", "_y") um mm Hum eq_refl) as [df1 Hdf1].
  rewrite Hdf1. simpl. rewrite Hoo, Hofe. simpl.
  set (R2 := [("id_orden", oo); ("fecha_orden", ofe)]).
  assert (∀ c s, get_column c uso = Ok s →
            has_column c R1 = false
            ∨ ("id_material" = "id_material" ∧ c = "id_material") →
            Forall (λ n, n +:+ "_x" = c → n = c) (columns R1) →
            get_column c df1 = Ok (take_rows (idx1.*1) s)) as Hleft1.
  { intros c s Hs Hc Hl.
    by apply (merge_left_col _ _ _ _ _ _ _ um mm c s Hdf1 Hum eq_refl). }
  assert (∀ c s, get_column c R1 = Ok s → has_column c uso = false →
            ¬ ("id_material" = "id_material" ∧ c = "id_material") →
            Forall (λ n, n +:+ "_x" ≠ c ∧ (n +:+ "_y" = c → n = c))
              (columns R1) →
            get_column c df1 = Ok (take_rows_opt (idx1.*2) s)) as Hright1.
  { intros c s Hs Hc Hk Hl.
    by apply (merge_left_col_r _ _ _ _ _ _ _ um mm c s Hdf1 Hum eq_refl). }
  pose proof (Hleft1 _ _ Hum (or_intror (conj eq_refl eq_refl)) ltac:(labels))
    as Hum1.
  pose proof (Hleft1 _ _ Huord (or_introl eq_refl) ltac:(labels)) as Huord1.
  pose proof (Hleft1 _ _ Huc (or_introl eq_refl) ltac:(labels)) as Huc1.
  pose proof (Hright1 "nombre_material" mn eq_refl Hun
                ltac:(by intros [_ [=]]) ltac:(labels)) as Hmn1.
  pose proof (Hright1 "tipo" mt eq_refl Hut
                ltac:(by intros [_ [=]]) ltac:(labels)) as Hmt1.
  pose proof (Hright1 "cantidad_disponible" md eq_refl Hud
                ltac:(by intros [_ [=]]) ltac:(labels)) as Hmd1.
  destruct (merge_left_success df1 R2 "id_orden" "id_orden"
              ("_x", "_y") _ oo Huord1 eq_refl) as [df2 Hdf2].
  rewrite Hdf2. simpl.
  assert (∀ c s, get_column c df1 = Ok s →
            has_column c R2 = false ∨ ("id_orden" = "id_orden" ∧ c = "id_orden") →
            Forall (λ n, n +:+ "_x" = c → n = c) (columns R2) →
            get_column c df2 = Ok (take_rows (idx2.*1) s)) as Hleft2.
  { intros c s Hs Hc Hl.
    by apply (merge_left_col _ _ _ _ _ _ _ _ oo c s Hdf2 Huord1 eq_refl). }
  pose proof (Hleft2 _ _ Hum1 (or_introl eq_refl) ltac:(labels)) as Hum2.
  pose proof (Hleft2 _ _ Huord1 (or_intror (conj eq_refl eq_refl)) ltac:(labels))
    as Huord2.
  pose proof (Hleft2 _ _ Huc1 (or_introl eq_refl) ltac:(labels)) as Huc2.
  pose proof (Hleft2 _ _ Hmn1 (or_introl eq_refl) ltac:(labels)) as Hmn2.
  pose proof (Hleft2 _ _ Hmt1 (or_introl eq_refl) ltac:(labels)) as Hmt2.
  pose proof (Hleft2 _ _ Hmd1 (or_introl eq_refl) ltac:(labels)) as Hmd2.
  unfold groupby_agg. rewrite Hum2. simpl.
  rewrite Hmn2, Hmt2, Hmd2, Huc2, Huord2. simpl. done.
Qed.

End uso_materiales_agregado.

(** ** Customer metrics *)

Section metricas_por_cliente.
Context (ordenes detalles clientes : DataFrame).
Context (oo oc ofe dord ds cid cn cc : Series).
Context (Hoo : get_column "id_orden" ordenes = Ok oo).
Context (Hoc : get_column "id_cliente" ordenes = Ok oc).
Context (Hofe : get_column "fecha_orden" ordenes = Ok ofe).
Context (Hot : has_column "total_orden" ordenes = false).
Context (Hdord : get_column "id_orden" detalles = Ok dord).
Context (Hds : get_column "subtotal" detalles = Ok ds).
Context (Hcid : get_column "id_cliente" clientes = Ok cid).
Context (Hcn : get_column "nombre_empresa" clientes = Ok cn).
Context (Hcc : get_column "ciudad" clientes = Ok cc).

Lemma metricas_por_cliente_run :
  let okeys := values dord in
  let ogk := group_keys okeys in
  let idx1 := join_rows (values oo) ogk in
  let total_orden := take_rows_opt (idx1.*2) (agg_column Sum ogk okeys ds) in
  let col s := take_rows (idx1.*1) s in
  let keys := values (col oc) in
  let gk := group_keys keys in
  let idx := join_rows gk (values cid) in
  let ingresos := take_rows (idx.*1) (agg_column Sum gk keys total_orden) in
  let num := take_rows (idx.*1) (agg_column Count gk keys (col oo)) in
  DataLoader._create_metricas_por_cliente ordenes detalles clientes
  = Ok [("id_cliente", take_rows (idx.*1) (mkSeries (dtype_of (col oc)) gk));
        ("num_ordenes", num);
        ("ingresos_totales", ingresos);
        ("primera_orden",
         take_rows (idx.*1) (agg_column Min gk keys (col ofe)));
        ("ultima_orden",
         take_rows (idx.*1) (agg_column Max gk keys (col ofe)));
        ("nombre_empresa", take_rows_opt (idx.*2) cn);
        ("ciudad", take_rows_opt (idx.*2) cc);
        ("ticket_promedio", series_div ingresos num)].
Proof.
  intros okeys ogk idx1 total_orden col keys gk idx ingresos num.
  unfold DataLoader._create_metricas_por_cliente, groupby_agg.
  rewrite Hdord. simpl. rewrite Hds. simpl.
  set (R1 := [("id_orden", mkSeries (dtype_of dord) ogk);
              ("total_orden", agg_column Sum ogk okeys ds)]).
  destruct (merge_left_success ordenes R1 "id_orden" "id_orden"
              ("_x", "_y") oo _ Hoo eq_refl) as [df1 Hdf1].
  erewrite bind_Ok_l by exact Hdf1.
  assert (∀ c s, get_column c ordenes = Ok s →
            has_column c R1 = false ∨ ("id_orden" = "id_orden" ∧ c = "id_orden") →
            Forall (λ n, n +:+ "_x" = c → n = c) (columns R1) →
            get_column c df1 = Ok (take_rows (idx1.*1) s)) as Hleft1.
  { intros c s Hs Hc Hl.
    by apply (merge_left_col _ _ _ _ _ _ _ oo _ c s Hdf1 Hoo eq_refl). }
  pose proof (Hleft1 _ _ Hoo (or_intror (conj eq_refl eq_refl)) ltac:(labels))
    as Hoo1.
  pose proof (Hleft1 _ _ Hoc (or_introl eq_refl) ltac:(labels)) as Hoc1.
  pose proof (Hleft1 _ _ Hofe (or_introl eq_refl) ltac:(labels)) as Hofe1.
  assert (get_column "total_orden" df1 = Ok total_orden) as Htot1.
  { apply (merge_left_col_r _ _ _ _ _ _ _ oo _ "total_orden" _ Hdf1 Hoo
             eq_refl eq_refl Hot).
    - by intros [_ [=]].
    - labels. }
  rewrite Hoc1. simpl. rewrite Hoo1, Htot1, Hofe1. simpl.
  rewrite Hcid, Hcn, Hcc. simpl.
  unfold merge_left. simpl. done.
Qed.

End metricas_por_cliente.

(** ** Complete orders *)


Section ordenes_completas.
Context (ordenes clientes empleados : DataFrame).
Context (oc oresp cid cn cc eid en ec : Series).
Context (Hoc : get_column "id_cliente" ordenes = Ok oc).
Context (Horesp : get_column "id_empleado_responsable" ordenes = Ok oresp).
Context (Hcid : get_column "id_cliente" clientes = Ok cid).
Context (Hcn : get_column "nombre_empresa" clientes = Ok cn).
Context (Hcc : get_column "ciudad" clientes = Ok cc).
Context (Heid : get_column "id_empleado" empleados = Ok eid).
Context (Hen : get_column "nombre" empleados = Ok en).
Context (Hec : get_column "cargo" empleados = Ok ec).

Lemma ordenes_completas_run :
  let idx1 := join_rows (values oc) (values cid) in
  let idx2 := join_rows (values (take_rows (idx1.*1) oresp)) (values eid) in
  ∃ out,
    DataLoader._create_ordenes_completas ordenes clientes empleados = Ok out
    ∧ frame_rows (length idx2) out
    ∧ ∀ c s, c ∈ order_columns → get_column c ordenes = Ok s →
        get_column c out = Ok (take_rows (idx2.*1) (take_rows (idx1.*1) s)).
Proof.
  intros idx1 idx2.
  unfold DataLoader._create_ordenes_completas. simpl.
  rewrite Hcid, Hcn, Hcc. simpl.
  set (R1 := [("id_cliente", cid); ("nombre_empresa", cn); ("ciudad", cc)]).
  destruct (merge_left_success ordenes R1 "id_cliente" "id_cliente"
              ("_x", "_y") oc cid Hoc eq_refl) as [df1 Hdf1].
  rewrite Hdf1. simpl. rewrite Heid, Hen, Hec. simpl.
  set (R2 := [("id_empleado", eid); ("nombre", en); ("cargo", ec)]).
  assert (∀ c s, get_column c ordenes = Ok s →
            has_column c R1 = false
            ∨ ("id_cliente" = "id_cliente" ∧ c = "id_cliente") →
            Forall (λ n, n +:+ "_x" = c → n = c) (columns R1) →
            get_column c df1 = Ok (take_rows (idx1.*1) s)) as Hleft1.
  { intros c s Hs Hc Hl.
    by apply (merge_left_col _ _ _ _ _ _ _ oc cid c s Hdf1 Hoc eq_refl). }
  pose proof (Hleft1 _ _ Horesp (or_introl eq_refl) ltac:(labels)) as Horesp1.
  destruct (merge_left_success df1 R2 "id_empleado_responsable" "id_empleado"
              ("", "_empleado") _ eid Horesp1 eq_refl) as [df2 Hdf2].
  rewrite Hdf2. simpl.
  assert (∀ c s, get_column c df1 = Ok s →
            has_column c R2 = false →
            Forall (λ n, n +:+ "" = c → n = c) (columns R2) →
            get_column c df2 = Ok (take_rows (idx2.*1) s)) as Hleft2.
  { intros c s Hs Hc Hl.
    apply (merge_left_col _ _ _ _ _ _ _ _ eid c s Hdf2 Horesp1 eq_refl);
      [done|by left|done]. }
  eexists. split; [done|]. split.
  - apply frame_rows_rename.
    destruct (merge_left_rows _ _ _ _ _ _ Hdf2) as (lk & rk & Hlk & Hrk & Hrows).
    rewrite Horesp1 in Hlk. injection Hlk as <-.
    simpl in Hrk. injection Hrk as <-. done.
  - intros c s Hc Hs.
    rewrite get_column_rename.
    + unfold order_columns in Hc.
      repeat (apply elem_of_cons in Hc as [->|Hc]);
        try (by apply elem_of_nil in Hc);
        (apply Hleft2; [apply Hleft1; [done| |labels] | done | labels]);
        first [by left | by right].
    + unfold order_columns in Hc.
      repeat (apply elem_of_cons in Hc as [->|Hc]);
        by try (apply elem_of_nil in Hc).
    + intros n _. unfold order_columns in Hc. simpl.
      repeat case_decide; simpl; intros <-; try done;
      repeat (apply elem_of_cons in Hc as [Hc|Hc]); try discriminate;
        by apply elem_of_nil in Hc.
Qed.

End ordenes_completas.

(** ** Rows of the derived tables (C4) *)

Lemma cells_get c df s : get_column c df = Ok s → cells c df = values s.
Proof. unfold cells. by intros ->. Qed.

Lemma cells_head c s df : cells c ((c, s) :: df) = values s.
Proof. unfold cells. simpl. by rewrite decide_True. Qed.

Lemma has_columns_cons c cs df :
  has_columns (c :: cs) df = true →
  (∃ s, get_column c df = Ok s) ∧ has_columns cs df = true.
Proof.
  unfold has_columns. simpl. intros [Hc Hcs]%andb_true_iff.
  split; [by apply has_column_true|done].
Qed.

Lemma frame_rows_nrows n c s df :
  frame_rows n df → get_column c df = Ok s → nrows df = n.
Proof.
  destruct df as [|[c0 s0] df]; [done|]. intros Hdf _.
  by apply Forall_cons in Hdf as [Hs0 _].
Qed.

Lemma frame_rows_rectangular n c s df :
  frame_rows n df → get_column c df = Ok s → rectangular df.
Proof.
  intros Hdf Hs. unfold rectangular.
  by rewrite (frame_rows_nrows _ _ _ _ Hdf Hs).
Qed.

Lemma rectangular_get c s df :
  rectangular df → get_column c df = Ok s → length (values s) = nrows df.
Proof. apply frame_rows_get. Qed.

Lemma agg_column_length f gk keys s :
  length (values (agg_column f gk keys s)) = length gk.
Proof. unfold agg_column. simpl. apply length_map. Qed.

Lemma series_div_length a b n :
  length (values a) = n → length (values b) = n →
  length (values (series_div a b)) = n.
Proof.
  intros Ha Hb. unfold series_div. simpl. rewrite length_zip_with. lia.
Qed.

Lemma fillna0_length a : length (values (fillna0 a)) = length (values a).
Proof. unfold fillna0. simpl. apply length_map. Qed.

Lemma series_times100_length a :
  length (values (series_times100 a)) = length (values a).
Proof. unfold series_times100. simpl. apply length_map. Qed.

Lemma series_round2_length a :
  length (values (series_round2 a)) = length (values a).
Proof. unfold series_round2. simpl. apply length_map. Qed.

(** The cells of a left column after a join: those it had, each at least
    once. *)
Lemma join_rows_elements lk rk s v :
  length (values s) = length lk →
  v ∈ values (take_rows ((join_rows lk rk).*1) s) ↔ v ∈ values s.
Proof.
  intros Hlen. apply take_rows_elements. intros j.
  rewrite Hlen. apply join_rows_left.
Qed.

Lemma join_rows_take_length lk rk s :
  length (values (take_rows ((join_rows lk rk).*1) s)) = length (join_rows lk rk).
Proof. by rewrite take_rows_length, length_fmap. Qed.

(** The groups of two lists with the same non-null cells are as many. *)
Lemma group_keys_length_ext l1 l2 :
  (∀ k, k ∈ l1 ↔ k ∈ l2) → length (group_keys l1) = length (group_keys l2).
Proof.
  intros Heq. apply Permutation_length, NoDup_Permutation;
    [apply group_keys_NoDup..|].
  intros k. rewrite !group_keys_spec. by rewrite Heq.
Qed.

Lemma lacks_columns_cons c cs df :
  lacks_columns (c :: cs) df = true →
  has_column c df = false ∧ lacks_columns cs df = true.
Proof.
  unfold lacks_columns. simpl. intros [Hc Hcs]%andb_true_iff.
  split; [by apply negb_true_iff|done].
Qed.

Tactic Notation "column" ident(s) ident(Hs) "of" hyp(H) :=
  apply has_columns_cons in H as [[s Hs] H].

Tactic Notation "no_column" ident(Hs) "of" hyp(H) :=
  apply lacks_columns_cons in H as [Hs H].

Lemma series_div_length_min a b :
  length (values (series_div a b))
  = length (values a) `min` length (values b).
Proof. unfold series_div. simpl. apply length_zip_with. Qed.

Ltac lengths :=
  cbn beta iota delta [nrows values fst snd];
  rewrite ?series_round2_length, ?series_times100_length, ?fillna0_length,
    ?series_div_length_min, ?take_rows_length, ?take_rows_opt_length,
    ?agg_column_length, ?length_fmap;
  cbn beta iota delta [values]; try (done || lia).

(** A frame whose columns are listed is rectangular when they all have the
    length of the first. *)
Ltac rectangle :=
  unfold rectangular; repeat (apply Forall_cons; split);
  try apply Forall_nil; lengths.

(** C4, counterexample.  Two customers carry the id of the customer of
    both orders (the cleaning of customers leaves such a table as it is):
    the table of complete orders has four rows for the two orders. *)
Lemma complete_orders_repeat_an_order :
  transform_clientes clientes_repeated_id = Ok clientes_repeated_id
  ∧ ∃ out,
      DataLoader._create_ordenes_completas ordenes_limpio clientes_repeated_id
        empleados_limpio = Ok out
      ∧ nrows ordenes_limpio = 2
      ∧ nrows out = 4
      ∧ cells "id_orden" out = values (int_column [1; 1; 2; 2]%Z).
Proof. split; [|eexists; repeat split]; vm_compute; reflexivity. Qed.

(** The rows of the derived tables in the embedding, where a merge goes
    through whenever its columns are there. *)
Lemma primary_rows_run
    (ordenes clientes empleados detalles productos uso materiales : DataFrame) :
  rectangular ordenes →
  has_columns order_columns ordenes = true →
  has_column "total_orden" ordenes = false →
  has_columns ["id_cliente"; "nombre_empresa"; "ciudad"] clientes = true →
  has_columns ["id_empleado"; "nombre"; "cargo"] empleados = true →
  has_columns ["id_orden"; "id_producto"; "cantidad"; "subtotal"] detalles
  = true →
  has_column "nombre_producto" detalles = false →
  has_columns ["id_producto"; "nombre_producto"] productos = true →
  has_columns ["id_orden"; "id_material"; "cantidad_usada"] uso = true →
  lacks_columns ["nombre_material"; "tipo"; "cantidad_disponible"] uso = true →
  has_columns ["id_material"; "nombre_material"; "tipo"; "cantidad_disponible"]
    materiales = true →
  (∃ out,
     DataLoader._create_ordenes_completas ordenes clientes empleados = Ok out
     ∧ rectangular out
     ∧ nrows ordenes ≤ nrows out
     ∧ (∀ v, v ∈ cells "id_orden" out ↔ v ∈ cells "id_orden" ordenes)
     ∧ (NoDup (cells "id_cliente" clientes) →
        NoDup (cells "id_empleado" empleados) →
        nrows out = nrows ordenes
        ∧ ∀ c, c ∈ order_columns → get_column c out = get_column c ordenes))
  ∧ (∃ out,
       DataLoader._create_ventas_por_producto detalles productos ordenes
       = Ok out
       ∧ rectangular out
       ∧ NoDup (cells "id_producto" out)
       ∧ ∀ k, k ∈ cells "id_producto" out
              ↔ k ≠ NA ∧ k ∈ cells "id_producto" detalles)
  ∧ (∃ out,
       DataLoader._create_uso_materiales_agregado uso materiales ordenes
       = Ok out
       ∧ rectangular out
       ∧ NoDup (cells "id_material" out)
       ∧ ∀ k, k ∈ cells "id_material" out
              ↔ k ≠ NA ∧ k ∈ cells "id_material" uso)
  ∧ (∃ out,
       DataLoader._create_metricas_por_cliente ordenes detalles clientes
       = Ok out
       ∧ rectangular out
       ∧ (∀ k, k ∈ cells "id_cliente" out
               ↔ k ≠ NA ∧ k ∈ cells "id_cliente" ordenes)
       ∧ (NoDup (cells "id_cliente" clientes) →
          NoDup (cells "id_cliente" out)))
  ∧ (∃ out,
       DataLoader._create_productividad_empleados ordenes empleados = Ok out
       ∧ rectangular out
       ∧ (∀ k, k ∈ cells "id_empleado" out
               ↔ k ≠ NA ∧ k ∈ cells "id_empleado_responsable" ordenes)
       ∧ (NoDup (cells "id_empleado" empleados) →
          NoDup (cells "id_empleado" out))).
Proof.
  intros Hrect Ho Hot Hc He Hd Hdn Hp Hu Hun Hm. unfold order_columns in Ho.
  column oo Hoo of Ho. column oc Hoc of Ho. column oresp Horesp of Ho.
  column ofe Hofe of Ho. column oe Hoe of Ho.
  column cid Hcid of Hc. column cn Hcn of Hc. column cc Hcc of Hc.
  column eid Heid of He. column en Hen of He. column ec Hec of He.
  column dord Hdord of Hd. column dp Hdp of Hd. column dc Hdc of Hd.
  column ds Hds of Hd.
  column pp Hpp of Hp. column pn Hpn of Hp.
  column uord Huord of Hu. column um Hum of Hu. column uc Huc of Hu.
  no_column Hun1 of Hun. no_column Hun2 of Hun. no_column Hun3 of Hun.
  column mm Hmm of Hm. column mn Hmn of Hm. column mt Hmt of Hm.
  column md Hmd of Hm.
  pose proof (rectangular_get _ _ _ Hrect Hoo) as Hloo.
  pose proof (rectangular_get _ _ _ Hrect Hoc) as Hloc.
  pose proof (rectangular_get _ _ _ Hrect Horesp) as Hloresp.
  rewrite (cells_get _ _ _ Hcid), (cells_get _ _ _ Heid),
    (cells_get _ _ _ Hoo), (cells_get _ _ _ Hoc), (cells_get _ _ _ Horesp),
    (cells_get _ _ _ Hdp), (cells_get _ _ _ Hum).
  split; [|split; [|split; [|split]]].
  - (* complete orders *)
    destruct (ordenes_completas_run ordenes clientes empleados
                _ _ _ _ _ _ _ _ Hoc Horesp Hcid Hcn Hcc Heid Hen Hec)
      as (out & Hout & Hrows & Hcols).
    set (idx1 := join_rows (values oc) (values cid)) in *.
    set (idx2 := join_rows (values (take_rows idx1.*1 oresp)) (values eid)) in *.
    assert (get_column "id_orden" out
            = Ok (take_rows idx2.*1 (take_rows idx1.*1 oo))) as Hoo'.
    { apply Hcols; [|done]. unfold order_columns. set_solver. }
    pose proof (frame_rows_nrows _ _ _ _ Hrows Hoo') as Hn.
    exists out. split; [done|]. split; [by eapply frame_rows_rectangular|].
    split; [|split].
    + rewrite Hn. etrans; [|apply join_rows_length].
      rewrite take_rows_length, length_fmap.
      etrans; [|apply join_rows_length]. lia.
    + intros v. rewrite (cells_get _ _ _ Hoo').
      unfold idx2. rewrite join_rows_elements by lengths.
      unfold idx1. rewrite join_rows_elements by lia. done.
    + intros Hcu Heu.
      assert (idx1.*1 = seq 0 (nrows ordenes)) as H1.
      { unfold idx1. rewrite join_rows_unique by done. by rewrite Hloc. }
      assert (idx2.*1 = seq 0 (nrows ordenes)) as H2.
      { unfold idx2. rewrite join_rows_unique by done.
        by rewrite take_rows_length, H1, length_seq. }
      split.
      * rewrite Hn, <- (length_fmap fst), H2. apply length_seq.
      * intros c Hin.
        assert (∃ s, get_column c ordenes = Ok s) as [s Hs].
        { pose proof Hin as Hin'. unfold order_columns in Hin'.
          repeat (apply elem_of_cons in Hin' as [->|Hin']); eauto.
          by apply elem_of_nil in Hin'. }
        rewrite (Hcols c s Hin Hs), Hs, H1, H2.
        pose proof (rectangular_get _ _ _ Hrect Hs) as Hls.
        rewrite <- Hls, !take_rows_seq. done.
  - (* product sales *)
    pose proof (ventas_por_producto_run detalles productos ordenes
                  _ _ _ _ _ _ _ _ _ Hdp Hdord Hdc Hds Hdn Hpp Hpn Hoo Hofe Hoe)
      as Hout.
    cbv beta zeta in Hout. eexists. split; [exact Hout|].
    split; [rectangle|]. rewrite cells_head. cbn [values].
    split; [apply group_keys_NoDup|].
    intros k. rewrite group_keys_spec.
    rewrite !join_rows_elements by lengths. done.
  - (* material usage *)
    pose proof (uso_materiales_agregado_run uso materiales ordenes
                  _ _ _ _ _ _ _ _ _ Hum Huord Huc Hun1 Hun2 Hun3
                  Hmm Hmn Hmt Hmd Hoo Hofe) as Hout.
    cbv beta zeta in Hout. eexists. split; [exact Hout|].
    split; [rectangle|]. rewrite cells_head. cbn [values].
    split; [apply group_keys_NoDup|].
    intros k. rewrite group_keys_spec.
    rewrite !join_rows_elements by lengths. done.
  - (* customer metrics *)
    pose proof (metricas_por_cliente_run ordenes detalles clientes
                  _ _ _ _ _ _ _ _ Hoo Hoc Hofe Hot Hdord Hds Hcid Hcn Hcc)
      as Hout.
    cbv beta zeta in Hout. eexists. split; [exact Hout|].
    split; [rectangle|]. rewrite cells_head. cbn [values]. split.
    + intros k. rewrite join_rows_elements by done. cbn [values].
      rewrite group_keys_spec, join_rows_elements by lia. done.
    + intros Hcu. erewrite take_rows_unique; [apply group_keys_NoDup|done..].
  - (* employee productivity *)
    pose proof (productividad_empleados_run ordenes empleados
                  _ _ _ _ _ _ Horesp Hoo Hoe Heid Hen Hec) as Hout.
    cbv beta zeta in Hout. eexists. split; [exact Hout|].
    split; [rectangle|]. rewrite cells_head. cbn [values]. split.
    + intros k. rewrite join_rows_elements by done. cbn [values].
      by rewrite group_keys_spec.
    + intros Heu. erewrite take_rows_unique; [apply group_keys_NoDup|done..].
Qed.

(** C4 (as amended).  On cleaned entities with the columns the builders
    read, no left join drops a row of the primary entity in a derived table
    that is built: the complete orders show every order id of the orders
    and have at least as many rows; the aggregated tables show every
    non-null id of the grouped dimension.  The rows are exactly those of the
    primary entity where the looked-up ids are unique: the complete orders
    are then the orders, row by row, and each aggregated table has one row
    per group (for product sales and material usage, which join before
    they group, always). *)
Theorem left_joins_keep_primary_rows
    (ordenes clientes empleados detalles productos uso materiales : DataFrame) :
  rectangular ordenes →
  has_columns order_columns ordenes = true →
  has_column "total_orden" ordenes = false →
  has_columns ["id_cliente"; "nombre_empresa"; "ciudad"] clientes = true →
  has_columns ["id_empleado"; "nombre"; "cargo"] empleados = true →
  has_columns ["id_orden"; "id_producto"; "cantidad"; "subtotal"] detalles
  = true →
  has_column "nombre_producto" detalles = false →
  has_columns ["id_producto"; "nombre_producto"] productos = true →
  has_columns ["id_orden"; "id_material"; "cantidad_usada"] uso = true →
  lacks_columns ["nombre_material"; "tipo"; "cantidad_disponible"] uso = true →
  has_columns ["id_material"; "nombre_material"; "tipo"; "cantidad_disponible"]
    materiales = true →
  (∀ out,
     DataLoader._create_ordenes_completas ordenes clientes empleados = Ok out →
     rectangular out
     ∧ nrows ordenes ≤ nrows out
     ∧ (∀ v, v ∈ cells "id_orden" out ↔ v ∈ cells "id_orden" ordenes)
     ∧ (NoDup (cells "id_cliente" clientes) →
        NoDup (cells "id_empleado" empleados) →
        nrows out = nrows ordenes
        ∧ ∀ c, c ∈ order_columns → get_column c out = get_column c ordenes))
  ∧ (∀ out,
       DataLoader._create_ventas_por_producto detalles productos ordenes
       = Ok out →
       rectangular out
       ∧ NoDup (cells "id_producto" out)
       ∧ ∀ k, k ∈ cells "id_producto" out
              ↔ k ≠ NA ∧ k ∈ cells "id_producto" detalles)
  ∧ (∀ out,
       DataLoader._create_uso_materiales_agregado uso materiales ordenes
       = Ok out →
       rectangular out
       ∧ NoDup (cells "id_material" out)
       ∧ ∀ k, k ∈ cells "id_material" out
              ↔ k ≠ NA ∧ k ∈ cells "id_material" uso)
  ∧ (∀ out,
       DataLoader._create_metricas_por_cliente ordenes detalles clientes
       = Ok out →
       rectangular out
       ∧ (∀ k, k ∈ cells "id_cliente" out
               ↔ k ≠ NA ∧ k ∈ cells "id_cliente" ordenes)
       ∧ (NoDup (cells "id_cliente" clientes) →
          NoDup (cells "id_cliente" out)))
  ∧ (∀ out,
       DataLoader._create_productividad_empleados ordenes empleados = Ok out →
       rectangular out
       ∧ (∀ k, k ∈ cells "id_empleado" out
               ↔ k ≠ NA ∧ k ∈ cells "id_empleado_responsable" ordenes)
       ∧ (NoDup (cells "id_empleado" empleados) →
          NoDup (cells "id_empleado" out))).
Proof.
  intros Hrect Ho Hot Hc He Hd Hdn Hp Hu Hun Hm.
  destruct (primary_rows_run ordenes clientes empleados detalles productos
              uso materiales Hrect Ho Hot Hc He Hd Hdn Hp Hu Hun Hm)
    as ((o1 & H1 & Hr1) & (o2 & H2 & Hr2) & (o3 & H3 & Hr3) & (o4 & H4 & Hr4)
        & (o5 & H5 & Hr5)).
  split; [|split; [|split; [|split]]]; intros out Hout;
    (rewrite H1 in Hout || rewrite H2 in Hout || rewrite H3 in Hout
     || rewrite H4 in Hout || rewrite H5 in Hout);
    injection Hout as <-; assumption.
Qed.

Lemma left_joins_keep_primary_rows_witness :
  ∃ out,
    DataLoader._create_ordenes_completas ordenes_limpio clientes_limpio
      empleados_limpio = Ok out
    ∧ nrows out = nrows ordenes_limpio.
Proof.
  eexists.
  assert (DataLoader._create_ordenes_completas ordenes_limpio clientes_limpio
            empleados_limpio = Ok _) as Hout
    by (vm_compute; reflexivity).
  split; [exact Hout|].
  refine (proj1 (proj2 (proj2 (proj2 (proj1
    (left_joins_keep_primary_rows ordenes_limpio clientes_limpio
       empleados_limpio detalles_limpio productos_limpio uso_limpio
       materiales_limpio _ _ _ _ _ _ _ _ _ _ _) _ Hout))) _ _));
    first [reflexivity | compute_done | repeat constructor].
Defined.

(** ** Sums and counts of the product sales (C5) *)

Lemma numeric_get c df :
  numeric c df = true → ∃ s, get_column c df = Ok s.
Proof. unfold numeric. destruct (get_column c df); [eauto|done]. Qed.

Lemma agg_sum_finite qs : agg_sum (finite_cells qs) = VNum (Fin (Qc_sum qs)).
Proof.
  unfold agg_sum.
  assert (∀ a, foldl (λ acc c, match c with
                               | VNum x => acc ≫= λ a, num_add a x
                               | _ => acc
                               end) (Some (Fin a)) (finite_cells qs)
               = Some (Fin (a + Qc_sum qs)%Qc)) as ->.
  - induction qs as [|q qs IH]; intros a; simpl.
    + do 2 f_equal. ring.
    + rewrite IH. do 2 f_equal. ring.
  - simpl. do 2 f_equal. ring.
Qed.

Lemma length_remove_dups {A} `{EqDecision A} (l : list A) :
  length (remove_dups l) ≤ length l.
Proof. induction l as [|x l IH]; simpl; [done|]. case_decide; simpl; lia. Qed.

Lemma length_remove_dups_NoDup {A} `{EqDecision A} (l : list A) :
  length (remove_dups l) = length l ↔ NoDup l.
Proof.
  induction l as [|x l IH]; simpl.
  { split; [constructor|done]. }
  pose proof (length_remove_dups l). rewrite NoDup_cons.
  case_decide; simpl; [split; [lia|tauto]|]. rewrite <- IH. split; [|lia].
  intros [= ?]. done.
Qed.

(** The count of the cells of a group is the count of its distinct cells
    exactly when no cell is there twice. *)
Lemma count_distinct_le vs : count_distinct vs ≤ count_notna vs.
Proof. apply length_remove_dups. Qed.

Lemma count_distinct_NoDup vs :
  count_notna vs = count_distinct vs ↔ NoDup (filter (λ v, v ≠ NA) vs).
Proof.
  unfold count_notna, count_distinct. rewrite <- length_remove_dups_NoDup.
  split; congruence.
Qed.

(** C5, counterexample.  Order 1 lists product 7 in two lines, of
    subtotals 20 and 30: the product is in one order, and its row shows 2
    orders and a mean ticket of 25, not 1 and 50. *)
Lemma product_sales_count_order_lines :
  ∃ out,
    DataLoader._create_ventas_por_producto detalles_product_twice
      productos_limpio ordenes_limpio = Ok out
    ∧ count_distinct (cells "id_orden" detalles_product_twice) = 1
    ∧ cells "id_producto" out = [int_cell 7]
    ∧ cells "ingresos_totales" out = [int_cell 50]
    ∧ cells "num_ordenes" out = [int_cell 2]
    ∧ cells "ticket_promedio" out = [int_cell 25].
Proof.
  eexists. split; [vm_compute; reflexivity|]. repeat split; compute_done.
Qed.

(** C5 (as amended).  On cleaned order lines, with product ids unique in
    the products and order ids unique in the orders, the product sales are
    built with one row per non-null product id of the order lines, in
    increasing order; in the row of a product, [cantidad_total] and
    [ingresos_totales] are the sums of the quantities and of the subtotals
    of its order lines (nulls skipped), [num_ordenes] is the number of its
    order lines that carry an order id, and [ticket_promedio] is the float
    quotient of the two.  [num_ordenes] is the number of distinct orders of
    the product exactly when no order lists the product twice, and is
    larger otherwise. *)
Theorem product_sales_aggregation (detalles productos ordenes : DataFrame) :
  rectangular detalles →
  has_columns ["id_orden"; "id_producto"] detalles = true →
  numeric "cantidad" detalles = true →
  numeric "subtotal" detalles = true →
  has_column "nombre_producto" detalles = false →
  has_columns ["id_producto"; "nombre_producto"] productos = true →
  has_columns ["id_orden"; "fecha_orden"; "estado"] ordenes = true →
  NoDup (cells "id_producto" productos) →
  NoDup (cells "id_orden" ordenes) →
  ∃ out,
    DataLoader._create_ventas_por_producto detalles productos ordenes = Ok out
    ∧ rectangular out
    ∧ cells "id_producto" out = group_keys (cells "id_producto" detalles)
    ∧ ∀ r k,
        cells "id_producto" out !! r = Some k →
        let lines c :=
          group_of k (cells "id_producto" detalles) (cells c detalles) in
        let orders := count_notna (lines "id_orden") in
        cells "cantidad_total" out !! r = Some (agg_sum (lines "cantidad"))
        ∧ cells "ingresos_totales" out !! r = Some (agg_sum (lines "subtotal"))
        ∧ cells "num_ordenes" out !! r = Some (VNum (num_of_nat orders))
        ∧ cells "ticket_promedio" out !! r
          = Some (cell_div (agg_sum (lines "subtotal"))
                    (VNum (num_of_nat orders)))
        ∧ (∀ qs, lines "cantidad" = finite_cells qs →
             cells "cantidad_total" out !! r = Some (VNum (Fin (Qc_sum qs))))
        ∧ (∀ qs, lines "subtotal" = finite_cells qs →
             cells "ingresos_totales" out !! r = Some (VNum (Fin (Qc_sum qs))))
        ∧ count_distinct (lines "id_orden") ≤ orders
        ∧ (orders = count_distinct (lines "id_orden")
           ↔ NoDup (filter (λ v, v ≠ NA) (lines "id_orden"))).
Proof.
  intros Hrect Hd Hnc Hns Hdn Hp Ho Hpu Hou.
  column dord Hdord of Hd. column dp Hdp of Hd.
  destruct (numeric_get _ _ Hnc) as [dc Hdc].
  destruct (numeric_get _ _ Hns) as [ds Hds].
  column pp Hpp of Hp. column pn Hpn of Hp.
  column oo Hoo of Ho. column ofe Hofe of Ho. column oe Hoe of Ho.
  rewrite (cells_get _ _ _ Hpp) in Hpu. rewrite (cells_get _ _ _ Hoo) in Hou.
  rewrite (cells_get _ _ _ Hdp).
  pose proof (rectangular_get _ _ _ Hrect Hdord) as Hldord.
  pose proof (rectangular_get _ _ _ Hrect Hdp) as Hldp.
  pose proof (rectangular_get _ _ _ Hrect Hdc) as Hldc.
  pose proof (rectangular_get _ _ _ Hrect Hds) as Hlds.
  pose proof (ventas_por_producto_run detalles productos ordenes
                _ _ _ _ _ _ _ _ _ Hdp Hdord Hdc Hds Hdn Hpp Hpn Hoo Hofe Hoe)
    as Hout.
  cbv beta zeta in Hout.
  rewrite !(take_rows_unique (nrows detalles) (values dp) (values pp))
    in Hout by done.
  rewrite !(take_rows_unique (nrows detalles) (values dord) (values oo) dp),
    !(take_rows_unique (nrows detalles) (values dord) (values oo) dord),
    !(take_rows_unique (nrows detalles) (values dord) (values oo) dc),
    !(take_rows_unique (nrows detalles) (values dord) (values oo) ds)
    in Hout by done.
  eexists. split; [exact Hout|]. split; [rectangle|].
  rewrite cells_head. split; [done|].
  intros r k Hk lines orders. cbn [values] in Hk.
  match goal with |- context [cells "cantidad_total" ?o] => set (out := o) end.
  assert (∀ c s, get_column c detalles = Ok s → lines c
            = group_of k (values dp) (values s)) as Hlines.
  { intros c s Hs. unfold lines. by rewrite (cells_get _ _ _ Hs). }
  assert (cells "cantidad_total" out !! r
          = Some (agg_sum (lines "cantidad"))) as Hcant.
  { erewrite cells_get by reflexivity.
    rewrite (agg_column_lookup _ _ _ _ _ _ Hk), (Hlines _ _ Hdc). done. }
  assert (cells "ingresos_totales" out !! r
          = Some (agg_sum (lines "subtotal"))) as Hing.
  { erewrite cells_get by reflexivity.
    rewrite (agg_column_lookup _ _ _ _ _ _ Hk), (Hlines _ _ Hds). done. }
  assert (cells "num_ordenes" out !! r
          = Some (VNum (num_of_nat orders))) as Hnum.
  { erewrite cells_get by reflexivity.
    rewrite (agg_column_lookup _ _ _ _ _ _ Hk). unfold orders.
    rewrite (Hlines _ _ Hdord). done. }
  split; [exact Hcant|]. split; [exact Hing|]. split; [exact Hnum|].
  split; [|split; [|split; [|split]]].
  - erewrite cells_get by reflexivity.
    erewrite series_div_lookup; [done|..].
    + rewrite (agg_column_lookup _ _ _ _ _ _ Hk), (Hlines _ _ Hds). done.
    + rewrite (agg_column_lookup _ _ _ _ _ _ Hk). unfold orders.
      rewrite (Hlines _ _ Hdord). done.
  - intros qs Hqs. rewrite Hcant, Hqs, agg_sum_finite. done.
  - intros qs Hqs. rewrite Hing, Hqs, agg_sum_finite. done.
  - apply count_distinct_le.
  - apply count_distinct_NoDup.
Qed.

Lemma product_sales_aggregation_witness :
  ∃ out,
    DataLoader._create_ventas_por_producto detalles_limpio productos_limpio
      ordenes_limpio = Ok out
    ∧ cells "id_producto" out = group_keys (cells "id_producto" detalles_limpio).
Proof.
  destruct (product_sales_aggregation detalles_limpio productos_limpio
              ordenes_limpio)
    as (out & Hout & _ & Hkeys & _);
    [repeat constructor | reflexivity.. | compute_done | compute_done |].
  by exists out.
Defined.

(** ** Ratio fields (C1) *)



Lemma percent_na : percent NA = NA.
Proof. done. Qed.







(** ** Cleaning of products *)

Section productos.
Context {reader : Parsers}.

(** The steps of [transform_productos] before the rows are filtered. *)
Lemma transform_productos_Ok df out :
  transform_productos df = Ok out ↔
  ∃ df1 df2,
    update_if_present "nombre_producto" str_strip df = Ok df1
    ∧ update_if_present "precio" (λ s, Ok (to_numeric s)) df1 = Ok df2
    ∧ match get_column "precio" df2 with
      | Ok precio =>
          let keep := map negb (map invalid_price (values precio)) in
          out = if bool_decide (0 < count_true (map invalid_price (values precio)))
                then filter_rows keep df2 else df2
      | Raise _ => out = df2
      end.
Proof.
  unfold transform_productos. rewrite bind_Ok.
  split.
  - intros (df1 & H1 & (df2 & H2 & H3)%bind_Ok). exists df1, df2.
    split; [done|]. split; [done|].
    rewrite has_column_get in H3. destruct (get_column "precio" df2) as [p|e];
      simpl in H3.
    + rewrite invalid_prices_map in H3. case_bool_decide; by injection H3.
    + by injection H3.
  - intros (df1 & df2 & H1 & H2 & H3). exists df1. split; [done|].
    rewrite H2. simpl. rewrite has_column_get.
    destruct (get_column "precio" df2) as [p|e]; simpl.
    + rewrite invalid_prices_map. simpl in H3. rewrite H3.
      by case_bool_decide.
    + by rewrite H3.
Qed.

Lemma cell_to_numeric_cases c :
  cell_to_numeric c = NA ∨ ∃ x, cell_to_numeric c = VNum x.
Proof.
  destruct c as [|y|s|t]; simpl; eauto. destruct (parse_number s); simpl; eauto.
Qed.

Lemma valid_numeric_price c :
  invalid_price (cell_to_numeric c) = false → positive_price (cell_to_numeric c).
Proof.
  unfold invalid_price, positive_price. intros [Hle Hna]%orb_false_iff.
  destruct (cell_to_numeric_cases c) as [Hc|[x Hc]]; rewrite Hc in *; [done|].
  by exists x.
Qed.

Lemma kept_prices_positive vs :
  Forall positive_price
    (keep_where (map negb (map invalid_price (map cell_to_numeric vs)))
       (map cell_to_numeric vs)).
Proof.
  induction vs as [|c vs IH]; simpl; [constructor|].
  destruct (invalid_price (cell_to_numeric c)) eqn:Hc; simpl; [done|].
  constructor; [by apply valid_numeric_price|done].
Qed.

Lemma all_valid_positive vs :
  Forall (λ b, b = false) (map invalid_price (map cell_to_numeric vs)) →
  Forall positive_price (map cell_to_numeric vs).
Proof.
  induction vs as [|c vs IH]; simpl; [constructor|].
  intros [Hc Hvs]%Forall_cons. constructor; [by apply valid_numeric_price|auto].
Qed.

(** After the cleaning every price is a number above zero. *)
Theorem cleaned_prices_are_positive df out precio :
  transform_productos df = Ok out →
  get_column "precio" out = Ok precio →
  dtype_of precio = Numeric ∧ Forall positive_price (values precio).
Proof.
  intros (df1 & df2 & H1 & H2 & H3)%transform_productos_Ok Hp.
  pose proof (update_if_present_get _ _ _ _ "precio" H2) as Hget.
  rewrite decide_True in Hget by done.
  destruct (get_column "precio" df2) as [p2|e] eqn:Hp2.
  2:{ subst out. congruence. }
  symmetry in Hget. apply bind_Ok in Hget as (p1 & Hp1 & [= <-]).
  simpl in H3. case_bool_decide as Hcount.
  - subst out. rewrite get_filter_rows, Hp2 in Hp. simpl in Hp.
    injection Hp as <-. split; [done|]. apply kept_prices_positive.
  - subst out. rewrite Hp2 in Hp. injection Hp as <-. split; [done|].
    apply all_valid_positive, count_true_0. simpl in Hcount. lia.
Qed.

End productos.

Lemma cleaned_prices_are_positive_witness :
  ∃ out precio,
    @transform_productos Reader.iso_reader productos_raw = Ok out
    ∧ get_column "precio" out = Ok precio
    ∧ Forall positive_price (values precio).
Proof.
  eexists _, _.
  assert (@transform_productos Reader.iso_reader productos_raw = Ok _) as H
    by (vm_compute; reflexivity).
  split; [exact H|]. split; [reflexivity|].
  eapply (cleaned_prices_are_positive (reader := Reader.iso_reader));
    [exact H|reflexivity].
Defined.

(** ** Rows of the cleaned tables *)

Lemma update_column_rows n c f df df' :
  length_preserving f → frame_rows n df →
  update_column c f df = Ok df' → frame_rows n df'.
Proof.
  intros Hf Hn (s & s' & Hs & Hs' & ->)%update_column_Ok.
  apply frame_rows_set; [|done]. rewrite (Hf _ _ Hs'). by eapply frame_rows_get.
Qed.

Lemma update_if_present_rows n c f df df' :
  length_preserving f → frame_rows n df →
  update_if_present c f df = Ok df' → frame_rows n df'.
Proof.
  unfold update_if_present. intros Hf Hn.
  destruct (has_column c df); [by apply update_column_rows|by intros [= <-]].
Qed.

Lemma length_preserving_str f : length_preserving (str_method f).
Proof. intros s s'. apply str_method_length. Qed.

Lemma length_preserving_bind f g :
  length_preserving f → length_preserving g →
  length_preserving (λ s, s ← f s; g s).
Proof.
  intros Hf Hg s s' (s1 & H1 & H2)%bind_Ok.
  by rewrite (Hg _ _ H2), (Hf _ _ H1).
Qed.

Lemma length_preserving_pure (g : Series → Series) :
  (∀ s, length (values (g s)) = length (values s)) →
  length_preserving (λ s, Ok (g s)).
Proof. intros Hg s s' [= <-]. apply Hg. Qed.

Lemma for_each_rows {A} n (body : DataFrame → A → result DataFrame) xs df df' :
  (∀ d x d', frame_rows n d → body d x = Ok d' → frame_rows n d') →
  frame_rows n df → for_each body xs df = Ok df' → frame_rows n df'.
Proof.
  intros Hbody Hn Hloop.
  eapply (for_each_invariant (frame_rows n)); [|exact Hn|exact Hloop].
  intros d x d' _. apply Hbody.
Qed.

Lemma suffix_duplicate_rows n d idx d' :
  frame_rows n d → suffix_duplicate d idx = Ok d' → frame_rows n d'.
Proof.
  unfold suffix_duplicate, at_get, at_set.
  intros Hn (v & (s & Hs & Hv)%bind_Ok & Hbody)%bind_Ok.
  destruct v as [| |e|]; try done.
  destruct (Py.contains "@" e); [|by injection Hbody as <-].
  destruct (Py.split "@" e) as [|name [|domain [|]]]; try done.
  rewrite Hs in Hbody. simpl in Hbody. injection Hbody as <-.
  apply frame_rows_set; [|done]. simpl. rewrite length_insert.
  by eapply frame_rows_get.
Qed.

Ltac string_steps :=
  repeat first [apply length_preserving_str | apply length_preserving_bind].

Section rows.
Context {reader : Parsers}.

Lemma fillna0_values_length s : length (values (fillna0 s)) = length (values s).
Proof. unfold fillna0. simpl. apply length_map. Qed.

Lemma transform_clientes_rows n df out :
  frame_rows n df → transform_clientes df = Ok out → frame_rows n out.
Proof.
  intros Hn. unfold transform_clientes.
  intros (d1 & H1 & (email & _ & (d2 & H2 & H3)%bind_Ok)%bind_Ok)%bind_Ok.
  apply (frame_rows_rename _ clientes_renames) in Hn.
  assert (frame_rows n d1) as Hn1.
  { unfold clientes_renames in Hn. destruct (has_column "telefono" _).
    - apply bind_Ok in H1 as (d0 & H0 & H1).
      eapply update_column_rows; [| |exact H1]; [string_steps|].
      eapply update_column_rows; [| |exact H0]; [string_steps|done].
    - by injection H1 as <-. }
  assert (frame_rows n d2) as Hn2.
  { case_bool_decide; [|by injection H2 as <-].
    eapply for_each_rows; [|exact Hn1|exact H2].
    intros d x d'. apply suffix_duplicate_rows. }
  eapply for_each_rows; [|exact Hn2|exact H3].
  intros d x d' Hd. apply update_column_rows; [string_steps|done].
Qed.

Lemma transform_ordenes_produccion_rows n df out :
  frame_rows n df → transform_ordenes_produccion df = Ok out → frame_rows n out.
Proof.
  intros Hn. unfold transform_ordenes_produccion.
  intros (d1 & H1 & (d2 & H2 & H3)%bind_Ok)%bind_Ok.
  assert (frame_rows n d1) as Hn1.
  { eapply for_each_rows; [|exact Hn|exact H1].
    intros d x d' Hd. apply update_column_rows; [|done].
    apply length_preserving_pure, to_datetime_length. }
  assert (frame_rows n d2) as Hn2.
  { eapply update_if_present_rows; [|exact Hn1|exact H2]. string_steps. }
  destruct (has_column "fecha_orden" d2 && has_column "fecha_completado" d2);
    [|by injection H3 as <-].
  apply bind_Ok in H3 as (fc & Hfc & (fo & Hfo & [= <-])%bind_Ok).
  apply frame_rows_set; [|done]. simpl. rewrite length_zip_with.
  rewrite (frame_rows_get _ _ _ _ Hn2 Hfc), (frame_rows_get _ _ _ _ Hn2 Hfo).
  lia.
Qed.

Lemma transform_materiales_rows n df out :
  frame_rows n df → transform_materiales df = Ok out → frame_rows n out.
Proof.
  intros Hn. unfold transform_materiales.
  intros (d1 & H1 & (d2 & H2 & H3)%bind_Ok)%bind_Ok.
  assert (frame_rows n d1) as Hn1
    by (eapply update_if_present_rows; [|exact Hn|exact H1]; string_steps).
  assert (frame_rows n d2) as Hn2
    by (eapply update_if_present_rows; [|exact Hn1|exact H2]; string_steps).
  destruct (has_column "cantidad_disponible" d2); [|by injection H3 as <-].
  apply bind_Ok in H3 as (d3 & H3 & H4).
  eapply update_column_rows; [| |exact H4];
    [apply length_preserving_pure, fillna0_values_length|].
  eapply update_column_rows; [| |exact H3]; [|done].
  apply length_preserving_pure, to_numeric_length.
Qed.

Lemma transform_empleados_rows n df out :
  frame_rows n df → transform_empleados df = Ok out → frame_rows n out.
Proof.
  intros Hn. unfold transform_empleados.
  intros (d1 & H1 & (d2 & H2 & H3)%bind_Ok)%bind_Ok.
  assert (frame_rows n d1) as Hn1
    by (eapply update_if_present_rows; [|exact Hn|exact H1]; string_steps).
  assert (frame_rows n d2) as Hn2
    by (eapply update_if_present_rows; [|exact Hn1|exact H2]; string_steps).
  eapply update_if_present_rows; [|exact Hn2|exact H3]. string_steps.
Qed.

Lemma transform_detalles_orden_rows n df out :
  frame_rows n df → transform_detalles_orden df = Ok out → frame_rows n out.
Proof.
  intros Hn. unfold transform_detalles_orden.
  intros (d1 & H1 & H2)%bind_Ok.
  assert (frame_rows n d1) as Hn1.
  { eapply for_each_rows; [|exact Hn|exact H1].
    intros d x d' Hd. apply update_if_present_rows; [|done].
    apply length_preserving_pure, to_numeric_length. }
  destruct (has_column "cantidad" d1 && has_column "subtotal" d1);
    [|by injection H2 as <-].
  apply bind_Ok in H2 as (su & Hsu & (ca & Hca & [= <-])%bind_Ok).
  apply frame_rows_set; [|done]. simpl. rewrite length_zip_with.
  rewrite (frame_rows_get _ _ _ _ Hn1 Hsu), (frame_rows_get _ _ _ _ Hn1 Hca).
  lia.
Qed.

Lemma transform_uso_materiales_rows n df out :
  frame_rows n df → transform_uso_materiales df = Ok out → frame_rows n out.
Proof.
  intros Hn. unfold transform_uso_materiales.
  destruct (has_column "cantidad_usada" df); [|by intros [= <-]].
  intros (d1 & H1 & H2)%bind_Ok.
  eapply update_column_rows; [| |exact H2];
    [apply length_preserving_pure, fillna0_values_length|].
  eapply update_column_rows; [| |exact H1]; [|done].
  apply length_preserving_pure, to_numeric_length.
Qed.

Lemma filter_rows_rows n mask df :
  length mask = n → frame_rows n df →
  frame_rows (count_true mask) (filter_rows mask df).
Proof.
  intros Hmask Hn. unfold frame_rows, filter_rows in *.
  apply Forall_map. eapply Forall_impl; [exact Hn|]. simpl.
  intros [c s] Hs. simpl in *. apply keep_where_length. congruence.
Qed.

Lemma count_true_le mask : count_true mask ≤ length mask.
Proof. unfold count_true. apply length_filter. Qed.

(** No cleaning operation adds a row, and only the cleaning of products
    drops rows: the other six return a table with as many rows as they
    were given. *)
Theorem cleaning_keeps_rows n df out :
  frame_rows n df →
  (∀ f, f ∈ [transform_clientes; transform_ordenes_produccion;
             transform_materiales; transform_empleados;
             transform_detalles_orden; transform_uso_materiales] →
        f df = Ok out → frame_rows n out)
  ∧ (transform_productos df = Ok out → ∃ m, m ≤ n ∧ frame_rows m out).
Proof.
  intros Hn. split.
  - intros f Hf.
    repeat (apply elem_of_cons in Hf as [->|Hf]);
      [ by apply transform_clientes_rows
      | by apply transform_ordenes_produccion_rows
      | by apply transform_materiales_rows
      | by apply transform_empleados_rows
      | by apply transform_detalles_orden_rows
      | by apply transform_uso_materiales_rows
      | by apply elem_of_nil in Hf ].
  - intros (df1 & df2 & H1 & H2 & H3)%transform_productos_Ok.
    assert (frame_rows n df1) as Hn1
      by (eapply update_if_present_rows; [|exact Hn|exact H1]; string_steps).
    assert (frame_rows n df2) as Hn2.
    { eapply update_if_present_rows; [|exact Hn1|exact H2].
      apply length_preserving_pure, to_numeric_length. }
    destruct (get_column "precio" df2) as [p|e] eqn:Hp;
      [|subst out; by exists n].
    simpl in H3. case_bool_decide; [|subst out; by exists n].
    subst out. eexists. split; [|apply (filter_rows_rows n); [|done]].
    + etrans; [apply count_true_le|].
      rewrite !length_map. by rewrite (frame_rows_get _ _ _ _ Hn2 Hp).
    + rewrite !length_map. by eapply frame_rows_get.
Qed.

End rows.

Lemma cleaning_keeps_rows_witness :
  ∃ out,
    transform_clientes customers_shared_email = Ok out ∧ frame_rows 2 out.
Proof.
  eexists.
  assert (transform_clientes customers_shared_email = Ok _) as H
    by (vm_compute; reflexivity).
  split; [exact H|].
  refine (proj1 (cleaning_keeps_rows (reader := Reader.iso_reader) 2
                   customers_shared_email _ _) transform_clientes _ H);
    [repeat constructor|left].
Defined.

Lemma columns_filter_rows mask df : columns (filter_rows mask df) = columns df.
Proof.
  unfold columns, filter_rows. induction df as [|[c s] df IH]; simpl; by f_equal.
Qed.

Lemma count_true_negb_0 mask :
  count_true mask = 0 → Forall (λ b, b = true) (map negb mask).
Proof.
  intros H%count_true_0. apply Forall_map. eapply Forall_impl; [exact H|].
  by intros b ->.
Qed.

Lemma count_true_all mask :
  Forall (λ b, b = true) mask → count_true mask = length mask.
Proof.
  unfold count_true. induction 1 as [|b mask -> _ IH]; [done|].
  rewrite filter_cons. simpl. by rewrite IH.
Qed.

Lemma series_eta s : mkSeries (dtype_of s) (values s) = s.
Proof. by destruct s. Qed.

Section productos_rows.
Context {reader : Parsers}.

(** The cleaning of products keeps exactly the rows whose price, read as a
    number, is above zero: in their order, and with the cells they had in
    every column but the price (now a number) and the product name (now
    trimmed).  The columns are those of the raw table. *)
Theorem product_cleaning_drops_invalid_rows df out precio n :
  frame_rows n df →
  get_column "precio" df = Ok precio →
  transform_productos df = Ok out →
  let prices := map cell_to_numeric (values precio) in
  let keep := map negb (map invalid_price prices) in
  columns out = columns df
  ∧ frame_rows (count_true keep) out
  ∧ get_column "precio" out = Ok (mkSeries Numeric (keep_where keep prices))
  ∧ (∀ s, get_column "nombre_producto" df = Ok s →
       get_column "nombre_producto" out
       = Ok (mkSeries Object
               (keep_where keep (map (cell_str Py.strip) (values s)))))
  ∧ ∀ c s, c ≠ "precio" → c ≠ "nombre_producto" →
      get_column c df = Ok s →
      get_column c out = Ok (mkSeries (dtype_of s) (keep_where keep (values s))).
Proof.
  intros Hn Hp (df1 & df2 & H1 & H2 & H3)%transform_productos_Ok prices keep.
  assert (frame_rows n df1) as Hn1
    by (eapply update_if_present_rows; [|exact Hn|exact H1]; string_steps).
  assert (frame_rows n df2) as Hn2.
  { eapply update_if_present_rows; [|exact Hn1|exact H2].
    apply length_preserving_pure, to_numeric_length. }
  pose proof (update_if_present_get _ _ _ _ "precio" H1) as Hp1.
  rewrite decide_False, Hp in Hp1 by done.
  pose proof (update_if_present_get _ _ _ _ "precio" H2) as Hp2.
  rewrite decide_True, Hp1 in Hp2 by done. simpl in Hp2.
  rewrite Hp2 in H3. cbn zeta in H3. simpl in H3. fold prices in H3.
  fold keep in H3.
  assert (length keep = n) as Hkeep.
  { unfold keep, prices. rewrite !length_map.
    apply (frame_rows_get _ _ _ _ Hn Hp). }
  assert (columns df2 = columns df) as Hcols.
  { rewrite (update_if_present_columns _ _ _ _ H2).
    apply (update_if_present_columns _ _ _ _ H1). }
  assert (∀ c s, c ≠ "precio" → c ≠ "nombre_producto" →
            get_column c df = Ok s → get_column c df2 = Ok s) as Hother.
  { intros c s Hc1 Hc2 Hs.
    rewrite (update_if_present_get _ _ _ _ c H2), decide_False by done.
    rewrite (update_if_present_get _ _ _ _ c H1), decide_False by done.
    done. }
  assert (∀ s, get_column "nombre_producto" df = Ok s →
            get_column "nombre_producto" df2
            = Ok (mkSeries Object (map (cell_str Py.strip) (values s))))
    as Hname.
  { intros s Hs.
    rewrite (update_if_present_get _ _ _ _ _ H2), decide_False by done.
    pose proof (update_if_present_get _ _ _ _ "nombre_producto" H1) as Hs1.
    rewrite decide_True, Hs in Hs1 by done. simpl in Hs1.
    destruct (str_strip s) as [s'|e] eqn:Hstrip.
    - apply str_method_Ok in Hstrip as [_ ->]. done.
    - exfalso. unfold update_if_present in H1.
      assert (has_column "nombre_producto" df = true) as Hhas
        by (apply has_column_true; eauto).
      rewrite Hhas in H1. unfold update_column in H1.
      rewrite Hs in H1. simpl in H1. by rewrite Hstrip in H1. }
  case_bool_decide as Hcount; subst out.
  - split; [by rewrite columns_filter_rows|].
    split; [by apply (filter_rows_rows n)|].
    split; [by rewrite get_filter_rows, Hp2|]. split.
    + intros s Hs. by rewrite get_filter_rows, (Hname _ Hs).
    + intros c s Hc1 Hc2 Hs. by rewrite get_filter_rows, (Hother _ _ Hc1 Hc2 Hs).
  - assert (Forall (λ b, b = true) keep) as Hall
      by (apply count_true_negb_0; lia).
    assert (∀ vs : list cell, length vs = n → keep_where keep vs = vs) as Hid.
    { intros vs Hvs. apply keep_where_all_true; [congruence|done]. }
    split; [done|]. split; [by rewrite count_true_all, Hkeep|].
    split; [|split].
    + rewrite Hp2, Hid; [done|]. unfold prices. rewrite length_map.
      apply (frame_rows_get _ _ _ _ Hn Hp).
    + intros s Hs. rewrite (Hname _ Hs), Hid; [done|].
      rewrite length_map. apply (frame_rows_get _ _ _ _ Hn Hs).
    + intros c s Hc1 Hc2 Hs. rewrite (Hother _ _ Hc1 Hc2 Hs), Hid.
      * by rewrite series_eta.
      * apply (frame_rows_get _ _ _ _ Hn Hs).
Qed.

End productos_rows.

Lemma product_cleaning_drops_invalid_rows_witness :
  ∃ out,
    @transform_productos Reader.iso_reader productos_raw = Ok out
    ∧ get_column "id_producto" out = Ok (int_column [1; 5]%Z)
    ∧ frame_rows 2 out.
Proof.
  eexists.
  assert (@transform_productos Reader.iso_reader productos_raw = Ok _) as H
    by (vm_compute; reflexivity).
  destruct (product_cleaning_drops_invalid_rows (reader := Reader.iso_reader)
              productos_raw _ _ 5 ltac:(repeat constructor) eq_refl H)
    as (_ & Hrows & _ & _ & Hother).
  split; [exact H|]. split.
  - by rewrite (Hother "id_producto" (int_column [1; 2; 3; 4; 5]%Z)).
  - exact Hrows.
Defined.

(** ** Exceptions of the cleaning operations *)

Lemma string_step_str f : string_step (str_method f).
Proof.
  split; intros s Hs; unfold str_method, str_values.
  - rewrite Hs. simpl. eauto.
  - by destruct (dtype_of s).
Qed.

Lemma string_step_bind f g :
  string_step f → string_step g → string_step (λ s, s ← f s; g s).
Proof.
  intros [Hf1 Hf2] [Hg1 Hg2]. split; intros s Hs.
  - destruct (Hf1 s Hs) as (s1 & -> & Hs1). simpl. by apply Hg1.
  - by rewrite Hf2.
Qed.

Ltac string_step :=
  repeat first [apply string_step_str | apply string_step_bind].

(** One guarded string step: it raises exactly on a column that is there
    and is no string column, and changes no other column. *)
Lemma string_step_cases c f df :
  string_step f →
  if text_or_absent c df then
    ∃ df', update_if_present c f df = Ok df'
           ∧ columns df' = columns df
           ∧ (∀ c', c' ≠ c → get_column c' df' = get_column c' df)
           ∧ ∀ c', text_or_absent c' df' = text_or_absent c' df
  else update_if_present c f df = Raise AttributeError.
Proof.
  intros [Hok Hraise]. unfold text_or_absent, update_if_present.
  rewrite has_column_get. destruct (get_column c df) as [s|e] eqn:Hs; simpl.
  2:{ exists df. done. }
  unfold update_column. rewrite Hs. simpl. case_bool_decide as Hd.
  - destruct (Hok s Hd) as (s' & -> & Hd'). simpl. eexists. split; [done|].
    split; [apply columns_set_present, has_column_true; eauto|].
    split; [intros c' Hc'; by rewrite get_set_ne|].
    intros c'. rewrite get_set. case_decide as Hc; [|done]. subst c'.
    rewrite Hs. by rewrite !bool_decide_eq_true_2.
  - by rewrite Hraise.
Qed.

Section exceptions.
Context {reader : Parsers}.

Lemma transform_empleados_exceptions df :
  if forallb (λ c, text_or_absent c df) ["nombre"; "cargo"; "email"]
  then is_Ok (transform_empleados df) = true
  else transform_empleados df = Raise AttributeError.
Proof.
  unfold transform_empleados. simpl.
  pose proof (string_step_cases "nombre" str_strip df ltac:(string_step)) as H1.
  destruct (text_or_absent "nombre" df); simpl; [|by rewrite H1].
  destruct H1 as (d1 & -> & _ & _ & Ht1). simpl. rewrite <- !Ht1.
  pose proof (string_step_cases "cargo" (λ s, s ← str_strip s; str_title s) d1
                ltac:(string_step)) as H2.
  destruct (text_or_absent "cargo" d1); simpl; [|by rewrite H2].
  destruct H2 as (d2 & -> & _ & _ & Ht2). simpl. rewrite <- !Ht2.
  pose proof (string_step_cases "email" (λ s, s ← str_strip s; str_lower s) d2
                ltac:(string_step)) as H3.
  destruct (text_or_absent "email" d2); simpl; [|by rewrite H3].
  by destruct H3 as (d3 & -> & _).
Qed.

Lemma transform_materiales_exceptions df :
  if forallb (λ c, text_or_absent c df) ["tipo"; "unidad_medida"]
  then is_Ok (transform_materiales df) = true
  else transform_materiales df = Raise AttributeError.
Proof.
  unfold transform_materiales. simpl.
  pose proof (string_step_cases "tipo" (λ s, s ← str_strip s; str_title s) df
                ltac:(string_step)) as H1.
  destruct (text_or_absent "tipo" df); simpl; [|by rewrite H1].
  destruct H1 as (d1 & -> & _ & _ & Ht1). simpl. rewrite <- !Ht1.
  pose proof (string_step_cases "unidad_medida"
                (λ s, s ← str_strip s; str_lower s) d1 ltac:(string_step))
    as H2.
  destruct (text_or_absent "unidad_medida" d1); simpl; [|by rewrite H2].
  destruct H2 as (d2 & -> & _). simpl.
  rewrite has_column_get. unfold update_column.
  destruct (get_column "cantidad_disponible" d2) as [s|e] eqn:Hs; simpl; [|done].
  by rewrite get_set_eq.
Qed.

Lemma transform_productos_exceptions df :
  if text_or_absent "nombre_producto" df
  then is_Ok (transform_productos df) = true
  else transform_productos df = Raise AttributeError.
Proof.
  unfold transform_productos.
  pose proof (string_step_cases "nombre_producto" str_strip df
                ltac:(string_step)) as H1.
  destruct (text_or_absent "nombre_producto" df); simpl; [|by rewrite H1].
  destruct H1 as (d1 & -> & _). simpl.
  destruct (update_if_present_pure_total "precio" to_numeric d1) as [d2 ->].
  simpl. rewrite has_column_get.
  destruct (get_column "precio" d2) as [s|e]; simpl; [|done].
  by case_bool_decide.
Qed.

Lemma date_loop_Ok df :
  ∃ df',
    for_each (λ df_clean col,
                update_column col (λ s, Ok (to_datetime s)) df_clean)
      (date_columns df) df = Ok df'
    ∧ columns df' = columns df
    ∧ ∀ c, get_column c df'
           = if decide (c ∈ date_columns df)
             then get_column c df ≫= (λ s, Ok (to_datetime s))
             else get_column c df.
Proof.
  apply for_each_update_pure; [apply to_datetime_idem|].
  apply date_columns_present.
Qed.

Lemma transform_ordenes_produccion_exceptions df :
  if text_or_absent "estado" df
  then is_Ok (transform_ordenes_produccion df) = true
  else transform_ordenes_produccion df = Raise AttributeError.
Proof.
  unfold transform_ordenes_produccion. fold (date_columns df).
  destruct (date_loop_Ok df) as (d1 & -> & _ & Hget). simpl.
  assert (text_or_absent "estado" d1 = text_or_absent "estado" df) as <-.
  { unfold text_or_absent. rewrite Hget. rewrite decide_False; [done|].
    by intros [? _]%date_column_name. }
  pose proof (string_step_cases "estado" (λ s, s ← str_strip s; str_title s) d1
                ltac:(string_step)) as H2.
  destruct (text_or_absent "estado" d1); simpl; [|by rewrite H2].
  destruct H2 as (d2 & -> & _). simpl.
  destruct (has_column "fecha_orden" d2 && has_column "fecha_completado" d2)
    eqn:Hboth; [|done].
  apply andb_true_iff in Hboth as [[fo ->]%has_column_true [fc ->]%has_column_true].
  done.
Qed.

Lemma transform_clientes_numeric_phone df s :
  get_column "telefono" (rename clientes_renames df) = Ok s →
  dtype_of s ≠ Object →
  transform_clientes df = Raise AttributeError.
Proof.
  intros Hs Hd. unfold transform_clientes. fold clientes_renames.
  assert (has_column "telefono" (rename clientes_renames df) = true) as ->
    by (apply has_column_true; eauto).
  destruct (string_step_str Py.strip) as [_ Hraise].
  unfold update_column, str_strip. rewrite Hs. simpl. by rewrite Hraise.
Qed.

(** The cleaning of products, materials and employees raises exactly when
    one of the columns it cleans as text is there and is no string column,
    and then with [AttributeError]; the cleaning of customers raises
    [AttributeError] when the phone column is no string column, and the
    cleaning of production orders returns no table when the status column
    is no string column. *)
Theorem cleaning_raises_on_non_string_columns df :
  (if text_or_absent "nombre_producto" df
   then is_Ok (transform_productos df) = true
   else transform_productos df = Raise AttributeError)
  ∧ (if forallb (λ c, text_or_absent c df) ["tipo"; "unidad_medida"]
     then is_Ok (transform_materiales df) = true
     else transform_materiales df = Raise AttributeError)
  ∧ (if forallb (λ c, text_or_absent c df) ["nombre"; "cargo"; "email"]
     then is_Ok (transform_empleados df) = true
     else transform_empleados df = Raise AttributeError)
  ∧ (text_or_absent "telefono" (rename clientes_renames df) = false →
     transform_clientes df = Raise AttributeError)
  ∧ (text_or_absent "estado" df = false →
     is_Ok (transform_ordenes_produccion df) = false).
Proof.
  split; [apply transform_productos_exceptions|].
  split; [apply transform_materiales_exceptions|].
  split; [apply transform_empleados_exceptions|].
  split.
  2:{ intros Hestado.
      pose proof (transform_ordenes_produccion_exceptions df) as Hcases.
      rewrite Hestado in Hcases. by rewrite Hcases. }
  unfold text_or_absent.
  destruct (get_column "telefono" _) as [s|e] eqn:Hs; [|done].
  intros Hd%bool_decide_eq_false. by eapply transform_clientes_numeric_phone.
Qed.

End exceptions.

Example numeric_names_raise :
  transform_empleados empleados_numeric_names = Raise AttributeError.
Proof. reflexivity. Qed.

(** ** Quantities of materials *)

Section quantities.
Context {reader : Parsers}.

Lemma cleaned_quantity_cell c :
  cleaned_quantity c (cell_fillna0 (cell_to_numeric c)).
Proof.
  unfold cleaned_quantity. destruct c as [|y|t|t]; simpl; eauto.
  destruct (parse_number t); simpl; eauto.
Qed.

Lemma cleaned_quantities vs :
  Forall2 cleaned_quantity vs (map cell_fillna0 (map cell_to_numeric vs)).
Proof.
  induction vs as [|c vs IH]; simpl; constructor;
    [apply cleaned_quantity_cell|done].
Qed.

(** The two steps on a quantity column. *)
Lemma quantity_steps c df :
  ∃ out,
    (if has_column c df then
       df_clean ← update_column c (λ s, Ok (to_numeric s)) df;
       update_column c (λ s, Ok (fillna0 s)) df_clean
     else Ok df) = Ok out
    ∧ columns out = columns df
    ∧ (∀ c', c' ≠ c → get_column c' out = get_column c' df)
    ∧ ∀ s, get_column c df = Ok s →
        get_column c out
        = Ok (mkSeries Numeric (map cell_fillna0 (map cell_to_numeric (values s)))).
Proof.
  rewrite has_column_get. destruct (get_column c df) as [s|e] eqn:Hs; simpl.
  2:{ exists df. done. }
  unfold update_column. rewrite Hs. simpl. rewrite get_set_eq. simpl.
  rewrite set_set. eexists. split; [done|].
  split; [apply columns_set_present, has_column_true; eauto|].
  split; [intros c' Hc'; by rewrite get_set_ne|].
  intros s0 [= <-]. by rewrite get_set_eq.
Qed.

(** After the cleaning of materials and of material usage the quantity
    column holds a number in every row: the number that was there (a
    negative one too), the number read out of a string, and 0 for a null or
    an unreadable string.  The cleaning of material usage never raises and
    changes no other column. *)
Theorem cleaned_quantities_are_numbers df :
  (∀ out s,
     transform_materiales df = Ok out →
     get_column "cantidad_disponible" df = Ok s →
     ∃ s', get_column "cantidad_disponible" out = Ok s'
           ∧ dtype_of s' = Numeric
           ∧ Forall2 cleaned_quantity (values s) (values s'))
  ∧ ∃ out,
      transform_uso_materiales df = Ok out
      ∧ columns out = columns df
      ∧ (∀ c, c ≠ "cantidad_usada" → get_column c out = get_column c df)
      ∧ ∀ s, get_column "cantidad_usada" df = Ok s →
          ∃ s', get_column "cantidad_usada" out = Ok s'
                ∧ dtype_of s' = Numeric
                ∧ Forall2 cleaned_quantity (values s) (values s').
Proof.
  split.
  - intros out s Hout Hs. unfold transform_materiales in Hout.
    apply bind_Ok in Hout as (d1 & H1 & (d2 & H2 & H3)%bind_Ok).
    destruct (quantity_steps "cantidad_disponible" d2)
      as (out' & Hout' & _ & _ & Hq).
    rewrite Hout' in H3. injection H3 as ->.
    eexists. split; [apply Hq|split; [done|apply cleaned_quantities]].
    rewrite (update_if_present_get _ _ _ _ _ H2), decide_False by done.
    by rewrite (update_if_present_get _ _ _ _ _ H1), decide_False.
  - unfold transform_uso_materiales.
    destruct (quantity_steps "cantidad_usada" df) as (out & Hout & Hc & Ho & Hq).
    exists out. split; [done|]. split; [done|]. split; [done|].
    intros s Hs. eexists. split; [by apply Hq|].
    split; [done|apply cleaned_quantities].
Qed.

End quantities.

Lemma cleaned_quantities_are_numbers_witness :
  ∃ out s',
    @transform_materiales Reader.iso_reader materiales_raw = Ok out
    ∧ get_column "cantidad_disponible" out = Ok s'
    ∧ values s' !! 1 = Some (int_cell (-3))
    ∧ values s' !! 2 = Some (VNum (Fin 0))
    ∧ values s' !! 3 = Some (VNum (Fin 0)).
Proof.
  assert (∃ out, @transform_materiales Reader.iso_reader materiales_raw = Ok out)
    as [out H] by (eexists; vm_compute; reflexivity).
  destruct (cleaned_quantities_are_numbers (reader := Reader.iso_reader)
              materiales_raw) as [Hq _].
  destruct (Hq _ _ H eq_refl) as (s' & Hs' & _ & Hcells).
  exists out, s'. split; [done|]. split; [done|].
  simpl in Hcells.
  apply Forall2_cons_inv_l in Hcells as (v0 & vs0 & _ & Hcells & ->).
  apply Forall2_cons_inv_l in Hcells as (v1 & vs1 & (x1 & -> & Hx1) & Hcells & ->).
  apply Forall2_cons_inv_l in Hcells as (v2 & vs2 & (x2 & -> & Hx2) & Hcells & ->).
  apply Forall2_cons_inv_l in Hcells as (v3 & vs3 & (x3 & -> & Hx3) & Hcells & ->).
  simpl. subst. repeat split; compute_done.
Defined.

(** ** Columns of the cleaned order lines *)

Section detalles.
Context {reader : Parsers}.

Lemma numeric_loop df :
  ∃ d1,
    for_each (λ df_clean col,
                update_if_present col (λ s, Ok (to_numeric s)) df_clean)
      ["cantidad"; "subtotal"] df = Ok d1
    ∧ columns d1 = columns df
    ∧ ∀ c, get_column c d1
           = if decide (c ∈ ["cantidad"; "subtotal"])
             then get_column c df ≫= (λ s, Ok (to_numeric s))
             else get_column c df.
Proof.
  simpl.
  destruct (update_if_present_pure_total "cantidad" to_numeric df) as [d0 H0].
  rewrite H0. simpl.
  destruct (update_if_present_pure_total "subtotal" to_numeric d0) as [d1 H1].
  rewrite H1. exists d1. split; [done|]. split.
  { rewrite (update_if_present_columns _ _ _ _ H1).
    apply (update_if_present_columns _ _ _ _ H0). }
  intros c. rewrite (update_if_present_get _ _ _ _ c H1).
  rewrite (update_if_present_get _ _ _ _ _ H0).
  destruct (decide ("subtotal" = c)) as [<-|Hs].
  { rewrite decide_False by done. rewrite decide_True; [done|set_solver]. }
  rewrite (update_if_present_get _ _ _ _ c H0).
  destruct (decide ("cantidad" = c)) as [<-|Hc].
  { rewrite decide_True; [done|set_solver]. }
  rewrite decide_False; [done|set_solver].
Qed.

(** The cleaning of order lines never raises.  It makes the quantity and
    the subtotal numeric, each where it is there, and leaves the other
    columns alone; it adds the unit price, or overwrites the one that was
    there, exactly when both the quantity and the subtotal are there. *)
Theorem order_line_cleaning_columns df :
  ∃ out,
    transform_detalles_orden df = Ok out
    ∧ (∀ c s, c ∈ ["cantidad"; "subtotal"] → get_column c df = Ok s →
         get_column c out = Ok (to_numeric s))
    ∧ (∀ c, c ∉ ["cantidad"; "subtotal"; "precio_unitario"] →
         get_column c out = get_column c df)
    ∧ if has_column "cantidad" df && has_column "subtotal" df
      then columns out
           = (if has_column "precio_unitario" df then columns df
              else columns df ++ ["precio_unitario"])
           ∧ ∃ cantidad subtotal,
               get_column "cantidad" out = Ok cantidad
               ∧ get_column "subtotal" out = Ok subtotal
               ∧ get_column "precio_unitario" out
                 = Ok (series_div subtotal cantidad)
      else columns out = columns df
           ∧ get_column "precio_unitario" out
             = get_column "precio_unitario" df.
Proof.
  unfold transform_detalles_orden.
  destruct (numeric_loop df) as (d1 & -> & Hcols & Hget). simpl.
  assert (∀ c, has_column c d1 = has_column c df) as Hhas
    by (intros c; by apply has_column_columns).
  rewrite !Hhas.
  destruct (has_column "cantidad" df && has_column "subtotal" df) eqn:Hboth.
  - apply andb_true_iff in Hboth as [[ca Hca]%has_column_true [su Hsu]%has_column_true].
    pose proof (Hget "cantidad") as Hca1. pose proof (Hget "subtotal") as Hsu1.
    rewrite decide_True, Hca in Hca1 by set_solver.
    rewrite decide_True, Hsu in Hsu1 by set_solver. simpl in *.
    rewrite Hca1, Hsu1. simpl. eexists. split; [done|]. split; [|split; [|split]].
    + intros c s Hc Hs. rewrite get_set_ne by set_solver.
      rewrite Hget, decide_True, Hs by done. done.
    + intros c Hc. rewrite get_set_ne by set_solver.
      rewrite Hget, decide_False; [done|set_solver].
    + rewrite <- Hhas, <- Hcols.
      destruct (has_column "precio_unitario" d1) eqn:Hpu.
      * by apply columns_set_present.
      * by apply columns_set_absent.
    + exists (to_numeric ca), (to_numeric su).
      rewrite !get_set_ne by done. by rewrite get_set_eq.
  - exists d1. split; [done|]. split; [|split; [|split]].
    + intros c s Hc Hs. by rewrite Hget, decide_True, Hs.
    + intros c Hc. rewrite Hget, decide_False; [done|set_solver].
    + done.
    + rewrite Hget, decide_False; [done|set_solver].
Qed.

End detalles.

(** ** Text columns of employees and customers *)

Lemma isupper_tolower c : Py.isupper (Py.tolower c) = false.
Proof. destruct c as [[] [] [] [] [] [] [] []]; vm_compute; reflexivity. Qed.

Lemma no_upper_lower s : no_upper (Py.lower s) = true.
Proof.
  induction s as [|c s IH]; simpl; [done|]. by rewrite isupper_tolower, IH.
Qed.

(** On employees whose names, positions and emails are ASCII text, the
    cleaning trims the name, trims and title-cases the position, trims and
    lower-cases the email, each where the column is there, and changes
    nothing else; a cell of these columns that holds no string becomes
    null.  A cleaned email has no blank at either end and no upper-case
    letter. *)
Theorem employee_cleaning_normalises_text df out :
  forallb (λ c, ascii_column c df) ["nombre"; "cargo"; "email"] = true →
  transform_empleados df = Ok out →
  columns out = columns df
  ∧ (∀ c, c ∉ ["nombre"; "cargo"; "email"] →
       get_column c out = get_column c df)
  ∧ (∀ s, get_column "nombre" df = Ok s →
       get_column "nombre" out
       = Ok (mkSeries Object (map (cell_str Py.strip) (values s))))
  ∧ (∀ s, get_column "cargo" df = Ok s →
       get_column "cargo" out
       = Ok (mkSeries Object (map (cell_str (Py.title ∘ Py.strip)) (values s))))
  ∧ (∀ s, get_column "email" df = Ok s →
       get_column "email" out
       = Ok (mkSeries Object (map (cell_str (Py.lower ∘ Py.strip)) (values s))))
  ∧ ∀ s e, get_column "email" out = Ok s → VStr e ∈ values s →
      trimmed e = true ∧ no_upper e = true.
Proof.
  unfold transform_empleados.
  intros _ (d1 & H1 & (d2 & H2 & H3)%bind_Ok)%bind_Ok.
  pose proof (update_if_present_get _ _ _ _ "nombre" H1) as Hn1.
  pose proof (update_if_present_get _ _ _ _ "nombre" H2) as Hn2.
  pose proof (update_if_present_get _ _ _ _ "nombre" H3) as Hn3.
  pose proof (update_if_present_get _ _ _ _ "cargo" H1) as Hc1.
  pose proof (update_if_present_get _ _ _ _ "cargo" H2) as Hc2.
  pose proof (update_if_present_get _ _ _ _ "cargo" H3) as Hc3.
  pose proof (update_if_present_get _ _ _ _ "email" H1) as He1.
  pose proof (update_if_present_get _ _ _ _ "email" H2) as He2.
  pose proof (update_if_present_get _ _ _ _ "email" H3) as He3.
  rewrite ?decide_True, ?decide_False in Hn1, Hn2, Hn3, Hc1, Hc2, Hc3,
    He1, He2, He3 by done.
  rewrite Hn2, Hn1 in Hn3. rewrite Hc1 in Hc2. rewrite Hc2 in Hc3.
  rewrite He2, He1 in He3.
  assert (get_column "cargo" out
          = get_column "cargo" df ≫= str_method (Py.title ∘ Py.strip)) as Hc4.
  { rewrite Hc3. destruct (get_column "cargo" df); simpl; [|done].
    apply str_method_compose. }
  assert (get_column "email" out
          = get_column "email" df ≫= str_method (Py.lower ∘ Py.strip)) as He4.
  { rewrite He3. destruct (get_column "email" df); simpl; [|done].
    apply str_method_compose. }
  clear Hn1 Hn2 Hc1 Hc2 Hc3 He1 He2 He3.
  assert (∀ c f s,
            get_column c out = get_column c df ≫= str_method f →
            get_column c df = Ok s →
            get_column c out = Ok (mkSeries Object (map (cell_str f) (values s))))
    as Hstr.
  { intros c f s Hout Hs. rewrite Hs in Hout. simpl in Hout.
    destruct (str_method f s) as [s'|e] eqn:Hf.
    - by apply str_method_Ok in Hf as [_ ->].
    - exfalso.
      assert (has_column c out = false) as Hno
        by (rewrite has_column_get, Hout; done).
      assert (has_column c df = true) as Hyes
        by (apply has_column_true; eauto).
      rewrite (update_if_present_has _ _ _ _ _ H3) in Hno.
      rewrite (update_if_present_has _ _ _ _ _ H2) in Hno.
      rewrite (update_if_present_has _ _ _ _ _ H1) in Hno. congruence. }
  split; [|split; [|split; [|split; [|split]]]].
  - rewrite (update_if_present_columns _ _ _ _ H3).
    rewrite (update_if_present_columns _ _ _ _ H2).
    apply (update_if_present_columns _ _ _ _ H1).
  - intros c Hc.
    rewrite (update_if_present_get _ _ _ _ c H3), decide_False by set_solver.
    rewrite (update_if_present_get _ _ _ _ c H2), decide_False by set_solver.
    rewrite (update_if_present_get _ _ _ _ c H1), decide_False by set_solver.
    done.
  - intros s. by apply Hstr.
  - intros s. by apply Hstr.
  - intros s. by apply Hstr.
  - intros s e Hs He. rewrite He4 in Hs.
    apply bind_Ok in Hs as (s0 & _ & [_ ->]%str_method_Ok). simpl in He.
    change (map ?f ?l) with (f <$> l) in He.
    apply list_elem_of_fmap in He as (c & Hc & _).
    destruct c as [| |x|]; try done. injection Hc as ->. simpl.
    by rewrite trimmed_lower, strip_trimmed, no_upper_lower.
Qed.

Lemma employee_cleaning_normalises_text_witness :
  ∃ out,
    transform_empleados empleados_raw = Ok out
    ∧ cells "email" out = [VStr "ana.ruiz@traza.co"; NA]
    ∧ cells "cargo" out = [VStr "Jefe De Planta"; VStr "Operario"].
Proof.
  eexists.
  assert (transform_empleados empleados_raw = Ok _) as H
    by (vm_compute; reflexivity).
  destruct (employee_cleaning_normalises_text empleados_raw _ eq_refl H)
    as (_ & _ & _ & Hcargo & Hemail & _).
  split; [exact H|]. split.
  - by rewrite (cells_get _ _ _ (Hemail _ eq_refl)).
  - by rewrite (cells_get _ _ _ (Hcargo _ eq_refl)).
Defined.

(** A column of the customer table that is neither the email nor the
    phone: trimmed when it is a string column, unchanged otherwise. *)
Lemma strip_loop_column d out c s :
  for_each (λ d col, update_column col str_strip d) (object_columns d) d
  = Ok out →
  get_column c d = Ok s →
  get_column c out
  = Ok (if decide (dtype_of s = Object)
        then mkSeries Object (map (cell_str Py.strip) (values s)) else s).
Proof.
  intros Hloop Hs. pose proof Hloop as (_ & _ & Hget & Hdone)%strip_loop.
  destruct (Hget _ _ Hs) as (s' & Hs' & Hcase). rewrite Hs'. f_equal.
  case_decide as Hd.
  - assert (c ∈ object_columns d) as Hc.
    { unfold object_columns. clear -Hs Hd.
      induction d as [|[n s0] d IH]; simpl in *; [done|].
      rewrite filter_cons. simpl. destruct (decide (n = c)) as [->|Hne].
      - injection Hs as ->. rewrite decide_True by done. left.
      - case_decide; [right|]; by apply IH. }
    destruct (Hdone _ Hc) as (s1 & Hs1 & Hfix). rewrite Hs' in Hs1.
    injection Hs1 as <-. destruct Hcase as [->|Hstrip].
    + by apply str_method_Ok in Hfix as [_ Heq].
    + by apply str_method_Ok in Hstrip as [_ ->].
  - destruct Hcase as [->|Hstrip]; [done|].
    by apply str_method_Ok in Hstrip as [? _].
Qed.

(** The cleaning of customers renames the three contact columns and adds or
    drops none.  A cleaned phone is null or a string of digits.  Every
    column other than the email and the phone is trimmed when it is a
    string column and is left as it is otherwise. *)
Theorem customer_cleaning_columns df out :
  transform_clientes df = Ok out →
  columns out
  = map (λ n, default n (assoc n clientes_renames)) (columns df)
  ∧ (∀ s, get_column "telefono" out = Ok s → digits_only s)
  ∧ ∀ c s, c ≠ "email" → c ≠ "telefono" →
      get_column c (rename clientes_renames df) = Ok s →
      get_column c out
      = Ok (if decide (dtype_of s = Object)
            then mkSeries Object (map (cell_str Py.strip) (values s)) else s).
Proof.
  unfold transform_clientes. fold clientes_renames.
  set (d0 := rename clientes_renames df).
  intros (d1 & H1 & (email & _ & (d2 & H2 & H3)%bind_Ok)%bind_Ok)%bind_Ok.
  assert (columns d1 = columns d0
          ∧ (∀ c, c ≠ "telefono" → get_column c d1 = get_column c d0)
          ∧ ∀ s, get_column "telefono" d1 = Ok s → digits_only s)
    as (Hcols1 & Hget1 & Hphone1).
  { destruct (has_column "telefono" d0) eqn:Hhas.
    - apply bind_Ok in H1 as (d & Ha & Hb).
      apply update_column_Ok in Ha as (s & s1 & Hs & Hs1 & ->).
      apply update_column_Ok in Hb as (s1' & s2 & Hs1' & Hs2 & ->).
      rewrite get_set_eq in Hs1'. injection Hs1' as <-. rewrite set_set.
      split; [by apply columns_set_present|].
      split; [intros c Hc; by rewrite get_set_ne|].
      intros s0. rewrite get_set_eq. intros [= <-].
      by eapply digits_only_cleaned.
    - injection H1 as <-. split; [done|]. split; [done|].
      intros s Hs. apply has_column_false in Hhas. congruence. }
  assert (columns d2 = columns d1
          ∧ ∀ c, c ≠ "email" → get_column c d2 = get_column c d1)
    as [Hcols2 Hget2].
  { case_bool_decide; [by apply suffix_loop_other in H2|by injection H2 as <-]. }
  pose proof H3 as (Hcols3 & _)%strip_loop.
  split; [|split].
  - rewrite Hcols3, Hcols2, Hcols1. apply rename_columns.
  - intros s Hs.
    destruct (get_column "telefono" d2) as [s2|e] eqn:Hs2.
    + rewrite (strip_loop_column _ _ _ _ H3 Hs2) in Hs. injection Hs as <-.
      rewrite Hget2 in Hs2 by done. apply Hphone1 in Hs2 as Hd.
      destruct Hd as [Hd Hcells]. rewrite decide_True by done.
      destruct (digits_only_fixed s2) as [Hfix _]; [done|].
      apply str_method_Ok in Hfix as [_ Heq]. by rewrite <- Heq.
    + exfalso.
      assert (has_column "telefono" d2 = false) as Hno
        by (by rewrite has_column_get, Hs2).
      rewrite <- (has_column_columns _ _ _ Hcols3) in Hno.
      apply has_column_false in Hno. congruence.
  - intros c s Hc1 Hc2 Hs. apply (strip_loop_column _ _ _ _ H3).
    by rewrite Hget2, Hget1.
Qed.

Lemma customer_cleaning_columns_witness :
  ∃ out,
    transform_clientes customers_with_phones = Ok out
    ∧ columns out = ["id_cliente"; "ciudad"; "telefono"; "email"]
    ∧ cells "telefono" out = [VStr "573001234567"; VStr "5550102"; NA]
    ∧ cells "ciudad" out = [VStr "Cali"; VStr "Lima"; NA].
Proof.
  eexists.
  assert (transform_clientes customers_with_phones = Ok _) as H
    by (vm_compute; reflexivity).
  destruct (customer_cleaning_columns _ _ H) as (Hcols & _ & Hother).
  split; [exact H|]. split; [exact Hcols|]. split; [reflexivity|].
  by rewrite (cells_get _ _ _ (Hother "ciudad" _ ltac:(done) ltac:(done) eq_refl)).
Defined.

(** ** [transform_all] *)

Lemma bind_Ok_r {A} (m : result A) : m ≫= Ok = m.
Proof. by destruct m. Qed.

Section transform_all.
Context {reader : Parsers}.

Lemma transform_all_loop datasets :
  transform_all datasets
  = for_each (λ acc kf, transform_entity kf.1 kf.2 datasets acc) cleaners ∅.
Proof.
  unfold transform_all, cleaners. cbn [for_each fst snd].
  repeat (apply bind_ext; [done|intros ?]). by rewrite bind_Ok_r.
Qed.

Lemma cleaners_NoDup : NoDup (cleaners.*1).
Proof. unfold cleaners. simpl. repeat constructor; set_solver. Qed.

(** What a run of steps leaves in the table of results. *)
Lemma entity_loop_Ok datasets kfs acc out :
  NoDup (kfs.*1) →
  for_each (λ acc kf, transform_entity kf.1 kf.2 datasets acc) kfs acc
  = Ok out →
  (∀ k f df, (k, f) ∈ kfs → datasets !! k = Some df →
             ∃ o, f df = Ok o ∧ out !! k = Some o)
  ∧ (∀ k, k ∉ kfs.*1 ∨ datasets !! k = None → out !! k = acc !! k).
Proof.
  revert acc. induction kfs as [|[k0 f0] kfs IH]; intros acc Hnd; simpl.
  { intros [= <-]. split; [by intros ? ? ? ?%elem_of_nil|done]. }
  apply NoDup_cons in Hnd as [Hk0 Hnd].
  intros (acc1 & Hstep & Hrest)%bind_Ok.
  destruct (IH _ Hnd Hrest) as [Hdone Hother]. clear IH.
  unfold transform_entity in Hstep.
  destruct (datasets !! k0) as [df0|] eqn:Hdf0.
  - apply bind_Ok in Hstep as (o0 & Ho0 & [= <-]). split.
    + intros k f df [[= -> ->]|Hin]%elem_of_cons Hdf; [|by eapply Hdone].
      rewrite Hdf0 in Hdf. injection Hdf as <-. exists o0. split; [done|].
      rewrite Hother by by left. apply lookup_insert_eq.
    + intros k Hk.
      assert (k ≠ k0) as Hne.
      { intros ->. destruct Hk as [Hk|Hk]; [|congruence].
        apply Hk. left. }
      rewrite Hother, lookup_insert_ne; [done..|].
      destruct Hk as [Hk|Hk]; [left|by right].
      intros Hin. apply Hk. by right.
  - injection Hstep as <-. split.
    + intros k f df [[= -> ->]|Hin]%elem_of_cons Hdf; [congruence|].
      by eapply Hdone.
    + intros k Hk. apply Hother.
      destruct Hk as [Hk|Hk]; [left|by right].
      intros Hin. apply Hk. by right.
Qed.

Lemma entity_loop_success datasets kfs acc :
  (∀ k f df, (k, f) ∈ kfs → datasets !! k = Some df → is_Ok (f df) = true) →
  is_Ok (for_each (λ acc kf, transform_entity kf.1 kf.2 datasets acc) kfs acc)
  = true.
Proof.
  revert acc. induction kfs as [|[k0 f0] kfs IH]; intros acc Hok; simpl; [done|].
  unfold transform_entity at 2.
  destruct (datasets !! k0) as [df0|] eqn:Hdf0; simpl.
  - specialize (Hok k0 f0 df0 ltac:(left) Hdf0) as Hf0.
    destruct (f0 df0) as [o|e]; [|done]. simpl. apply IH.
    intros k f df Hin. apply Hok. by right.
  - apply IH. intros k f df Hin. apply Hok. by right.
Qed.

(** [transform_all] cleans each of the seven entities that is in the raw
    set with its own operation, on that table alone: the result holds the
    cleaned table under the same name, and nothing else, so that a table
    under any other name is left out.  It returns exactly when every one of
    these operations returns: if one raises, no cleaned table is
    returned. *)
Theorem transform_all_cleans_each_entity datasets :
  (is_Ok (transform_all datasets) = true
   ↔ ∀ k f df, (k, f) ∈ cleaners → datasets !! k = Some df →
               is_Ok (f df) = true)
  ∧ ∀ out,
      transform_all datasets = Ok out →
      (∀ k f df, (k, f) ∈ cleaners → datasets !! k = Some df →
                 ∃ o, f df = Ok o ∧ out !! k = Some o)
      ∧ (∀ k, is_Some (out !! k) →
              k ∈ cleaners.*1 ∧ is_Some (datasets !! k)).
Proof.
  rewrite transform_all_loop. split; [split|].
  - intros Hok k f df Hin Hdf.
    destruct (for_each _ cleaners ∅) as [out|e] eqn:Hloop; [|done].
    apply entity_loop_Ok in Hloop as [Hdone _]; [|apply cleaners_NoDup].
    by destruct (Hdone k f df Hin Hdf) as (o & -> & _).
  - apply entity_loop_success.
  - intros out [Hdone Hother]%entity_loop_Ok; [|apply cleaners_NoDup].
    split; [done|]. intros k [o Ho].
    destruct (decide (k ∈ cleaners.*1)) as [Hin|Hout].
    + split; [done|]. destruct (datasets !! k) eqn:Hdf; [done|].
      rewrite Hother, lookup_empty in Ho; [done|by right].
    + rewrite Hother, lookup_empty in Ho; [done|by left].
Qed.

End transform_all.

Example unknown_table_is_left_out :
  match @transform_all Reader.iso_reader raw_with_unknown_table with
  | Ok out => dom out = {["clientes"; "empleados"]}
  | Raise _ => False
  end.
Proof. vm_compute. reflexivity. Qed.

(** ** Date columns of the production orders *)

Section fechas.
Context {reader : Parsers}.

Lemma date_columns_spec c df :
  c ∈ date_columns df
  ↔ Py.has_substring "fecha" (Py.lower c) = true ∧ c ∈ columns df.
Proof.
  unfold date_columns. rewrite list_elem_of_filter.
  split; intros [H1 H2]; split; try done; by destruct (Py.has_substring _ _).
Qed.

(** The cleaning of production orders reads as dates all the columns whose
    label contains [fecha], in upper or lower case, and only those: every
    such column comes out with dtype datetime64 (a column that had it
    already, as it was).  The status and the duration apart, no other
    column changes.  The duration is added, or overwritten, exactly when
    both [fecha_orden] and [fecha_completado] are there. *)
Theorem date_columns_become_timestamps df out :
  transform_ordenes_produccion df = Ok out →
  (∀ c s, Py.has_substring "fecha" (Py.lower c) = true →
          get_column c df = Ok s →
          get_column c out = Ok (to_datetime s)
          ∧ dtype_of (to_datetime s) = Datetime64
          ∧ (dtype_of s = Datetime64 → to_datetime s = s))
  ∧ (∀ c, Py.has_substring "fecha" (Py.lower c) = false →
          c ≠ "estado" → c ≠ "duracion_dias" →
          get_column c out = get_column c df)
  ∧ (if has_column "fecha_orden" df && has_column "fecha_completado" df
     then ∃ fecha_orden fecha_completado,
            get_column "fecha_orden" out = Ok fecha_orden
            ∧ get_column "fecha_completado" out = Ok fecha_completado
            ∧ get_column "duracion_dias" out
              = Ok (series_days_between fecha_completado fecha_orden)
     else get_column "duracion_dias" out = get_column "duracion_dias" df).
Proof.
  unfold transform_ordenes_produccion. fold (date_columns df).
  destruct (date_loop_Ok df) as (d1 & -> & Hcols1 & Hget1). simpl.
  intros (d2 & H2 & H3)%bind_Ok.
  assert (∀ c, c ≠ "estado" → get_column c d2 = get_column c d1) as Hget2.
  { intros c Hc. by rewrite (update_if_present_get _ _ _ _ c H2), decide_False. }
  assert (∀ c, has_column c d2 = has_column c df) as Hhas.
  { intros c. rewrite (update_if_present_has _ _ _ _ _ H2).
    by apply has_column_columns. }
  assert (∀ c, c ≠ "duracion_dias" → get_column c out = get_column c d2)
    as Hget3.
  { intros c Hc. destruct (has_column "fecha_orden" d2 && _).
    - apply bind_Ok in H3 as (fc & Hfc & (fo & Hfo & [= <-])%bind_Ok).
      by rewrite get_set_ne.
    - by injection H3 as <-. }
  assert (∀ c, Py.has_substring "fecha" (Py.lower c) = true →
            c ≠ "estado" ∧ c ≠ "duracion_dias") as Hname.
  { intros c Hc. split; intros ->; by vm_compute in Hc. }
  split; [|split].
  - intros c s Hc Hs. destruct (Hname c Hc) as [Hc1 Hc2].
    split; [|split; [apply to_datetime_dtype|]].
    + rewrite Hget3, Hget2, Hget1 by done.
      rewrite decide_True, Hs; [done|].
      apply date_columns_spec. split; [done|].
      by eapply get_column_in_columns.
    + unfold to_datetime. by intros ->.
  - intros c Hc Hc1 Hc2. rewrite Hget3, Hget2, Hget1 by done.
    rewrite decide_False; [done|]. intros [Hin _]%date_columns_spec. congruence.
  - rewrite !Hhas in H3.
    destruct (has_column "fecha_orden" df && has_column "fecha_completado" df).
    + apply bind_Ok in H3 as (fc & Hfc & (fo & Hfo & [= <-])%bind_Ok).
      exists fo, fc. rewrite !get_set_ne by done. by rewrite get_set_eq.
    + injection H3 as <-. rewrite Hget2 by done.
      rewrite Hget1, decide_False; [done|].
      intros [Hin _]%date_columns_spec. by vm_compute in Hin.
Qed.

End fechas.

Lemma date_columns_become_timestamps_witness :
  ∃ out,
    @transform_ordenes_produccion Reader.iso_reader ordenes_with_delivery_date
    = Ok out
    ∧ cells "Fecha_Entrega" out = [VDate 1705276800000000000; NA]
    ∧ cells "fecha_orden" out = [VDate 1704067200000000000; NA]
    ∧ has_column "duracion_dias" out = false.
Proof.
  eexists.
  assert (@transform_ordenes_produccion Reader.iso_reader
            ordenes_with_delivery_date = Ok _) as H
    by (vm_compute; reflexivity).
  destruct (date_columns_become_timestamps (reader := Reader.iso_reader) _ _ H)
    as (Hdates & _ & Hdur).
  split; [exact H|]. split; [|split].
  - destruct (Hdates "Fecha_Entrega" _ eq_refl eq_refl) as (Hget & _).
    by rewrite (cells_get _ _ _ Hget).
  - destruct (Hdates "fecha_orden" _ eq_refl eq_refl) as (Hget & _).
    by rewrite (cells_get _ _ _ Hget).
  - reflexivity.
Defined.

(** ** Exceptions of the builders *)

Lemma only_KeyError_Ok {A} (a : A) : only_KeyError (Ok a).
Proof. by intros e. Qed.

Lemma only_KeyError_bind {A B} (m : result A) (f : A → result B) :
  only_KeyError m → (∀ a, m = Ok a → only_KeyError (f a)) →
  only_KeyError (m ≫= f).
Proof.
  intros Hm Hf e. destruct m as [a|e']; simpl; [by apply Hf|].
  intros [= <-]. by apply Hm.
Qed.

Lemma only_KeyError_get c df : only_KeyError (get_column c df).
Proof.
  intros e He.
  assert (has_column c df = false) as Hno by by rewrite has_column_get, He.
  apply has_column_false in Hno. congruence.
Qed.

Lemma only_KeyError_select cs df : only_KeyError (select cs df).
Proof.
  induction cs as [|c cs IH]; simpl; [apply only_KeyError_Ok|].
  apply only_KeyError_bind; [apply only_KeyError_get|]. intros s _.
  apply only_KeyError_bind; [done|]. intros rest _. apply only_KeyError_Ok.
Qed.

Lemma only_KeyError_merge left right lo ro sfx :
  only_KeyError (merge_left left right lo ro sfx).
Proof.
  unfold merge_left.
  apply only_KeyError_bind; [apply only_KeyError_get|]. intros rk _.
  apply only_KeyError_bind; [apply only_KeyError_get|]. intros lk _.
  apply only_KeyError_Ok.
Qed.

Lemma only_KeyError_agg spec gk keys df :
  only_KeyError (agg_columns spec gk keys df).
Proof.
  induction spec as [|[c f] spec IH]; simpl; [apply only_KeyError_Ok|].
  apply only_KeyError_bind; [apply only_KeyError_get|]. intros s _.
  apply only_KeyError_bind; [done|]. intros rest _. apply only_KeyError_Ok.
Qed.

Lemma only_KeyError_groupby key spec df :
  only_KeyError (groupby_agg key spec df).
Proof.
  unfold groupby_agg.
  apply only_KeyError_bind; [apply only_KeyError_get|]. intros ks _.
  apply only_KeyError_bind; [apply only_KeyError_agg|]. intros cols _.
  apply only_KeyError_Ok.
Qed.

Ltac only_KeyError :=
  repeat first
    [ apply only_KeyError_Ok | apply only_KeyError_get
    | apply only_KeyError_select | apply only_KeyError_merge
    | apply only_KeyError_groupby
    | (apply only_KeyError_bind; [|intros ? _]) ].

Lemma select_Ok cs df out :
  select cs df = Ok out → has_columns cs df = true ∧ columns out = cs.
Proof.
  revert out. induction cs as [|c cs IH]; intros out; simpl.
  { by intros [= <-]. }
  intros (s & Hs & (rest & Hrest & [= <-])%bind_Ok)%bind_Ok.
  destruct (IH _ Hrest) as [Hcs Hcols]. split.
  - unfold has_columns in *. simpl. rewrite Hcs, andb_true_r.
    apply has_column_true. eauto.
  - unfold columns in *. simpl. by f_equal.
Qed.

(** The labels of a merged frame. *)
Lemma merge_left_columns_elem left right lo ro sx sy out c :
  merge_left left right lo ro (sx, sy) = Ok out →
  c ∈ columns out →
  (∃ n, n ∈ columns left ∧ merged_label left right lo ro sx n = c)
  ∨ (∃ n, n ∈ columns right ∧ ¬ (lo = ro ∧ n = lo)
          ∧ merged_label left right lo ro sy n = c).
Proof.
  intros (lk & rk & _ & _ & ->)%merge_left_Ok. unfold columns.
  rewrite fmap_app, elem_of_app. change (map ?f ?l) with (f <$> l).
  rewrite <- !list_fmap_compose.
  intros [Hin|Hin]; apply list_elem_of_fmap in Hin as ([n s] & -> & Hin).
  - left. exists n. split; [|done]. apply list_elem_of_fmap. by exists (n, s).
  - right. apply list_elem_of_filter in Hin as [Hkey Hin]. exists n.
    split; [apply list_elem_of_fmap; by exists (n, s)|]. split; [|done].
    simpl in Hkey. intros [-> ->]. apply Hkey.
    by rewrite !bool_decide_eq_true_2.
Qed.

Lemma merged_label_cases left right lo ro sfx n :
  merged_label left right lo ro sfx n = n
  ∨ (merged_label left right lo ro sfx n = n +:+ sfx
     ∧ has_column n left = true ∧ has_column n right = true).
Proof.
  unfold merged_label.
  destruct (has_column n left), (has_column n right); simpl; auto.
  destruct (negb _); auto.
Qed.

Lemma suffixed_ne n sfx : sfx ≠ "" → n +:+ sfx ≠ n.
Proof.
  intros Hs. induction n as [|c n IH].
  - by rewrite app_nil_string.
  - rewrite app_cons_string. by intros [= ?].
Qed.

Lemma has_columns_elem cs df c :
  has_columns cs df = true → c ∈ cs → has_column c df = true.
Proof.
  unfold has_columns. induction cs as [|c0 cs IH]; simpl.
  { by intros _ ?%elem_of_nil. }
  intros [H0 Hcs]%andb_true_iff [->|Hc]%elem_of_cons; auto.
Qed.

Lemma has_column_elem c df : has_column c df = true ↔ c ∈ columns df.
Proof. unfold has_column. apply bool_decide_eq_true. Qed.

(** The builder of the complete orders returns a table only when the
    orders have the two foreign keys and the customers and the employees
    have the three columns that are looked up: without one of these
    columns it raises. *)
Theorem complete_orders_need_their_columns ordenes clientes empleados :
  is_Ok (DataLoader._create_ordenes_completas ordenes clientes empleados)
  = true →
  has_columns ["id_cliente"; "id_empleado_responsable"] ordenes = true
  ∧ has_columns ["id_cliente"; "nombre_empresa"; "ciudad"] clientes = true
  ∧ has_columns ["id_empleado"; "nombre"; "cargo"] empleados = true.
Proof.
  - destruct (DataLoader._create_ordenes_completas _ _ _) as [out|e] eqn:Hout;
      [intros _|done].
    unfold DataLoader._create_ordenes_completas in Hout.
    apply bind_Ok in Hout as (R1 & HR1 & (df1 & Hdf1 & Hout)%bind_Ok).
    apply bind_Ok in Hout as (R2 & HR2 & (df2 & Hdf2 & _)%bind_Ok).
    apply select_Ok in HR1 as [Hc HR1]. apply select_Ok in HR2 as [He HR2].
    split; [|done].
    pose proof Hdf1 as (lk1 & rk1 & Hlk1 & _ & _)%merge_left_Ok.
    pose proof Hdf2 as (lk2 & rk2 & Hlk2 & _ & _)%merge_left_Ok.
    unfold has_columns. simpl. rewrite andb_true_r. apply andb_true_iff.
    split; [apply has_column_true; eauto|].
    apply get_column_in_columns in Hlk2.
    apply (merge_left_columns_elem _ _ _ _ _ _ _ _ Hdf1) in Hlk2
      as [(n & Hn & Hlabel)|(n & Hn & Hkey & Hlabel)].
    + destruct (merged_label_cases ordenes R1 "id_cliente" "id_cliente" "_x" n)
        as [Heq|[Heq _]]; rewrite Heq in Hlabel.
      * subst n. by apply has_column_elem.
      * by apply not_suffixed in Hlabel.
    + exfalso. rewrite HR1 in Hn.
      destruct (merged_label_cases ordenes R1 "id_cliente" "id_cliente" "_y" n)
        as [Heq|[Heq _]]; rewrite Heq in Hlabel; clear Heq;
        repeat (apply elem_of_cons in Hn as [->|Hn]);
        try (by apply elem_of_nil in Hn); by vm_compute in Hlabel.
Qed.

Lemma complete_orders_need_their_columns_witness :
  has_columns ["id_cliente"; "id_empleado_responsable"] ordenes_limpio = true
  ∧ has_columns ["id_cliente"; "nombre_empresa"; "ciudad"] clientes_limpio
    = true
  ∧ has_columns ["id_empleado"; "nombre"; "cargo"] empleados_limpio = true.
Proof.
  apply (complete_orders_need_their_columns ordenes_limpio clientes_limpio
           empleados_limpio).
  vm_compute. reflexivity.
Defined.

(** Order lines that carry a column [nombre_producto] of their own make
    the builder of the product sales raise, whatever the other tables are:
    it returns no table, since both name columns are suffixed by the merge
    and the aggregation finds none under the plain label. *)
Theorem product_name_in_order_lines_raises detalles productos ordenes :
  has_column "nombre_producto" detalles = true →
  is_Ok (DataLoader._create_ventas_por_producto detalles productos ordenes)
  = false.
Proof.
  intros Hname.
  destruct (DataLoader._create_ventas_por_producto _ _ _) as [out|e] eqn:Hout;
    [|done].
  exfalso. unfold DataLoader._create_ventas_por_producto in Hout.
  apply bind_Ok in Hout as (R1 & HR1 & (df1 & Hdf1 & Hout)%bind_Ok).
  apply bind_Ok in Hout as (R2 & HR2 & (df2 & Hdf2 & Hout)%bind_Ok).
  apply bind_Ok in Hout as (ventas & Hventas & _).
  apply select_Ok in HR1 as [Hp HR1]. apply select_Ok in HR2 as [Ho HR2].
  apply groupby_agg_Ok in Hventas as (ks & cols & _ & Hagg & _).
  simpl in Hagg. apply bind_Ok in Hagg as (s & Hs & _).
  apply get_column_in_columns in Hs.
  assert (has_column "nombre_producto" R1 = true) as Hright
    by (apply has_column_elem; rewrite HR1; set_solver).
  assert ("nombre_producto" ∉ columns df1) as Hno1.
  { intros [(n & Hn & Hlabel)|(n & Hn & Hkey & Hlabel)]
      %(merge_left_columns_elem _ _ _ _ _ _ _ _ Hdf1).
    - unfold merged_label in Hlabel.
      destruct (decide (n = "nombre_producto")) as [->|Hne].
      + rewrite Hname in Hlabel.
        rewrite Hright in Hlabel.
        by vm_compute in Hlabel.
      + destruct (_ && _ && _); [|done]. by apply not_suffixed in Hlabel.
    - rewrite HR1 in Hn. unfold merged_label in Hlabel.
      repeat (apply elem_of_cons in Hn as [->|Hn]);
        try (by apply elem_of_nil in Hn).
      + by destruct Hkey.
      + rewrite Hname in Hlabel.
        rewrite Hright in Hlabel.
        by vm_compute in Hlabel. }
  apply (merge_left_columns_elem _ _ _ _ _ _ _ _ Hdf2) in Hs
    as [(n & Hn & Hlabel)|(n & Hn & Hkey & Hlabel)].
  - destruct (merged_label_cases df1 R2 "id_orden" "id_orden" "_x" n)
      as [Heq|[Heq _]]; rewrite Heq in Hlabel.
    + by subst n.
    + by apply not_suffixed in Hlabel.
  - rewrite HR2 in Hn.
    destruct (merged_label_cases df1 R2 "id_orden" "id_orden" "_y" n)
      as [Heq|[Heq _]]; rewrite Heq in Hlabel; clear Heq;
      repeat (apply elem_of_cons in Hn as [->|Hn]);
      try (by apply elem_of_nil in Hn); by vm_compute in Hlabel.
Qed.

Lemma product_name_in_order_lines_raises_witness :
  is_Ok (DataLoader._create_ventas_por_producto detalles_with_product_name
           productos_limpio ordenes_limpio) = false.
Proof. by apply product_name_in_order_lines_raises. Defined.

(** ** Looked-up attributes of the complete orders *)

(** A column of the right frame that the left frame does not have. *)
Lemma merge_left_right_column left right lo ro sx sy out lk rk c s :
  merge_left left right lo ro (sx, sy) = Ok out →
  get_column lo left = Ok lk → get_column ro right = Ok rk →
  get_column c right = Ok s →
  has_column c left = false →
  ¬ (lo = ro ∧ c = lo) →
  (∀ n, n ∈ columns right → n ≠ c → n +:+ sx ≠ c ∧ n +:+ sy ≠ c) →
  get_column c out
  = Ok (take_rows_opt ((join_rows (values lk) (values rk)).*2) s).
Proof.
  intros Hout Hlk Hrk Hs Hleft Hkey Hsfx.
  apply merge_left_Ok in Hout as (lk' & rk' & Hlk' & Hrk' & ->).
  rewrite Hlk in Hlk'. rewrite Hrk in Hrk'. injection Hlk' as <-.
  injection Hrk' as <-.
  assert (c ∉ columns left) as Hc.
  { intros Hin%has_column_elem. congruence. }
  rewrite get_column_app.
  rewrite (get_column_map_absent (merged_label left right lo ro sx)).
  2:{ intros n Hn.
      destruct (merged_label_cases left right lo ro sx n) as [->|(-> & _ & Hr)].
      - by intros ->.
      - apply Hsfx; [by apply has_column_elem|]. by intros ->. }
  apply (get_column_map_Ok (merged_label left right lo ro sy)).
  - rewrite get_column_filter; [done|]. intros s0. simpl.
    intros [Hlo%bool_decide_eq_true Hc'%bool_decide_eq_true]
      %Is_true_true%andb_true_iff.
    by apply Hkey.
  - unfold merged_label. by rewrite Hleft.
  - intros n Hn.
    assert (n ∈ columns right) as Hn'.
    { unfold columns in *. apply list_elem_of_fmap in Hn as ([n' s'] & -> & Hin).
      apply list_elem_of_filter in Hin as [_ Hin].
      apply list_elem_of_fmap. by exists (n', s'). }
    destruct (merged_label_cases left right lo ro sy n) as [->|(-> & _)];
      [done|].
    intros Heq. destruct (decide (n = c)) as [|Hne]; [done|].
    by destruct (Hsfx n Hn' Hne) as [_ ?].
Qed.

Lemma get_column_rename_to m c c' s df :
  get_column c df = Ok s →
  default c (assoc c m) = c' →
  (∀ n, n ∈ columns df → default n (assoc n m) = c' → n = c) →
  get_column c' (rename m df) = Ok s.
Proof.
  intros Hs Hc Hm. unfold rename. induction df as [|[n s0] df IH]; [done|].
  simpl in *. destruct (decide (n = c)) as [->|Hne].
  - injection Hs as ->. by rewrite Hc, decide_True.
  - rewrite decide_False.
    + apply IH; [done|]. intros n' Hn'. apply Hm. by right.
    + intros Heq. apply Hne, Hm; [left|done].
Qed.

(** The right rows of a join on unique keys: for each left key the row
    that carries it, if there is one. *)
Lemma join_rows_from_unique_snd i lk rk :
  NoDup rk →
  (join_rows_from i lk rk).*2 = map (λ k, head (matches k rk)) lk.
Proof.
  intros Hnd. revert i.
  induction lk as [|k lk IH]; intros i; cbn [join_rows_from map]; [done|].
  rewrite fmap_app, IH. pose proof (matches_unique k rk Hnd) as Hlen.
  by destruct (matches k rk) as [|j [|]]; simpl in *; [..|lia].
Qed.

Lemma join_rows_unique_snd lk rk :
  NoDup rk → (join_rows lk rk).*2 = map (λ k, head (matches k rk)) lk.
Proof. apply join_rows_from_unique_snd. Qed.

(** A looked-up cell on unique keys. *)
Lemma looked_up_cell lk rk s r k :
  NoDup rk → length (values s) = length rk →
  lk !! r = Some k →
  (∀ j, rk !! j = Some k →
        values (take_rows_opt ((join_rows lk rk).*2) s) !! r = values s !! j)
  ∧ (k ∉ rk →
     values (take_rows_opt ((join_rows lk rk).*2) s) !! r = Some NA).
Proof.
  intros Hnd Hlen Hk. unfold take_rows_opt. cbn [values].
  rewrite join_rows_unique_snd by done. rewrite !map_lookup, Hk. simpl.
  pose proof (matches_unique k rk Hnd) as Hone. split.
  - intros j Hj. apply matches_spec in Hj as Hin.
    destruct (matches k rk) as [|j0 [|]]; simpl in *;
      [by apply elem_of_nil in Hin| |lia].
    apply list_elem_of_singleton in Hin as ->.
    destruct (lookup_lt_is_Some_2 (values s) j0) as [v Hv];
      [rewrite Hlen; by eapply lookup_lt_Some|].
    by rewrite Hv.
  - intros Hno. destruct (matches k rk) as [|j0 ?] eqn:Hm; [done|].
    exfalso. apply Hno. assert (j0 ∈ matches k rk) as Hin by (rewrite Hm; left).
    apply matches_spec in Hin. by eapply list_elem_of_lookup_2.
Qed.

Section ordenes_completas_lookups.
Context (ordenes clientes empleados : DataFrame).
Context (oc oresp cid cn cc eid en ec : Series).
Context (Hoc : get_column "id_cliente" ordenes = Ok oc).
Context (Horesp : get_column "id_empleado_responsable" ordenes = Ok oresp).
Context (Hlacks : lacks_columns
                    ["nombre_empresa"; "ciudad"; "id_empleado"; "nombre";
                     "cargo"; "nombre_empleado"; "cargo_empleado"] ordenes
                  = true).
Context (Hcid : get_column "id_cliente" clientes = Ok cid).
Context (Hcn : get_column "nombre_empresa" clientes = Ok cn).
Context (Hcc : get_column "ciudad" clientes = Ok cc).
Context (Heid : get_column "id_empleado" empleados = Ok eid).
Context (Hen : get_column "nombre" empleados = Ok en).
Context (Hec : get_column "cargo" empleados = Ok ec).

Lemma lacks_columns_elem cs df c :
  lacks_columns cs df = true → c ∈ cs → c ∉ columns df.
Proof.
  unfold lacks_columns. induction cs as [|c0 cs IH]; simpl.
  { by intros _ ?%elem_of_nil. }
  intros [H0%negb_true_iff Hcs]%andb_true_iff [->|Hc]%elem_of_cons; [|auto].
  intros Hin%has_column_elem. congruence.
Qed.

Lemma ordenes_completas_lookups :
  let idx1 := join_rows (values oc) (values cid) in
  let idx2 := join_rows (values (take_rows (idx1.*1) oresp)) (values eid) in
  ∃ out,
    DataLoader._create_ordenes_completas ordenes clientes empleados = Ok out
    ∧ get_column "nombre_empresa" out
      = Ok (take_rows (idx2.*1) (take_rows_opt (idx1.*2) cn))
    ∧ get_column "ciudad" out
      = Ok (take_rows (idx2.*1) (take_rows_opt (idx1.*2) cc))
    ∧ get_column "nombre_empleado" out = Ok (take_rows_opt (idx2.*2) en)
    ∧ get_column "cargo_empleado" out = Ok (take_rows_opt (idx2.*2) ec).
Proof.
  intros idx1 idx2.
  unfold DataLoader._create_ordenes_completas. simpl.
  rewrite Hcid, Hcn, Hcc. simpl.
  set (R1 := [("id_cliente", cid); ("nombre_empresa", cn); ("ciudad", cc)]).
  destruct (merge_left_success ordenes R1 "id_cliente" "id_cliente"
              ("_x", "_y") oc cid Hoc eq_refl) as [df1 Hdf1].
  rewrite Hdf1. simpl. rewrite Heid, Hen, Hec. simpl.
  set (R2 := [("id_empleado", eid); ("nombre", en); ("cargo", ec)]).
  pose proof (merge_left_col _ _ _ _ _ _ _ oc cid _ _ Hdf1 Hoc eq_refl Horesp
                (or_introl eq_refl) ltac:(labels)) as Horesp1.
  destruct (merge_left_success df1 R2 "id_empleado_responsable" "id_empleado"
              ("", "_empleado") _ eid Horesp1 eq_refl) as [df2 Hdf2].
  rewrite Hdf2. simpl.
  (* the labels that neither the orders nor the customers bring *)
  assert (∀ c, c ∈ ["id_empleado"; "nombre"; "cargo"; "nombre_empleado";
                    "cargo_empleado"] → c ∉ columns df1) as Hno1.
  { intros c Hc [(n & Hn & Hlabel)|(n & Hn & _ & Hlabel)]
      %(merge_left_columns_elem _ _ _ _ _ _ _ _ Hdf1).
    - destruct (merged_label_cases ordenes R1 "id_cliente" "id_cliente" "_x" n)
        as [Heq|[Heq _]]; rewrite Heq in Hlabel; clear Heq.
      + subst n. revert Hn. apply (lacks_columns_elem _ _ _ Hlacks).
        set_solver.
      + repeat (apply elem_of_cons in Hc as [->|Hc]);
          try (by apply elem_of_nil in Hc); by apply not_suffixed in Hlabel.
    - destruct (merged_label_cases ordenes R1 "id_cliente" "id_cliente" "_y" n)
        as [Heq|[Heq _]]; rewrite Heq in Hlabel; clear Heq;
        simpl in Hn;
        repeat (apply elem_of_cons in Hn as [->|Hn]);
        try (by apply elem_of_nil in Hn);
        repeat (apply elem_of_cons in Hc as [->|Hc]);
        try (by apply elem_of_nil in Hc); by vm_compute in Hlabel. }
  assert (∀ c, c ∈ ["nombre_empresa"; "ciudad"] →
               has_column c ordenes = false) as Hno0.
  { intros c Hc. apply not_true_iff_false. intros Hin%has_column_elem.
    revert Hin. apply (lacks_columns_elem _ _ _ Hlacks). set_solver. }
  assert (∀ c s, c ∈ ["nombre_empresa"; "ciudad"] → get_column c R1 = Ok s →
            get_column c df2
            = Ok (take_rows (idx2.*1) (take_rows_opt (idx1.*2) s))) as Hcust.
  { intros c s Hc Hs.
    apply (merge_left_col _ _ _ _ _ _ _ _ eid c _ Hdf2 Horesp1 eq_refl).
    - apply (merge_left_right_column _ _ _ _ _ _ _ oc cid c s Hdf1 Hoc eq_refl Hs).
      + by apply Hno0.
      + repeat (apply elem_of_cons in Hc as [->|Hc]);
          try (by apply elem_of_nil in Hc); by intros [_ [=]].
      + intros n Hn Hne. simpl in Hn.
        repeat (apply elem_of_cons in Hn as [->|Hn]);
          try (by apply elem_of_nil in Hn);
          repeat (apply elem_of_cons in Hc as [->|Hc]);
          try (by apply elem_of_nil in Hc); by vm_compute.
    - left. repeat (apply elem_of_cons in Hc as [->|Hc]);
        try (by apply elem_of_nil in Hc); done.
    - repeat (apply elem_of_cons in Hc as [->|Hc]);
        try (by apply elem_of_nil in Hc); labels. }
  assert (∀ c s, c ∈ ["nombre"; "cargo"] → get_column c R2 = Ok s →
            get_column c df2 = Ok (take_rows_opt (idx2.*2) s)) as Hemp.
  { intros c s Hc Hs.
    apply (merge_left_right_column _ _ _ _ _ _ _ _ eid c s Hdf2 Horesp1
             eq_refl Hs).
    - apply not_true_iff_false. intros Hin%has_column_elem. revert Hin.
      apply Hno1. set_solver.
    - by intros [[=] _].
    - intros n Hn Hne. simpl in Hn.
      repeat (apply elem_of_cons in Hn as [->|Hn]);
        try (by apply elem_of_nil in Hn);
        repeat (apply elem_of_cons in Hc as [->|Hc]);
        try (by apply elem_of_nil in Hc); by vm_compute. }
  assert (∀ c, c ∈ ["nombre_empleado"; "cargo_empleado"] → c ∉ columns df2)
    as Hno2.
  { intros c Hc [(n & Hn & Hlabel)|(n & Hn & _ & Hlabel)]
      %(merge_left_columns_elem _ _ _ _ _ _ _ _ Hdf2).
    - destruct (merged_label_cases df1 R2 "id_empleado_responsable"
                  "id_empleado" "" n) as [Heq|[Heq _]];
        rewrite Heq in Hlabel; clear Heq;
        rewrite ?app_empty_string in Hlabel; subst n;
        revert Hn; apply Hno1; set_solver.
    - destruct (merged_label_cases df1 R2 "id_empleado_responsable"
                  "id_empleado" "_empleado" n) as [Heq|(Heq & Hl & _)];
        rewrite Heq in Hlabel; clear Heq.
      + subst n. simpl in Hn.
        repeat (apply elem_of_cons in Hn as [Hn|Hn]);
          try (by apply elem_of_nil in Hn);
          repeat (apply elem_of_cons in Hc as [->|Hc]);
          try (by apply elem_of_nil in Hc); done.
      + apply has_column_elem in Hl. revert Hl. apply Hno1.
        simpl in Hn. set_solver. }
  eexists. split; [done|].
  split; [|split; [|split]].
  - rewrite get_column_rename; [apply Hcust; [set_solver|done]|done|].
    intros n _. simpl. repeat case_decide; simpl; intros Heq; (done || congruence).
  - rewrite get_column_rename; [apply Hcust; [set_solver|done]|done|].
    intros n _. simpl. repeat case_decide; simpl; intros Heq; (done || congruence).
  - apply (get_column_rename_to _ "nombre"); [|done|].
    + apply Hemp; [set_solver|done].
    + intros n Hn. simpl. repeat case_decide; simpl; try done.
      intros ->. exfalso. revert Hn. apply Hno2. set_solver.
  - apply (get_column_rename_to _ "cargo"); [|done|].
    + apply Hemp; [set_solver|done].
    + intros n Hn. simpl. repeat case_decide; simpl; try done.
      intros ->. exfalso. revert Hn. apply Hno2. set_solver.
Qed.

End ordenes_completas_lookups.

(** With customer ids unique in the customers and employee ids unique in
    the employees, each row of the complete orders shows, next to the
    order, the name and the city of the customer that carries the order's
    customer id, and the name and the position of the employee that carries
    its employee id (under the labels [nombre_empleado] and
    [cargo_empleado]); where no customer, or no employee, carries the id,
    these attributes are null. *)
Theorem complete_orders_look_up_attributes ordenes clientes empleados :
  rectangular ordenes → rectangular clientes → rectangular empleados →
  has_columns ["id_cliente"; "id_empleado_responsable"] ordenes = true →
  lacks_columns ["nombre_empresa"; "ciudad"; "id_empleado"; "nombre"; "cargo";
                 "nombre_empleado"; "cargo_empleado"] ordenes = true →
  has_columns ["id_cliente"; "nombre_empresa"; "ciudad"] clientes = true →
  has_columns ["id_empleado"; "nombre"; "cargo"] empleados = true →
  NoDup (cells "id_cliente" clientes) →
  NoDup (cells "id_empleado" empleados) →
  ∃ out,
    DataLoader._create_ordenes_completas ordenes clientes empleados = Ok out
    ∧ (∀ r k, cells "id_cliente" ordenes !! r = Some k →
         (∀ j, cells "id_cliente" clientes !! j = Some k →
               cells "nombre_empresa" out !! r
               = cells "nombre_empresa" clientes !! j
               ∧ cells "ciudad" out !! r = cells "ciudad" clientes !! j)
         ∧ (k ∉ cells "id_cliente" clientes →
            cells "nombre_empresa" out !! r = Some NA
            ∧ cells "ciudad" out !! r = Some NA))
    ∧ (∀ r k, cells "id_empleado_responsable" ordenes !! r = Some k →
         (∀ j, cells "id_empleado" empleados !! j = Some k →
               cells "nombre_empleado" out !! r = cells "nombre" empleados !! j
               ∧ cells "cargo_empleado" out !! r
                 = cells "cargo" empleados !! j)
         ∧ (k ∉ cells "id_empleado" empleados →
            cells "nombre_empleado" out !! r = Some NA
            ∧ cells "cargo_empleado" out !! r = Some NA)).
Proof.
  intros Hro Hrc Hre Ho Hlacks Hc He Hcu Heu.
  column oc Hoc of Ho. column oresp Horesp of Ho.
  column cid Hcid of Hc. column cn Hcn of Hc. column cc Hcc of Hc.
  column eid Heid of He. column en Hen of He. column ec Hec of He.
  rewrite (cells_get _ _ _ Hcid) in *. rewrite (cells_get _ _ _ Heid) in *.
  rewrite (cells_get _ _ _ Hoc), (cells_get _ _ _ Horesp),
    (cells_get _ _ _ Hcn), (cells_get _ _ _ Hcc), (cells_get _ _ _ Hen),
    (cells_get _ _ _ Hec).
  destruct (ordenes_completas_lookups ordenes clientes empleados
              _ _ _ _ _ _ _ _ Hoc Horesp Hlacks Hcid Hcn Hcc Heid Hen Hec)
    as (out & Hout & Hne & Hci & Hnm & Hcg).
  exists out. split; [done|].
  rewrite (cells_get _ _ _ Hne), (cells_get _ _ _ Hci),
    (cells_get _ _ _ Hnm), (cells_get _ _ _ Hcg).
  pose proof (rectangular_get _ _ _ Hro Hoc) as Hloc.
  pose proof (rectangular_get _ _ _ Hro Horesp) as Hloresp.
  pose proof (rectangular_get _ _ _ Hrc Hcid) as Hlcid.
  pose proof (rectangular_get _ _ _ Hrc Hcn) as Hlcn.
  pose proof (rectangular_get _ _ _ Hrc Hcc) as Hlcc.
  pose proof (rectangular_get _ _ _ Hre Heid) as Hleid.
  pose proof (rectangular_get _ _ _ Hre Hen) as Hlen.
  pose proof (rectangular_get _ _ _ Hre Hec) as Hlec.
  rewrite (take_rows_unique (nrows ordenes) (values oc) (values cid) oresp)
    by done.
  assert (∀ s, length (values (take_rows_opt
                                 ((join_rows (values oc) (values cid)).*2) s))
               = nrows ordenes) as Hlopt.
  { intros s. rewrite take_rows_opt_length, length_fmap.
    by rewrite join_rows_unique_length. }
  rewrite !(take_rows_unique (nrows ordenes) (values oresp) (values eid)
              (take_rows_opt _ _)) by done.
  split.
  - intros r k Hk.
    destruct (looked_up_cell (values oc) (values cid) cn r k Hcu
                ltac:(congruence) Hk) as [Hn1 Hn2].
    destruct (looked_up_cell (values oc) (values cid) cc r k Hcu
                ltac:(congruence) Hk) as [Hc1 Hc2].
    split; [intros j Hj; split; auto|intros Hno; split; auto].
  - intros r k Hk.
    destruct (looked_up_cell (values oresp) (values eid) en r k Heu
                ltac:(congruence) Hk) as [Hn1 Hn2].
    destruct (looked_up_cell (values oresp) (values eid) ec r k Heu
                ltac:(congruence) Hk) as [Hc1 Hc2].
    split; [intros j Hj; split; auto|intros Hno; split; auto].
Qed.

Lemma complete_orders_look_up_attributes_witness :
  ∃ out,
    DataLoader._create_ordenes_completas ordenes_unknown_customer
      clientes_limpio empleados_limpio = Ok out
    ∧ cells "nombre_empresa" out = [VStr "Bolt"; NA]
    ∧ cells "nombre_empleado" out = [VStr "Ana"; NA].
Proof.
  destruct (complete_orders_look_up_attributes ordenes_unknown_customer
              clientes_limpio empleados_limpio)
    as (out & Hout & Hcust & Hemp);
    [repeat constructor.. | reflexivity | reflexivity | reflexivity
    | reflexivity | compute_done | compute_done |].
  exists out. split; [done|].
  pose proof Hout as Hrun. vm_compute in Hrun. injection Hrun as <-.
  split; reflexivity.
Defined.

(** ** Customer metrics: customers without order lines, first and last
    order *)

Lemma keep_where_Forall_lookup {A} (P : A → Prop) mask (xs : list A) :
  (∀ i v, mask !! i = Some true → xs !! i = Some v → P v) →
  Forall P (keep_where mask xs).
Proof.
  revert xs. induction mask as [|b mask IH]; intros [|x xs] H; simpl;
    try constructor.
  destruct b.
  - constructor; [by apply (H 0)|]. apply IH. intros i v. apply (H (S i)).
  - apply IH. intros i v. apply (H (S i)).
Qed.

Lemma group_of_Forall (P : cell → Prop) k keys vs :
  (∀ i v, keys !! i = Some k → vs !! i = Some v → P v) →
  Forall P (group_of k keys vs).
Proof.
  intros H. apply keep_where_Forall_lookup. intros i v Hi Hv.
  apply (H i); [|done]. rewrite map_lookup in Hi.
  destruct (keys !! i) as [w|]; simpl in Hi; [|done].
  injection Hi as Hi%bool_decide_eq_true. by subst.
Qed.

Lemma agg_sum_all_null l : Forall (λ v, v = NA) l → agg_sum l = VNum (Fin 0).
Proof.
  intros Hl. unfold agg_sum.
  assert (∀ acc, foldl (λ acc c, match c with
                                 | VNum x => acc ≫= λ a, num_add a x
                                 | _ => acc
                                 end) acc l = acc) as ->; [|done].
  induction Hl as [|v l -> _ IH]; intros acc; simpl; [done|apply IH].
Qed.

Lemma zero_over_count n :
  1 ≤ n → cell_div (VNum (Fin 0)) (VNum (num_of_nat n)) = VNum (Fin 0).
Proof.
  intros Hn. unfold num_of_nat, num_of_Z. rewrite cell_div_finite.
  - do 2 f_equal. unfold Qcdiv. apply Qcmult_0_l.
  - intros Heq. pose proof (Qc_of_Z_pos (Z.of_nat n) ltac:(lia)) as Hpos.
    rewrite Heq in Hpos. by apply Qclt_not_eq in Hpos.
Qed.

(** The minimum and the maximum of the dates of a group. *)
Lemma agg_min_max_dates l :
  Forall date_or_null l →
  (agg_min l = NA ∧ agg_max l = NA)
  ∨ ∃ ta tb, agg_min l = VDate ta ∧ agg_max l = VDate tb ∧ (ta ≤ tb)%Z
             ∧ VDate ta ∈ l ∧ VDate tb ∈ l.
Proof.
  intros Hl. unfold agg_min, agg_max.
  set (fmin := λ acc c : cell, match acc, c with
                               | _, NA => acc
                               | NA, _ => c
                               | _, _ => if cell_leb c acc then c else acc
                               end).
  set (fmax := λ acc c : cell, match acc, c with
                               | _, NA => acc
                               | NA, _ => c
                               | _, _ => if cell_leb acc c then c else acc
                               end).
  assert (∀ pre amin amax,
            ((amin = NA ∧ amax = NA)
             ∨ ∃ ta tb, amin = VDate ta ∧ amax = VDate tb ∧ (ta ≤ tb)%Z
                        ∧ VDate ta ∈ pre ∧ VDate tb ∈ pre) →
            (foldl fmin amin l = NA ∧ foldl fmax amax l = NA)
            ∨ ∃ ta tb, foldl fmin amin l = VDate ta
                       ∧ foldl fmax amax l = VDate tb ∧ (ta ≤ tb)%Z
                       ∧ VDate ta ∈ pre ++ l ∧ VDate tb ∈ pre ++ l) as Hgen.
  { induction Hl as [|c l Hc _ IH]; intros pre amin amax Hinv.
    { simpl. by rewrite app_nil_r. }
    cbn [foldl].
    replace (pre ++ c :: l) with ((pre ++ [c]) ++ l) by by rewrite <- app_assoc.
    apply IH. destruct Hc as [->|[t ->]].
    - destruct Hinv as [[-> ->]|(ta & tb & -> & -> & Hle & Ha & Hb)];
        [by left|right].
      exists ta, tb. repeat split; try done; apply elem_of_app; by left.
    - right. destruct Hinv as [[-> ->]|(ta & tb & -> & -> & Hle & Ha & Hb)].
      + exists t, t. simpl. repeat split; try done; set_solver.
      + simpl. repeat case_bool_decide.
        * exists t, t. repeat split; try done; set_solver.
        * exists t, tb. repeat split; try done; [lia|set_solver..].
        * exists ta, t. repeat split; try done; [lia|set_solver..].
        * exists ta, tb. repeat split; try done; set_solver. }
  destruct (Hgen [] NA NA) as [?|?]; [by left|by left|by right].
Qed.

Section metricas_rows.
Context (ordenes detalles clientes : DataFrame).
Context (oo oc ofe dord ds cid cn cc : Series).
Context (Hrect : rectangular ordenes).
Context (Hoo : get_column "id_orden" ordenes = Ok oo).
Context (Hoc : get_column "id_cliente" ordenes = Ok oc).
Context (Hofe : get_column "fecha_orden" ordenes = Ok ofe).
Context (Hot : has_column "total_orden" ordenes = false).
Context (Hdord : get_column "id_orden" detalles = Ok dord).
Context (Hds : get_column "subtotal" detalles = Ok ds).
Context (Hcid : get_column "id_cliente" clientes = Ok cid).
Context (Hcn : get_column "nombre_empresa" clientes = Ok cn).
Context (Hcc : get_column "ciudad" clientes = Ok cc).

(** The customer metrics, with the join of the orders and their totals
    written out: the totals have one row per order id, so that the orders
    go through the join as they are. *)
Lemma metricas_por_cliente_rows :
  let ogk := group_keys (values dord) in
  let total_orden :=
    take_rows_opt ((join_rows (values oo) ogk).*2)
      (agg_column Sum ogk (values dord) ds) in
  let keys := values oc in
  let gk := group_keys keys in
  let idx := join_rows gk (values cid) in
  let ingresos := take_rows (idx.*1) (agg_column Sum gk keys total_orden) in
  let num := take_rows (idx.*1) (agg_column Count gk keys oo) in
  DataLoader._create_metricas_por_cliente ordenes detalles clientes
  = Ok [("id_cliente", take_rows (idx.*1) (mkSeries (dtype_of oc) gk));
        ("num_ordenes", num);
        ("ingresos_totales", ingresos);
        ("primera_orden", take_rows (idx.*1) (agg_column Min gk keys ofe));
        ("ultima_orden", take_rows (idx.*1) (agg_column Max gk keys ofe));
        ("nombre_empresa", take_rows_opt (idx.*2) cn);
        ("ciudad", take_rows_opt (idx.*2) cc);
        ("ticket_promedio", series_div ingresos num)].
Proof.
  intros ogk total_orden keys gk idx ingresos num.
  pose proof (metricas_por_cliente_run ordenes detalles clientes
                _ _ _ _ _ _ _ _ Hoo Hoc Hofe Hot Hdord Hds Hcid Hcn Hcc)
    as Hout.
  cbv beta zeta in Hout. fold ogk in Hout.
  pose proof (rectangular_get _ _ _ Hrect Hoo) as Hloo.
  pose proof (rectangular_get _ _ _ Hrect Hoc) as Hloc.
  pose proof (rectangular_get _ _ _ Hrect Hofe) as Hlofe.
  rewrite !(take_rows_unique (nrows ordenes) (values oo) ogk oc),
    !(take_rows_unique (nrows ordenes) (values oo) ogk oo),
    !(take_rows_unique (nrows ordenes) (values oo) ogk ofe) in Hout
    by (done || apply group_keys_NoDup).
  exact Hout.
Qed.

End metricas_rows.

(** A row of a column taken through the rows of a left join. *)
Lemma take_rows_join_lookup lk rk s r v :
  values (take_rows ((join_rows lk rk).*1) s) !! r = Some v →
  length (values s) = length lk →
  ∃ j, (join_rows lk rk).*1 !! r = Some j ∧ j < length lk
       ∧ values s !! j = Some v.
Proof.
  unfold take_rows. cbn [values]. rewrite map_lookup. intros Hr Hlen.
  destruct ((join_rows lk rk).*1 !! r) as [j|] eqn:Hj; [|done].
  simpl in Hr. injection Hr as <-.
  assert (j < length lk) as Hlt
    by (apply (join_rows_left lk rk); by eapply list_elem_of_lookup_2).
  exists j. split; [done|]. split; [done|].
  destruct (lookup_lt_is_Some_2 (values s) j) as [w Hw]; [lia|].
  by rewrite Hw.
Qed.

(** A customer none of whose orders has an order line is listed with an
    income of 0, and with a mean ticket of 0 when it has an order with an
    order id: the missing totals of its orders are skipped by the sum. *)
Theorem customers_without_order_lines ordenes detalles clientes :
  rectangular ordenes →
  has_columns ["id_orden"; "id_cliente"; "fecha_orden"] ordenes = true →
  has_column "total_orden" ordenes = false →
  has_columns ["id_orden"] detalles = true →
  numeric "subtotal" detalles = true →
  has_columns ["id_cliente"; "nombre_empresa"; "ciudad"] clientes = true →
  ∃ out,
    DataLoader._create_metricas_por_cliente ordenes detalles clientes = Ok out
    ∧ ∀ r k,
        cells "id_cliente" out !! r = Some k →
        (∀ i o, cells "id_cliente" ordenes !! i = Some k →
                cells "id_orden" ordenes !! i = Some o →
                o ∉ cells "id_orden" detalles) →
        cells "ingresos_totales" out !! r = Some (VNum (Fin 0))
        ∧ ∀ n, 1 ≤ n →
            cells "num_ordenes" out !! r = Some (VNum (num_of_nat n)) →
            cells "ticket_promedio" out !! r = Some (VNum (Fin 0)).
Proof.
  intros Hrect Ho Hot Hd Hns Hc.
  column oo Hoo of Ho. column oc Hoc of Ho. column ofe Hofe of Ho.
  column dord Hdord of Hd. destruct (numeric_get _ _ Hns) as [ds Hds].
  column cid Hcid of Hc. column cn Hcn of Hc. column cc Hcc of Hc.
  rewrite (cells_get _ _ _ Hoo), (cells_get _ _ _ Hoc), (cells_get _ _ _ Hdord).
  pose proof (metricas_por_cliente_rows ordenes detalles clientes
                _ _ _ _ _ _ _ _ Hrect Hoo Hoc Hofe Hot Hdord Hds Hcid Hcn Hcc)
    as Hout.
  cbv beta zeta in Hout. eexists. split; [exact Hout|].
  pose proof (rectangular_get _ _ _ Hrect Hoo) as Hloo.
  pose proof (rectangular_get _ _ _ Hrect Hoc) as Hloc.
  set (ogk := group_keys (values dord)) in *.
  set (gk := group_keys (values oc)) in *.
  set (total := take_rows_opt (join_rows (values oo) ogk).*2
                  (agg_column Sum ogk (values dord) ds)) in *.
  match goal with |- context [cells "ingresos_totales" ?o] => set (out := o) end.
  intros r k Hkey Hnone. unfold out in Hkey. rewrite cells_head in Hkey.
  apply take_rows_join_lookup in Hkey as (j & Hj & Hjlt & Hk); [|done].
  cbn [values] in Hk.
  assert (cells "ingresos_totales" out !! r = Some (VNum (Fin 0))) as Hing.
  { erewrite cells_get by reflexivity.
    rewrite (take_rows_lookup _ _ _ _ Hj).
    rewrite (agg_column_lookup _ _ _ _ _ _ Hk). cbn [aggregate default].
    f_equal. apply agg_sum_all_null, group_of_Forall.
    intros i v Hi Hv.
    destruct (lookup_lt_is_Some_2 (values oo) i) as [o Hord];
      [rewrite Hloo, <- Hloc; by eapply lookup_lt_Some|].
    destruct (looked_up_cell (values oo) ogk
                (agg_column Sum ogk (values dord) ds) i o
                (group_keys_NoDup _) (agg_column_length _ _ _ _) Hord)
      as [_ Hnull].
    fold total in Hnull. rewrite Hnull in Hv; [congruence|].
    intros [_ Hin]%group_keys_spec. by apply (Hnone i o). }
  split; [exact Hing|]. intros n Hn Hnum.
  erewrite cells_get in Hing by reflexivity.
  erewrite cells_get in Hnum by reflexivity.
  erewrite cells_get by reflexivity.
  rewrite (series_div_lookup _ _ _ _ _ Hing Hnum). f_equal.
  by apply zero_over_count.
Qed.

Lemma customers_without_order_lines_witness :
  ∃ out,
    DataLoader._create_metricas_por_cliente ordenes_two_customers
      detalles_limpio clientes_limpio = Ok out
    ∧ cells "id_cliente" out = [int_cell 1; int_cell 2]
    ∧ cells "ingresos_totales" out !! 1 = Some (VNum (Fin 0))
    ∧ cells "ticket_promedio" out !! 1 = Some (VNum (Fin 0)).
Proof.
  destruct (customers_without_order_lines ordenes_two_customers
              detalles_limpio clientes_limpio)
    as (out & Hout & Hrow); [repeat constructor|reflexivity..|].
  exists out. split; [done|].
  assert (cells "id_cliente" out = [int_cell 1; int_cell 2]) as Hkeys.
  { pose proof Hout as Hrun. vm_compute in Hrun. injection Hrun as <-.
    reflexivity. }
  split; [done|].
  destruct (Hrow 1 (int_cell 2)) as [Hing Hticket]; [by rewrite Hkeys|..].
  - intros [|[|[|i]]] o; vm_compute; intros [=] [= <-];
      intros Hin; repeat (apply elem_of_cons in Hin as [Hin|Hin]);
      try discriminate; by apply elem_of_nil in Hin.
  - split; [done|]. apply (Hticket 1); [lia|].
    pose proof Hout as Hrun. vm_compute in Hrun. injection Hrun as <-.
    reflexivity.
Defined.

(** In every row of the customer metrics the first order is not after the
    last one: both are null, or both are order dates of the orders and the
    first is the earlier. *)
Theorem first_order_not_after_last ordenes detalles clientes :
  rectangular ordenes →
  has_columns ["id_orden"; "id_cliente"; "fecha_orden"] ordenes = true →
  has_column "total_orden" ordenes = false →
  has_columns ["id_orden"] detalles = true →
  numeric "subtotal" detalles = true →
  has_columns ["id_cliente"; "nombre_empresa"; "ciudad"] clientes = true →
  Forall date_or_null (cells "fecha_orden" ordenes) →
  ∃ out,
    DataLoader._create_metricas_por_cliente ordenes detalles clientes = Ok out
    ∧ ∀ r, r < nrows out →
        ∃ a b,
          cells "primera_orden" out !! r = Some a
          ∧ cells "ultima_orden" out !! r = Some b
          ∧ ((a = NA ∧ b = NA)
             ∨ ∃ ta tb, a = VDate ta ∧ b = VDate tb ∧ (ta ≤ tb)%Z
                        ∧ VDate ta ∈ cells "fecha_orden" ordenes
                        ∧ VDate tb ∈ cells "fecha_orden" ordenes).
Proof.
  intros Hrect Ho Hot Hd Hns Hc Hdates.
  column oo Hoo of Ho. column oc Hoc of Ho. column ofe Hofe of Ho.
  column dord Hdord of Hd. destruct (numeric_get _ _ Hns) as [ds Hds].
  column cid Hcid of Hc. column cn Hcn of Hc. column cc Hcc of Hc.
  rewrite (cells_get _ _ _ Hofe) in *.
  pose proof (metricas_por_cliente_rows ordenes detalles clientes
                _ _ _ _ _ _ _ _ Hrect Hoo Hoc Hofe Hot Hdord Hds Hcid Hcn Hcc)
    as Hout.
  cbv beta zeta in Hout. eexists. split; [exact Hout|].
  set (gk := group_keys (values oc)) in *.
  set (idx := join_rows gk (values cid)) in *.
  match goal with |- context [cells "primera_orden" ?o] => set (out := o) end.
  intros r Hr.
  assert (nrows out = length idx) as Hn by (unfold out; lengths).
  destruct (lookup_lt_is_Some_2 (idx.*1) r) as [j Hj];
    [rewrite length_fmap; lia|].
  assert (j < length gk) as Hjlt
    by (apply (join_rows_left gk (values cid)); by eapply list_elem_of_lookup_2).
  destruct (lookup_lt_is_Some_2 gk j Hjlt) as [k Hk].
  set (l := group_of k (values oc) (values ofe)).
  exists (agg_min l), (agg_max l).
  split; [|split].
  - erewrite cells_get by reflexivity. rewrite (take_rows_lookup _ _ _ _ Hj).
    by rewrite (agg_column_lookup _ _ _ _ _ _ Hk).
  - erewrite cells_get by reflexivity. rewrite (take_rows_lookup _ _ _ _ Hj).
    by rewrite (agg_column_lookup _ _ _ _ _ _ Hk).
  - assert (Forall date_or_null l) as Hl.
    { apply Forall_forall. intros v Hv%keep_where_elem.
      rewrite Forall_forall in Hdates. by apply Hdates. }
    destruct (agg_min_max_dates l Hl)
      as [?|(ta & tb & Ha & Hb & Hle & Hina & Hinb)]; [by left|right].
    exists ta, tb. repeat split; try done; by eapply keep_where_elem.
Qed.

Lemma first_order_not_after_last_witness :
  ∃ out,
    DataLoader._create_metricas_por_cliente ordenes_two_customers
      detalles_limpio clientes_limpio = Ok out
    ∧ cells "primera_orden" out !! 0 = Some (VDate 1704067200000000000)
    ∧ cells "ultima_orden" out !! 0 = Some (VDate 1704153600000000000).
Proof.
  destruct (first_order_not_after_last ordenes_two_customers
              detalles_limpio clientes_limpio)
    as (out & Hout & Hrow);
    [repeat constructor | reflexivity | reflexivity | reflexivity
    | reflexivity | reflexivity
    | unfold cells; simpl;
      repeat (apply Forall_cons; split; [right; by eexists|]);
      by apply Forall_nil |].
  exists out. split; [done|].
  pose proof Hout as Hrun. vm_compute in Hrun. injection Hrun as <-.
  split; reflexivity.
Defined.

(** ** Reading and saving the files *)

Lemma without_none_from (acc : gmap string DataFrame)
    (l : list (string * option DataFrame)) (k : string) :
  NoDup (l.*1) →
  (∀ v, (k, Some v) ∈ l →
        foldl (λ acc kv, match kv.2 with
                         | Some v => <[kv.1 := v]> acc
                         | None => acc
                         end) acc l !! k = Some v)
  ∧ ((∀ v, (k, Some v) ∉ l) →
     foldl (λ acc kv, match kv.2 with
                      | Some v => <[kv.1 := v]> acc
                      | None => acc
                      end) acc l !! k = acc !! k).
Proof.
  revert acc. induction l as [|[k0 o0] l IH]; intros acc Hnd.
  { split; [by intros v ?%elem_of_nil|done]. }
  rewrite fmap_cons in Hnd. apply NoDup_cons in Hnd as [Hk0 Hnd].
  cbn [foldl snd fst] in *.
  destruct (IH (match o0 with Some v => <[k0:=v]> acc | None => acc end) Hnd)
    as [IH1 IH2]. clear IH. split.
  - intros v Hin. apply elem_of_cons in Hin as [Heq|Hin]; [|by apply IH1].
    injection Heq as -> <-.
    rewrite IH2; [apply lookup_insert_eq|].
    intros v' Hin. apply Hk0. apply list_elem_of_fmap. by exists (k0, Some v').
  - intros Hno. rewrite IH2.
    + destruct o0 as [v0|]; [|done]. apply lookup_insert_ne. intros ->.
      apply (Hno v0). left.
    + intros v Hin. apply (Hno v). by right.
Qed.

(** What [extract_all] loads: each of the seven entities whose file can be
    read, as it was read, and nothing else. *)
Lemma extract_all_lookup read_csv k :
  DataExtractor.extract_all read_csv !! k
  = if decide (k ∈ entity_names) then read_csv (k +:+ ".csv") else None.
Proof.
  unfold DataExtractor.extract_all, DataExtractor.without_none.
  set (l := [("clientes", _); _; _; _; _; _; _]).
  assert (NoDup (l.*1)) as Hnd.
  { apply (bool_decide_unpack _). by vm_compute. }
  destruct (without_none_from ∅ l k Hnd) as [H1 H2].
  case_decide as Hk.
  - unfold entity_names in Hk.
    destruct (read_csv (k +:+ ".csv")) as [v|] eqn:Hv.
    + apply H1. unfold l.
      unfold DataExtractor.extract_clientes,
        DataExtractor.extract_ordenes_produccion,
        DataExtractor.extract_productos, DataExtractor.extract_materiales,
        DataExtractor.extract_empleados,
        DataExtractor.extract_detalles_orden,
        DataExtractor.extract_uso_materiales, DataExtractor._load_csv.
      repeat (apply elem_of_cons in Hk as [->|Hk]);
        try (by apply elem_of_nil in Hk);
        vm_compute in Hv; rewrite Hv; repeat first [by left|right].
    + rewrite H2; [done|]. intros v Hin. unfold l in Hin.
      unfold DataExtractor.extract_clientes,
        DataExtractor.extract_ordenes_produccion,
        DataExtractor.extract_productos, DataExtractor.extract_materiales,
        DataExtractor.extract_empleados,
        DataExtractor.extract_detalles_orden,
        DataExtractor.extract_uso_materiales, DataExtractor._load_csv in Hin.
      repeat (apply elem_of_cons in Hin as [Hin|Hin]);
        try (by apply elem_of_nil in Hin);
        injection Hin as -> Hin; vm_compute in Hv; congruence.
  - rewrite H2; [done|]. intros v Hin. apply Hk.
    apply (list_elem_of_fmap_2 fst) in Hin. exact Hin.
Qed.
Lemma append_suffix_inj (sfx a b : string) : a +:+ sfx = b +:+ sfx → a = b.
Proof.
  assert (∀ a b : string,
            String.length (a +:+ b) = String.length a + String.length b)
    as Hlen.
  { intros x y. induction x as [|c x IH]; simpl; [done|]. by rewrite IH. }
  revert b. induction a as [|c a IH]; intros [|c' b]; simpl; intros Heq.
  - done.
  - apply (f_equal String.length) in Heq. simpl in Heq.
    rewrite !Hlen in Heq. simpl in Heq. lia.
  - apply (f_equal String.length) in Heq. simpl in Heq.
    rewrite !Hlen in Heq. simpl in Heq. lia.
  - injection Heq as -> Heq. f_equal. by apply IH.
Qed.

(** The files a saving loop leaves. *)
Lemma save_loop_lookup (sfx : string) (tables files : gmap string DataFrame) :
  (∀ name df, tables !! name = Some df →
     map_fold (λ name df files, <[name +:+ sfx := df]> files) files tables
       !! (name +:+ sfx) = Some df)
  ∧ (∀ file, (∀ name, is_Some (tables !! name) → file ≠ name +:+ sfx) →
     map_fold (λ name df files, <[name +:+ sfx := df]> files) files tables
       !! file = files !! file).
Proof.
  apply (map_fold_weak_ind
    (λ (out : gmap string DataFrame) (tables : gmap string DataFrame),
       (∀ name df, tables !! name = Some df → out !! (name +:+ sfx) = Some df)
       ∧ (∀ file, (∀ name, is_Some (tables !! name) → file ≠ name +:+ sfx) →
                  out !! file = files !! file))).
  { split; [by intros ?? ?%lookup_empty_Some|done]. }
  intros k0 df0 m out Hk0 [IH1 IH2]. split.
  - intros name df Hdf. destruct (decide (name = k0)) as [->|Hne].
    + rewrite lookup_insert_eq in Hdf. injection Hdf as ->.
      apply lookup_insert_eq.
    + rewrite lookup_insert_ne in Hdf by done.
      rewrite lookup_insert_ne; [by apply IH1|].
      intros Heq%append_suffix_inj. by subst.
  - intros file Hfile. rewrite lookup_insert_ne.
    + apply IH2. intros name [df Hdf]. apply Hfile.
      destruct (decide (name = k0)) as [->|Hne]; [congruence|].
      rewrite lookup_insert_ne by done. by eexists.
    + intros <-. apply (Hfile k0); [|done]. rewrite lookup_insert_eq. by eexists.
Qed.

(** [save_processed] and [save_analytics] write each table of the
    dictionary to a file of its own, named after the table
    ([<name>_limpio.csv], [<name>.csv]): no table overwrites another, and a
    file of the directory that is not named after a table given is left as
    it was, so that nothing is ever removed. *)
Theorem saving_writes_one_file_per_table
    (tables files : gmap string DataFrame) :
  (∀ name df, tables !! name = Some df →
     save_processed tables files !! (name +:+ "_limpio.csv") = Some df
     ∧ save_analytics tables files !! (name +:+ ".csv") = Some df)
  ∧ (∀ file,
       (∀ name, is_Some (tables !! name) → file ≠ name +:+ "_limpio.csv") →
       save_processed tables files !! file = files !! file)
  ∧ (∀ file,
       (∀ name, is_Some (tables !! name) → file ≠ name +:+ ".csv") →
       save_analytics tables files !! file = files !! file).
Proof.
  unfold save_processed, save_analytics.
  destruct (save_loop_lookup "_limpio.csv" tables files) as [Hp1 Hp2].
  destruct (save_loop_lookup ".csv" tables files) as [Ha1 Ha2].
  split; [|split]; [|done..]. intros name df Hdf. split; auto.
Qed.

(** A file of an earlier run stays in the directory when its table is no
    longer given. *)
Example stale_file_is_kept :
  save_analytics (<["ordenes_completas" := ordenes_limpio]> ∅)
    (<["uso_materiales_agregado.csv" := uso_limpio]> ∅)
    !! "uso_materiales_agregado.csv" = Some uso_limpio.
Proof.
  unfold save_analytics.
  destruct (save_loop_lookup ".csv" (<["ordenes_completas" := ordenes_limpio]> ∅)
              (<["uso_materiales_agregado.csv" := uso_limpio]> ∅)) as [_ ->].
  - apply lookup_insert_eq.
  - intros name [df [[<- _]|[_ Hdf]]%lookup_insert_Some]; [done|].
    by rewrite lookup_empty in Hdf.
Qed.

(** ** [run_etl] *)

Section run_etl.
Context {reader : Parsers}.

Lemma cleaners_names : cleaners.*1 = entity_names.
Proof. reflexivity. Qed.

Lemma required_entities t k : k ∈ required t → k ∈ entity_names.
Proof.
  destruct t; unfold required, entity_names; intros Hk;
    repeat (apply elem_of_cons in Hk as [->|Hk]);
    try (by apply elem_of_nil in Hk); repeat first [by left|right].
Qed.

(** What the cleaned set of a run holds. *)
Lemma cleaned_raw_data read_csv clean :
  transform_all (DataExtractor.extract_all read_csv) = Ok clean →
  (∀ k, is_Some (clean !! k)
        ↔ k ∈ entity_names ∧ is_Some (read_csv (k +:+ ".csv")))
  ∧ (∀ k f df, (k, f) ∈ cleaners → read_csv (k +:+ ".csv") = Some df →
               ∃ o, f df = Ok o ∧ clean !! k = Some o).
Proof.
  rewrite transform_all_loop.
  intros [Hdone Hother]%entity_loop_Ok; [|apply cleaners_NoDup].
  rewrite cleaners_names in Hother.
  assert (∀ k f df, (k, f) ∈ cleaners → read_csv (k +:+ ".csv") = Some df →
                    ∃ o, f df = Ok o ∧ clean !! k = Some o) as Hclean.
  { intros k f df Hin Hdf. apply (Hdone k f df Hin).
    rewrite extract_all_lookup, decide_True; [done|].
    rewrite <- cleaners_names. by apply (list_elem_of_fmap_2 fst) in Hin. }
  split; [|done]. intros k. split.
  - intros [o Ho]. destruct (decide (k ∈ entity_names)) as [Hk|Hk].
    + split; [done|].
      destruct (read_csv (k +:+ ".csv")) as [df|] eqn:Hdf; [done|].
      rewrite Hother, lookup_empty in Ho; [done|]. right.
      by rewrite extract_all_lookup, decide_True.
    + rewrite Hother, lookup_empty in Ho; [done|by left].
  - intros [Hk [df Hdf]]. rewrite <- cleaners_names in Hk.
    apply list_elem_of_fmap in Hk as ([k' f] & -> & Hin). cbn [fst] in *.
    destruct (Hclean k' f df Hin Hdf) as (o & _ & ->). by eexists.
Qed.

(** A run that returns [True] has found [data/raw] and at least one of the
    seven files in it.  Each file it could read has been cleaned by the
    operation of its entity and the cleaned table is in
    [data/processed/<entity>_limpio.csv]; each derived table whose
    entities were all read has been built from the cleaned tables and is in
    [data/analytics/<table>.csv].  Every other file of the two directories is
    as it was before the run: the file of a table that is no longer built
    is not removed. *)
Theorem run_etl_success (d d' : disk) :
  run_etl d = (true, d') →
  ∃ read_csv clean,
    raw_dir d = Some read_csv ∧ raw_dir d' = Some read_csv
    ∧ (∃ k, k ∈ entity_names ∧ is_Some (read_csv (k +:+ ".csv")))
    ∧ (∀ k, is_Some (clean !! k)
            ↔ k ∈ entity_names ∧ is_Some (read_csv (k +:+ ".csv")))
    ∧ (∀ k f df, (k, f) ∈ cleaners → read_csv (k +:+ ".csv") = Some df →
         ∃ o, f df = Ok o ∧ clean !! k = Some o
              ∧ processed_dir d' !! (k +:+ "_limpio.csv") = Some o)
    ∧ (∀ file, (∀ k, is_Some (clean !! k) → file ≠ k +:+ "_limpio.csv") →
         processed_dir d' !! file = processed_dir d !! file)
    ∧ (∀ t, buildable t clean →
         ∃ tbl, builder t clean = Ok tbl
                ∧ analytics_dir d' !! (derived_name t +:+ ".csv") = Some tbl)
    ∧ (∀ file, (∀ t, buildable t clean → file ≠ derived_name t +:+ ".csv") →
         analytics_dir d' !! file = analytics_dir d !! file).
Proof.
  unfold run_etl. destruct (raw_dir d) as [read_csv|] eqn:Hraw; [|done].
  case_bool_decide as Hsize; [done|].
  destruct (transform_all _) as [clean|e] eqn:Hclean; [|done].
  destruct (DataLoader.create_analytics_tables clean) as [analytics|e]
    eqn:Hanalytics; [|done].
  intros [= <-]. cbn [raw_dir processed_dir analytics_dir].
  exists read_csv, clean.
  destruct (cleaned_raw_data _ _ Hclean) as [Hdom Hcleaned].
  destruct (save_loop_lookup "_limpio.csv" clean (processed_dir d))
    as [Hp1 Hp2].
  destruct (save_loop_lookup ".csv" analytics (analytics_dir d)) as [Ha1 Ha2].
  rewrite create_analytics_tables_blocks in Hanalytics.
  apply build_blocks_Ok in Hanalytics as [Hbuilt Hother];
    [|apply all_derived_NoDup].
  split; [done|]. split; [done|]. split; [|split; [done|]].
  { destruct (map_choose (DataExtractor.extract_all read_csv)) as (k & df & Hk).
    { intros Hempty. apply Hsize. by rewrite Hempty. }
    rewrite extract_all_lookup in Hk. case_decide; [|done].
    exists k. split; [done|]. by eexists. }
  split; [|split; [exact Hp2|split]].
  - intros k f df Hin Hdf. destruct (Hcleaned k f df Hin Hdf) as (o & Ho & Hk).
    exists o. split; [done|]. split; [done|]. by apply Hp1.
  - intros t Ht.
    destruct (Hbuilt t (all_derived_complete t) Ht) as (tbl & Htbl & Hin).
    exists tbl. split; [done|]. by apply Ha1.
  - intros file Hfile. apply Ha2. intros name [tbl Htbl] ->.
    destruct (decide (name ∈ derived_name <$> all_derived)) as [Hin|Hno].
    + apply list_elem_of_fmap in Hin as (t & -> & _).
      destruct (DataLoader.all_in (required t) clean) eqn:Hall.
      * apply all_in_buildable in Hall. by apply (Hfile t).
      * rewrite Hother, lookup_empty in Htbl; [done|].
        intros t' _ Hb' Heq%derived_name_inj. subst t'.
        apply all_in_buildable in Hb'. congruence.
    + rewrite Hother, lookup_empty in Htbl; [done|].
      intros t _ _ ->. apply Hno. apply list_elem_of_fmap_2.
      apply all_derived_complete.
Qed.

(** Runs that fail.  [run_etl] returns [False] and writes nothing when
    [data/raw] does not exist, when none of the seven files can be read,
    and when the cleaning operation of a table read raises.  When every
    table read is cleaned and the builder of a derived table whose entities
    were all read raises, it returns [False] and writes no file of
    [data/analytics]. *)
Theorem run_etl_failure (d : disk) :
  (raw_dir d = None → run_etl d = (false, d))
  ∧ ∀ read_csv,
      raw_dir d = Some read_csv →
      ((∀ k, k ∈ entity_names → read_csv (k +:+ ".csv") = None) →
       run_etl d = (false, d))
      ∧ (∀ k f df e,
           (k, f) ∈ cleaners → read_csv (k +:+ ".csv") = Some df →
           f df = Raise e →
           run_etl d = (false, d))
      ∧ (∀ clean t e,
           transform_all (DataExtractor.extract_all read_csv) = Ok clean →
           buildable t clean → builder t clean = Raise e →
           (run_etl d).1 = false
           ∧ analytics_dir (run_etl d).2 = analytics_dir d).
Proof.
  unfold run_etl. split; [by intros ->|].
  intros read_csv ->. split; [|split].
  - intros Hnone.
    assert (DataExtractor.extract_all read_csv = ∅) as ->.
    { apply map_eq. intros k. rewrite extract_all_lookup, lookup_empty.
      case_decide; [by apply Hnone|done]. }
    by rewrite map_size_empty.
  - intros k f df e Hin Hdf Hf. case_bool_decide; [done|].
    destruct (transform_all _) as [clean|e'] eqn:Hclean; [|done].
    destruct (cleaned_raw_data _ _ Hclean) as [_ Hcleaned].
    destruct (Hcleaned k f df Hin Hdf) as (o & Ho & _). congruence.
  - intros clean t e Hclean Ht Hb. case_bool_decide; [done|].
    rewrite Hclean.
    destruct (DataLoader.create_analytics_tables clean) as [analytics|e']
      eqn:Hanalytics; [|done].
    rewrite create_analytics_tables_blocks in Hanalytics.
    apply build_blocks_Ok in Hanalytics as [Hbuilt _];
      [|apply all_derived_NoDup].
    destruct (Hbuilt t (all_derived_complete t) Ht) as (tbl & Htbl & _).
    congruence.
Qed.

End run_etl.

Lemma run_etl_success_witness :
  (@run_etl Reader.iso_reader (disk_of raw_files)).1 = true
  ∧ is_Some (analytics_dir (@run_etl Reader.iso_reader (disk_of raw_files)).2
               !! "ordenes_completas.csv")
  ∧ processed_dir (@run_etl Reader.iso_reader (disk_of raw_files)).2
      !! "materiales_limpio.csv" = None.
Proof.
  assert ((@run_etl Reader.iso_reader (disk_of raw_files)).1 = true) as Htrue
    by (vm_compute; reflexivity).
  destruct (@run_etl Reader.iso_reader (disk_of raw_files)) as [b d'] eqn:Hrun.
  cbn [fst snd] in *. subst b. split; [reflexivity|].
  destruct (run_etl_success _ _ Hrun)
    as (read_csv & clean & Hraw & _ & _ & Hdom & _ & Hp & Ha & _).
  clear Hrun. injection Hraw as <-. split.
  - destruct (Ha OrdenesCompletas) as (tbl & _ & Htbl);
      [|exists tbl; exact Htbl].
    intros k Hk. apply Hdom. clear Hdom Hp Ha. unfold required in Hk.
    repeat (apply elem_of_cons in Hk as [->|Hk]);
      try (by apply elem_of_nil in Hk);
      (split; [unfold entity_names; repeat first [by left|right]
              |vm_compute; eexists; reflexivity]).
  - rewrite (Hp "materiales_limpio.csv"); [reflexivity|].
    intros k [Hk Hread]%Hdom. clear Hdom Hp Ha. unfold entity_names in Hk.
    repeat (apply elem_of_cons in Hk as [->|Hk]);
      try (by apply elem_of_nil in Hk);
      try (intros Heq; vm_compute in Heq; discriminate Heq).
    vm_compute in Hread. by destruct Hread.
Defined.

(** The run on the order lines with a product name, its writes succeeding:
    the five cleaned tables are written, and no derived table. *)
Example failed_run_writes_cleaned_tables :
  let run := @run_etl Reader.iso_reader (disk_of raw_files_with_product_name) in
  run.1 = false
  ∧ (map_to_list (processed_dir run.2)).*1
    ≡ₚ ["clientes_limpio.csv"; "empleados_limpio.csv"; "productos_limpio.csv";
        "ordenes_produccion_limpio.csv"; "detalles_orden_limpio.csv"]
  ∧ analytics_dir run.2 = ∅.
Proof.
  split; [vm_compute; reflexivity|]. split; [|vm_compute; reflexivity].
  apply (bool_decide_unpack _). vm_compute. reflexivity.
Qed.

(** [extract_all] loads the entities, among the seven it knows, whose file
    [<entity>.csv] can be read, each as it was read: a file that is missing
    or cannot be read is left out without an exception, so that the result
    has at most seven tables, and no other file of the directory has any
    influence on it. *)
Theorem extract_all_loads_readable_entities
    (read_csv : string → option DataFrame) :
  (∀ k df, DataExtractor.extract_all read_csv !! k = Some df
           ↔ k ∈ entity_names ∧ read_csv (k +:+ ".csv") = Some df)
  ∧ size (DataExtractor.extract_all read_csv) ≤ 7
  ∧ (∀ read_csv' : string → option DataFrame,
       (∀ k, k ∈ entity_names →
             read_csv' (k +:+ ".csv") = read_csv (k +:+ ".csv")) →
       DataExtractor.extract_all read_csv'
       = DataExtractor.extract_all read_csv).
Proof.
  split; [|split].
  - intros k df. rewrite extract_all_lookup. case_decide; naive_solver.
  - rewrite <- size_dom.
    transitivity (size (list_to_set (C := gset string) entity_names)).
    + apply subseteq_size. intros k [df Hk]%elem_of_dom.
      rewrite extract_all_lookup in Hk. case_decide; [|done].
      by apply elem_of_list_to_set.
    + by vm_compute.
  - intros read_csv' Hsame. apply map_eq. intros k.
    rewrite !extract_all_lookup. case_decide; [by apply Hsame|done].
Qed.
